(** * PCWG correction chain: a shallow embedding of [pcwg/core/corrections.py]

    The Python module chains named corrections over a shared pandas
    data frame.  The embedding keeps the shape of the source:

    - Python strings are [string]; [in], [str.replace] and [str.format]
      are the functions of module [PyStr];
    - Python floats are an abstract type [num] with the arithmetic the
      module uses ([PyFloat], [PyPow], [PyFormat]); two interpretations
      are given, exact rationals (executable) and the real numbers (for
      the cube root of the density correction);
    - a data frame is the list of its rows, a row a finite map from
      column keys to numbers; a column key is a [str] or [None];
    - objects are records whose optional attributes are [attr] values;
    - constructors and [finalise] run in a state-and-exception monad over
      the shared data frame, the status sink and the deviation matrix. *)

From Stdlib Require Import String Ascii QArith Qabs Qround Reals Lra Lia.
From Stdlib Require Import DecimalString.
From stdpp Require Import base option gmap strings list.

(** ** Python strings *)

Module PyStr.

(** [sub in s] *)
Fixpoint contains (sub s : string) : bool :=
  String.prefix sub s ||
  match s with
  | EmptyString => false
  | String _ s' => contains sub s'
  end.

(** The number of positions of [s] at which [sub] starts. *)
Fixpoint occurrences (sub s : string) : nat :=
  (if String.prefix sub s then 1 else 0) +
  match s with
  | EmptyString => 0
  | String _ s' => occurrences sub s'
  end.

(** The number of characters of [s] equal to [c]. *)
Fixpoint count_char (c : ascii) (s : string) : nat :=
  match s with
  | EmptyString => 0
  | String d s' => (if Ascii.eqb c d then 1 else 0) + count_char c s'
  end.

(** The scan of [str.replace] for a non-empty [old]: [skip] counts the
    characters of a match that are still to be passed over. *)
Fixpoint replace_from (old new : string) (skip : nat) (s : string) : string :=
  match s with
  | EmptyString => EmptyString
  | String c s' =>
      match skip with
      | S k => replace_from old new k s'
      | O =>
          if String.prefix old s
          then new +:+ replace_from old new (String.length old - 1) s'
          else String c (replace_from old new 0 s')
      end
  end.

(** For an empty [old] Python puts [new] before every character and at
    the end. *)
Fixpoint interleave (new s : string) : string :=
  match s with
  | EmptyString => new
  | String c s' => new +:+ String c (interleave new s')
  end.

(** [s.replace(old, new)]: every occurrence, left to right, without
    overlap. *)
Definition replace (old new s : string) : string :=
  match old with
  | EmptyString => interleave new s
  | String _ _ => replace_from old new 0 s
  end.

(** ["{0}".format(n)] for a non-negative integer. *)
Definition format_nat (n : nat) : string :=
  NilZero.string_of_uint (Nat.to_uint n).

(** [sep.join(parts)] *)
Fixpoint join (sep : string) (parts : list string) : string :=
  match parts with
  | [] => EmptyString
  | [p] => p
  | p :: ps => p +:+ sep +:+ join sep ps
  end.

End PyStr.

(** ** Python floats *)

(** The float operations of the module.  [lit q] is the float written as
    the decimal literal [q]. *)
Class PyFloat (num : Type) := {
  lit : Q -> num;
  fadd : num -> num -> num;
  fmul : num -> num -> num;
  fdiv : num -> num -> num;
  fgtb : num -> num -> bool;
  feqb : num -> num -> bool
}.

(** [x ** y] *)
Class PyPow (num : Type) := {
  fpow : num -> num -> num
}.

(** ["{0}".format(x)] and ["{0:.<places>f}".format(x)]. *)
Class PyFormat (num : Type) := {
  format_general : num -> string;
  format_fixed : nat -> num -> string
}.

(** *** Exact rationals *)

Module QFloat.

Definition gtb (x y : Q) : bool := negb (Qle_bool x y).

#[global] Instance Q_float : PyFloat Q := {|
  lit := fun q => q;
  fadd := Qplus;
  fmul := Qmult;
  fdiv := Qdiv;
  fgtb := gtb;
  feqb := Qeq_bool
|}.

(** Rounding to the nearest integer, ties to even, as float formatting
    rounds. *)
Definition round_half_even (x : Q) : Z :=
  let n := Qnum x in
  let d := Zpos (Qden x) in
  let q := (n / d)%Z in
  let r := (n mod d)%Z in
  match (2 * r ?= d)%Z with
  | Lt => q
  | Gt => (q + 1)%Z
  | Eq => if Z.even q then q else (q + 1)%Z
  end.

Definition digits (n : Z) : string :=
  NilZero.string_of_uint (N.to_uint (Z.to_N n)).

Fixpoint zeros (n : nat) : string :=
  match n with
  | O => EmptyString
  | S k => String "0" (zeros k)
  end.

Definition pad_left (width : nat) (s : string) : string :=
  zeros (width - String.length s) +:+ s.

Fixpoint rstrip_zeros (s : string) : string :=
  match s with
  | EmptyString => EmptyString
  | String c s' =>
      match rstrip_zeros s' with
      | EmptyString => if Ascii.eqb c "0" then EmptyString else String c EmptyString
      | t => String c t
      end
  end.

Definition sign (x : Q) : string :=
  if (Qnum x <? 0)%Z then "-" else "".

(** The integer and fractional digits of [|x|] rounded to [places]
    decimals. *)
Definition decimal_parts (places : nat) (x : Q) : string * string :=
  let scale := (10 ^ Z.of_nat places)%Z in
  let m := round_half_even (Qabs x * inject_Z scale) in
  (digits (m / scale), pad_left places (digits (m mod scale))).

Definition fixed (places : nat) (x : Q) : string :=
  let '(i, f) := decimal_parts places x in
  match places with
  | O => sign x +:+ i
  | S _ => sign x +:+ i +:+ "." +:+ f
  end.

(** The plain rendering: the decimal expansion to twelve places without
    trailing zeros, one fractional digit at least.  It agrees with
    Python's on values with a short exact expansion ([2.5], [3.0],
    [0.05]); Python switches to twelve significant digits and to
    exponents beyond that. *)
Definition general (x : Q) : string :=
  let '(i, f) := decimal_parts 12 x in
  let f' := rstrip_zeros f in
  sign x +:+ i +:+ "." +:+ (if String.eqb f' "" then "0" else f').

#[global] Instance Q_format : PyFormat Q := {|
  format_general := general;
  format_fixed := fixed
|}.

End QFloat.

(** *** Real numbers *)

Module RFloat.

Definition gtb (x y : R) : bool := if Rlt_dec y x then true else false.
Definition eqb (x y : R) : bool := if Req_dec_T x y then true else false.

#[global] Instance R_float : PyFloat R := {|
  lit := Q2R;
  fadd := Rplus;
  fmul := Rmult;
  fdiv := Rdiv;
  fgtb := gtb;
  feqb := eqb
|}.

(** [x ** y] where it is a real number: [exp (y * ln x)] for a base
    [x > 0], and [0.0] for the base [0.0] with an exponent [y > 0].  A
    negative base with a fractional exponent has no real value (numpy
    gives [nan], a plain float raises), and [0.0 ** y] for [y <= 0] is
    [1.0] or an error: a statement over the reals keeps its bases
    positive, or zero with a positive exponent, by hypothesis. *)
Definition pow (x y : R) : R :=
  if Rlt_dec 0 x then Rpower x y else 0.

#[global] Instance R_pow : PyPow R := {|
  fpow := pow
|}.

(** A real number has no decimal rendering that can be computed: where
    a message shows one, this formatter leaves a placeholder. *)
Definition unrendered : PyFormat R := {|
  format_general := fun _ => "<float>";
  format_fixed := fun _ _ => "<float>"
|}.

End RFloat.

(** ** Objects, exceptions and the shared state *)

(** A column key: a [str], or [None] (the key of [Source(None)]). *)
Abbreviation column := (option string).

(** ["{0}".format(c)] for a column key. *)
Definition format_column (c : column) : string :=
  match c with
  | Some s => s
  | None => "None"
  end.

(** An attribute of an object: set or not. *)
Inductive attr (A : Type) : Type :=
| Absent
| Has (a : A).
Arguments Absent {A}.
Arguments Has {A} a.

(** An argument of a call: passed or left out. *)
Inductive arg (A : Type) : Type :=
| Missing
| Passed (a : A).
Arguments Missing {A}.
Arguments Passed {A} a.

Inductive exn : Type :=
| Exception (message : string)
| KeyError (key : column)
| AttributeError (attribute : string)
| TypeError (message : string).

Inductive result (A : Type) : Type :=
| Return (a : A)
| Raise (e : exn).
Arguments Return {A} a.
Arguments Raise {A} e.

(** One [Status.add(message, red=..., orange=...)]. *)
Record status_entry : Type := StatusEntry {
  message : string;
  red : bool;
  orange : bool
}.

(** The power-curve collaborator: [power(windSpeed)], the turbulence
    variant [power(windSpeed, turbulenceIntensity)], and [ratedPower].
    The class of the curve is not part of these sources.  An object of
    it is taken as what its three members give: the two methods are
    functions that return a number for every argument, so an exception
    raised inside the curve is outside the model, and a statement about
    a curve holds for the calls of the curve that return.  How the two
    methods depend on the rated power of the same object is the curve's
    own business: the record does not tie them together. *)
Module PowerCurve.

Record t (num : Type) : Type := new {
  power : num -> num;
  power_turbulence : num -> num -> num;
  ratedPower : num
}.
Arguments new {num}.
Arguments power {num} _ _.
Arguments power_turbulence {num} _ _ _.
Arguments ratedPower {num} _.

End PowerCurve.

(** A dimension of a deviation matrix. *)
Record dimension (num : Type) : Type := {
  parameter : string;
  centerOfFirstBin : num;
  centerOfLastBin : num
}.
Arguments parameter {num} _.
Arguments centerOfFirstBin {num} _.
Arguments centerOfLastBin {num} _.

(** The deviation-matrix collaborator; [pdm] is the state of the matrix
    object, which a lookup changes (it counts values out of range). *)
Class DeviationMatrix (num pdm : Type) := {
  dimensions : pdm -> list (dimension num);
  getitem : pdm -> gmap string num -> num * pdm;
  reset_out_of_range_count : pdm -> pdm;
  out_of_range_fraction : pdm -> option string -> num;
  below_fraction : pdm -> string -> num;
  above_fraction : pdm -> string -> num
}.

(** A node of a chain: a [Source] or a [Correction] object. *)
#[warnings="-register-all"]
Inductive node (num : Type) : Type := Node {
  source : option (node num);
  raw : bool;
  wind_speed_based : bool;
  power_based : bool;
  correction_name : attr string;
  wind_speed_column : attr column;
  power_column : attr column;
  power_curve : attr (option (PowerCurve.t num));
  reference_density : attr num
}.
Arguments Node {num}.
Arguments source {num} _.
Arguments raw {num} _.
Arguments wind_speed_based {num} _.
Arguments power_based {num} _.
Arguments correction_name {num} _.
Arguments wind_speed_column {num} _.
Arguments power_column {num} _.
Arguments power_curve {num} _.
Arguments reference_density {num} _.

(** [self.power_curve], where an argument of the same name is in scope. *)
Definition node_power_curve {num} (self : node num) : attr (option (PowerCurve.t num)) :=
  power_curve self.

Definition set_wind_speed_column {num} (self : node num) (c : column) : node num :=
  Node (source self) (raw self) (wind_speed_based self) (power_based self)
       (correction_name self) (Has c) (power_column self) (power_curve self)
       (reference_density self).

Definition set_power_column {num} (self : node num) (c : column) : node num :=
  Node (source self) (raw self) (wind_speed_based self) (power_based self)
       (correction_name self) (wind_speed_column self) (Has c) (power_curve self)
       (reference_density self).

Definition set_power_curve {num} (self : node num) (p : option (PowerCurve.t num)) : node num :=
  Node (source self) (raw self) (wind_speed_based self) (power_based self)
       (correction_name self) (wind_speed_column self) (power_column self) (Has p)
       (reference_density self).

Definition set_reference_density {num} (self : node num) (d : num) : node num :=
  Node (source self) (raw self) (wind_speed_based self) (power_based self)
       (correction_name self) (wind_speed_column self) (power_column self)
       (power_curve self) (Has d).

(** The shared mutable objects: the data frame every stage writes to,
    the process-wide status sink, and the deviation matrix. *)
Record world (num pdm : Type) : Type := World {
  frame : list (gmap column num);
  status : list status_entry;
  deviation_matrix : pdm
}.
Arguments World {num pdm}.
Arguments frame {num pdm} _.
Arguments status {num pdm} _.
Arguments deviation_matrix {num pdm} _.

(** A computation that may raise; writes made before a raise stay. *)
Definition M (num pdm A : Type) : Type := world num pdm -> result A * world num pdm.

#[global] Instance M_ret {num pdm} : MRet (M num pdm) :=
  fun A a w => (Return a, w).

#[global] Instance M_bind {num pdm} : MBind (M num pdm) :=
  fun A B f c w =>
    match c w with
    | (Return a, w') => f a w'
    | (Raise e, w') => (Raise e, w')
    end.

Definition raise {num pdm A} (e : exn) : M num pdm A :=
  fun w => (Raise e, w).

Definition lift {num pdm A} (r : result A) : M num pdm A :=
  fun w => (r, w).

(** [obj.name] *)
Definition getattr {num pdm A} (name : string) (a : attr A) : M num pdm A :=
  match a with
  | Has v => mret v
  | Absent => raise (AttributeError name)
  end.

(** [row[c]] *)
Definition row_get {num} (row : gmap column num) (c : column) : result num :=
  match row !! c with
  | Some v => Return v
  | None => Raise (KeyError c)
  end.

Module Status.

(** [Status.add(message, red=red, orange=orange)] *)
Definition add {num pdm} (message : string) (red orange : bool) : M num pdm unit :=
  fun w => (Return tt,
            World (frame w) (status w ++ [StatusEntry message red orange])
                  (deviation_matrix w)).

End Status.

Module DataFrame.

Fixpoint apply_rows {num pdm} (f : gmap column num -> M num pdm num)
    (rows : list (gmap column num)) : M num pdm (list num) :=
  match rows with
  | [] => mret []
  | r :: rs => v ← f r; vs ← apply_rows f rs; mret (v :: vs)
  end.

(** [data_frame.apply(f, axis=1)]: [f] on every row, in order. *)
Definition apply {num pdm} (f : gmap column num -> M num pdm num) : M num pdm (list num) :=
  fun w => apply_rows f (frame w) w.

(** [data_frame[c] = values]: the column is added, or overwritten. *)
Definition setitem {num pdm} (c : column) (values : list num) : M num pdm unit :=
  fun w => (Return tt,
            World (zip_with (fun r v => <[c := v]> r) (frame w) values)
                  (status w) (deviation_matrix w)).

End DataFrame.

(** ** Calculators *)

Module PowerCalculator.

Record t (num : Type) : Type := new {
  powerCurve : PowerCurve.t num;
  windSpeedColumn : column
}.
Arguments new {num}.
Arguments powerCurve {num} _.
Arguments windSpeedColumn {num} _.

Definition power {num} (self : t num) (row : gmap column num) : result num :=
  match row_get row (windSpeedColumn self) with
  | Return ws => Return (PowerCurve.power (powerCurve self) ws)
  | Raise e => Raise e
  end.

End PowerCalculator.

Module DensityCorrectionCalculator.

Record t (num : Type) : Type := new {
  referenceDensity : num;
  windSpeedColumn : column;
  densityColumn : column
}.
Arguments new {num}.
Arguments referenceDensity {num} _.
Arguments windSpeedColumn {num} _.
Arguments densityColumn {num} _.

Definition densityCorrectedHubWindSpeed {num} `{PyFloat num} `{PyPow num}
    (self : t num) (row : gmap column num) : result num :=
  match row_get row (windSpeedColumn self) with
  | Return ws =>
      match row_get row (densityColumn self) with
      | Return density =>
          Return (fmul ws (fpow (fdiv density (referenceDensity self))
                                (fdiv (lit 1) (lit 3))))
      | Raise e => Raise e
      end
  | Raise e => Raise e
  end.

End DensityCorrectionCalculator.

Module TurbulencePowerCalculator.

Record t (num : Type) : Type := new {
  powerCurve : PowerCurve.t num;
  ratedPower : num;
  windSpeedColumn : column;
  turbulenceColumn : column
}.
Arguments new {num}.
Arguments powerCurve {num} _.
Arguments ratedPower {num} _.
Arguments windSpeedColumn {num} _.
Arguments turbulenceColumn {num} _.

Definition power {num} (self : t num) (row : gmap column num) : result num :=
  match row_get row (windSpeedColumn self) with
  | Return ws =>
      match row_get row (turbulenceColumn self) with
      | Return ti => Return (PowerCurve.power_turbulence (powerCurve self) ws ti)
      | Raise e => Raise e
      end
  | Raise e => Raise e
  end.

End TurbulencePowerCalculator.

Module PowerDeviationMatrixPowerCalculator.

(** [powerDeviationMatrix] is the shared matrix object of the world. *)
Record t (num : Type) : Type := new {
  powerCurve : option (PowerCurve.t num);
  windSpeedColumn : column;
  parameterColumns : gmap string column
}.
Arguments new {num}.
Arguments powerCurve {num} _.
Arguments windSpeedColumn {num} _.
Arguments parameterColumns {num} _.

(** The loop over the dimensions that fills [parameters]. *)
Fixpoint collect {num} (self : t num) (row : gmap column num)
    (dims : list (dimension num)) (parameters : gmap string num)
    : result (gmap string num) :=
  match dims with
  | [] => Return parameters
  | d :: ds =>
      match parameterColumns self !! parameter d with
      | None => Raise (KeyError (Some (parameter d)))
      | Some c =>
          match row_get row c with
          | Return value => collect self row ds (<[parameter d := value]> parameters)
          | Raise e => Raise e
          end
      end
  end.

Definition power {num pdm} `{PyFloat num} `{DeviationMatrix num pdm}
    (self : t num) (row : gmap column num) : M num pdm num :=
  fun w =>
    match collect self row (dimensions (deviation_matrix w)) ∅ with
    | Raise e => (Raise e, w)
    | Return parameters =>
        let '(deviation, m') := getitem (deviation_matrix w) parameters in
        let w' := World (frame w) (status w) m' in
        match powerCurve self with
        | None => (Raise (AttributeError "power"), w')
        | Some pc =>
            match row_get row (windSpeedColumn self) with
            | Raise e => (Raise e, w')
            | Return ws =>
                (Return (fmul (PowerCurve.power pc ws) (fadd (lit 1) deviation)), w')
            end
        end
    end.

End PowerDeviationMatrixPowerCalculator.

(** ** The chain *)

Module Source.

Definition init {num} (source_column : column) : node num :=
  {| source := None;
     wind_speed_column := Has source_column;
     raw := true;
     wind_speed_based := true;
     power_based := false;
     correction_name := Absent;
     power_column := Absent;
     power_curve := Absent;
     reference_density := Absent |}.

Definition finalise {num pdm} (self : node num)
    (power_curve : option (PowerCurve.t num)) : M num pdm (node num) :=
  wsc ← getattr "wind_speed_column" (wind_speed_column self);
  self' ←
    match power_curve with
    | Some pc =>
        let self' := set_power_column self (Some (format_column wsc +:+ " Power")) in
        values ← DataFrame.apply
                   (fun row => lift (PowerCalculator.power (PowerCalculator.new pc wsc) row));
        DataFrame.setitem (Some (format_column wsc +:+ " Power")) values;;
        mret self'
    | None => mret (set_power_column self None)
    end;
  Status.add (format_column wsc +:+ " Power Complete.") false false;;
  mret self'.

End Source.

Module Correction.

Definition can_chain {num} (source : node num) : bool :=
  wind_speed_based source.

(** The argument [correction_name] of the source is written [label]
    here; [correction_name] is the attribute. *)
Definition calculate_name {num pdm} (source : node num) (label : string)
    : M num pdm string :=
  if raw source then mret label
  else
    name ← getattr "correction_name" (correction_name source);
    let name :=
      if PyStr.contains "&" name then PyStr.replace " & " ", " name else name in
    mret (name +:+ " & " +:+ label).

Definition init {num pdm} (label : string) (source : node num)
    (wind_speed_based : bool) : M num pdm (node num) :=
  if negb (can_chain source) then
    name ← getattr "correction_name" (correction_name source);
    raise (Exception (label +:+ " cannot follow " +:+ name))
  else
    name ← calculate_name source label;
    Status.add ("Performing " +:+ name +:+ " Correction...") false false;;
    mret {| wind_speed_based := wind_speed_based;
            power_based := negb wind_speed_based;
            correction_name := Has name;
            source := Some source;
            raw := false;
            wind_speed_column := Absent;
            power_column := Absent;
            power_curve := Absent;
            reference_density := Absent |}.

End Correction.

Module WindSpeedBasedCorrection.

Definition init {num pdm} (label : string) (source : node num) : M num pdm (node num) :=
  self ← Correction.init label source true;
  name ← getattr "correction_name" (correction_name self);
  mret (set_wind_speed_column self (Some (name +:+ " Wind Speed"))).

Definition finalise {num pdm} (self : node num)
    (power_curve : option (PowerCurve.t num)) : M num pdm (node num) :=
  name ← getattr "correction_name" (correction_name self);
  self' ←
    match power_curve with
    | Some pc =>
        let self' := set_power_column self (Some (name +:+ " Power")) in
        wsc ← getattr "wind_speed_column" (wind_speed_column self');
        values ← DataFrame.apply
                   (fun row => lift (PowerCalculator.power (PowerCalculator.new pc wsc) row));
        DataFrame.setitem (Some (name +:+ " Power")) values;;
        mret self'
    | None => mret (set_power_column self None)
    end;
  Status.add (name +:+ " Correction Complete.") false false;;
  mret self'.

End WindSpeedBasedCorrection.

Module PowerBasedCorrection.

(** [power_curve] is a required positional parameter: a call that leaves
    it out raises [TypeError] before the body runs. *)
Definition init {num pdm} (label : string) (source : node num)
    (power_curve : arg (option (PowerCurve.t num))) : M num pdm (node num) :=
  match power_curve with
  | Missing => raise (TypeError "__init__() takes exactly 4 arguments (3 given)")
  | Passed pc =>
      self ← Correction.init label source false;
      name ← Correction.calculate_name source label;
      mret (set_power_curve (set_power_column self (Some (name +:+ " Power"))) pc)
  end.

(** [calculator] is the bound method [calculator.power]. *)
Definition finalise {num pdm} (self : node num)
    (calculator : gmap column num -> M num pdm num) : M num pdm unit :=
  values ← DataFrame.apply calculator;
  pcol ← getattr "power_column" (power_column self);
  DataFrame.setitem pcol values;;
  name ← getattr "correction_name" (correction_name self);
  Status.add (name +:+ " Correction Complete.") false false.

End PowerBasedCorrection.

(** ** The concrete corrections *)

Module DensityEquivalentWindSpeed.

Definition init {num pdm} `{PyFloat num} `{PyPow num} `{PyFormat num}
    (source : node num) (reference_density : num) (hub_density_column : column)
    (power_curve : option (PowerCurve.t num)) : M num pdm (node num) :=
  self ← WindSpeedBasedCorrection.init "Density" source;
  let self := set_reference_density self reference_density in
  Status.add ("Correcting to reference density of "
              +:+ format_fixed 4 reference_density +:+ " kg/m^3") false false;;
  swc ← getattr "wind_speed_column" (wind_speed_column source);
  let calculator :=
    DensityCorrectionCalculator.new reference_density swc hub_density_column in
  values ← DataFrame.apply
             (fun row =>
                lift (DensityCorrectionCalculator.densityCorrectedHubWindSpeed calculator row));
  wsc ← getattr "wind_speed_column" (wind_speed_column self);
  DataFrame.setitem wsc values;;
  WindSpeedBasedCorrection.finalise self power_curve.

End DensityEquivalentWindSpeed.

Module RotorEquivalentWindSpeed.

Definition exponent_type {num} `{PyFloat num} `{PyFormat num} (rewsExponent : num) : string :=
  if feqb rewsExponent (lit 3) then "REWS"
  else if feqb rewsExponent (lit 2) then "RAWS"
  else "REWS-Exponent=" +:+ format_general rewsExponent.

Definition rews_type (rewsVeer rewsUpflow : bool) : string :=
  let rews_type := "Speed" in
  let rews_type := if rewsVeer then rews_type +:+ "+Veer" else rews_type in
  if rewsUpflow then rews_type +:+ "+Upflow" else rews_type.

(** The label handed to [WindSpeedBasedCorrection.__init__]. *)
Definition label {num} `{PyFloat num} `{PyFormat num}
    (rewsVeer rewsUpflow : bool) (rewsExponent : num) : string :=
  exponent_type rewsExponent +:+ " (" +:+ rews_type rewsVeer rewsUpflow +:+ ")".

(** The constructor up to its chaining call.  The ratio and wind-speed
    columns and the deviation matrix that follow are built by pandas'
    [concat] and by the matrix definition, outside this module. *)
Definition init_chain {num pdm} `{PyFloat num} `{PyFormat num}
    (source : node num) (rewsVeer rewsUpflow : bool) (rewsExponent : num)
    : M num pdm (node num) :=
  WindSpeedBasedCorrection.init (label rewsVeer rewsUpflow rewsExponent) source.

End RotorEquivalentWindSpeed.

Module TurbulenceCorrection.

Definition init {num pdm} (source : node num) (hub_turbulence_column : column)
    (power_curve : option (PowerCurve.t num)) : M num pdm (node num) :=
  self ← PowerBasedCorrection.init "Turbulence" source (Passed power_curve);
  curve ← getattr "power_curve" (node_power_curve self);
  match curve with
  | None => raise (AttributeError "ratedPower")
  | Some pc =>
      swc ← getattr "wind_speed_column" (wind_speed_column source);
      let calculator :=
        TurbulencePowerCalculator.new pc (PowerCurve.ratedPower pc) swc
                                      hub_turbulence_column in
      PowerBasedCorrection.finalise self
        (fun row => lift (TurbulencePowerCalculator.power calculator row));;
      mret self
  end.

End TurbulenceCorrection.

Module PowerDeviationMatrixCorrection.

(** A call of the matrix object that reads it. *)
Definition ask {num pdm A} (f : pdm -> A) : M num pdm A :=
  fun w => (Return (f (deviation_matrix w)), w).

(** A call of the matrix object that changes it. *)
Definition tell {num pdm} (f : pdm -> pdm) : M num pdm unit :=
  fun w => (Return tt, World (frame w) (status w) (f (deviation_matrix w))).

(** The body of the loop over the dimensions. *)
Definition report_dimension {num pdm} `{PyFloat num} `{PyFormat num}
    `{DeviationMatrix num pdm} (red orange : bool) (d : dimension num)
    : M num pdm unit :=
  out ← ask (fun m => out_of_range_fraction m (Some (parameter d)));
  Status.add ("-" +:+ parameter d +:+ " values out of range "
              +:+ format_fixed 2 (fmul out (lit 100)) +:+ "% ["
              +:+ format_general (centerOfFirstBin d) +:+ " to "
              +:+ format_general (centerOfLastBin d) +:+ "]") red orange;;
  below ← ask (fun m => below_fraction m (parameter d));
  Status.add ("--" +:+ format_fixed 2 (fmul below (lit 100)) +:+ "% values below")
             red orange;;
  above ← ask (fun m => above_fraction m (parameter d));
  Status.add ("--" +:+ format_fixed 2 (fmul above (lit 100)) +:+ "% values above")
             red orange.

Fixpoint report_dimensions {num pdm} `{PyFloat num} `{PyFormat num}
    `{DeviationMatrix num pdm} (red orange : bool) (dims : list (dimension num))
    : M num pdm unit :=
  match dims with
  | [] => mret tt
  | d :: ds => report_dimension red orange d;; report_dimensions red orange ds
  end.

Definition init {num pdm} `{PyFloat num} `{PyFormat num} `{DeviationMatrix num pdm}
    (source : node num) (parameter_columns : gmap string column)
    (power_curve : option (PowerCurve.t num)) : M num pdm (node num) :=
  n ← ask (fun m => length (dimensions m));
  let dimenionality := PyStr.format_nat n +:+ "D" in
  self ← PowerBasedCorrection.init (dimenionality +:+ " Power Deviation Matrix")
                                   source (Passed power_curve);
  tell reset_out_of_range_count;;
  swc ← getattr "wind_speed_column" (wind_speed_column source);
  let calculator :=
    PowerDeviationMatrixPowerCalculator.new power_curve swc parameter_columns in
  PowerBasedCorrection.finalise self
    (PowerDeviationMatrixPowerCalculator.power calculator);;
  fraction_out_of_range ← ask (fun m => out_of_range_fraction m None);
  let orange := fgtb fraction_out_of_range (lit 0.05) in
  let red := fgtb fraction_out_of_range (lit 0.20) in
  shown ← ask (fun m => out_of_range_fraction m None);
  Status.add ("Fraction of PDM values out of range "
              +:+ format_fixed 2 (fmul shown (lit 100)) +:+ "%") red orange;;
  dims ← ask dimensions;
  report_dimensions red orange dims;;
  mret self.

End PowerDeviationMatrixCorrection.

Module ProductionByHeightCorrection.

(** The constructor's chaining call; the per-height productions that
    follow are merged by pandas' [concat]. *)
Definition init_chain {num pdm} (power_curve : option (PowerCurve.t num))
    : M num pdm (node num) :=
  PowerBasedCorrection.init "Production by Height" (Source.init None) (Passed power_curve).

End ProductionByHeightCorrection.

Module WebServiceCorrection.

(** [web_service] is the externally supplied calculator, by its bound
    method [web_service.power].  The chaining call leaves [power_curve]
    out. *)
Definition init {num pdm} (web_service : gmap column num -> M num pdm num)
    : M num pdm (node num) :=
  self ← PowerBasedCorrection.init "WebService" (Source.init None) Missing;
  PowerBasedCorrection.finalise self web_service;;
  mret self.

End WebServiceCorrection.

(** ** Well-formed nodes *)

(** The nodes the module's constructors and [finalise] methods produce. *)
Inductive constructed {num pdm : Type} : node num -> Prop :=
| constructed_Source (c : column) :
    constructed (Source.init c)
| constructed_Source_finalise (self self' : node num) pc (w w' : world num pdm) :
    constructed self ->
    Source.finalise self pc w = (Return self', w') ->
    constructed self'
| constructed_Correction (label : string) (parent self : node num) (wsb : bool)
    (w w' : world num pdm) :
    constructed parent ->
    Correction.init label parent wsb w = (Return self, w') ->
    constructed self
| constructed_WindSpeedBased (label : string) (parent self : node num)
    (w w' : world num pdm) :
    constructed parent ->
    WindSpeedBasedCorrection.init label parent w = (Return self, w') ->
    constructed self
| constructed_WindSpeedBased_finalise (self self' : node num) pc (w w' : world num pdm) :
    constructed self ->
    WindSpeedBasedCorrection.finalise self pc w = (Return self', w') ->
    constructed self'
| constructed_PowerBased (label : string) (parent self : node num) pc
    (w w' : world num pdm) :
    constructed parent ->
    PowerBasedCorrection.init label parent pc w = (Return self, w') ->
    constructed self
| constructed_reference_density (self : node num) (d : num) :
    constructed self ->
    constructed (set_reference_density self d).
Arguments constructed {num} pdm _.

(** ** Composite names of a chain *)

(** [derived_name labels name]: [name] is what repeated applications of
    [calculate_name] give for the stages [labels], the first of them on
    a raw [Source] and each later one on a node that carries the name
    derived so far. *)
Inductive derived_name {num pdm : Type} : list string -> string -> Prop :=
| derived_first (c : column) (label name : string) (w w' : world num pdm) :
    Correction.calculate_name (Source.init (num := num) c) label w = (Return name, w') ->
    derived_name [label] name
| derived_next (labels : list string) (parent : node num)
    (parent_name label name : string) (w w' : world num pdm) :
    derived_name labels parent_name ->
    raw parent = false ->
    correction_name parent = Has parent_name ->
    Correction.calculate_name parent label w = (Return name, w') ->
    derived_name (labels ++ [label]) name.
Arguments derived_name num pdm _ _ : clear implicits.

(** The display form of a list of stages: all but the last joined by
    commas, the last one joined by an ampersand. *)
Definition display (labels : list string) : string :=
  match rev labels with
  | [] => EmptyString
  | [l] => l
  | l :: earlier => PyStr.join ", " (rev earlier) +:+ " & " +:+ l
  end.

(** A label without the character [&]. *)
Definition amp_free (s : string) : Prop := PyStr.contains "&" s = false.

(** ** Severity of a status entry *)

Inductive severity : Type :=
| Critical
| Warning
| Informational.

(** How the sink shows an entry: red, else orange, else plain. *)
Definition entry_severity (e : status_entry) : severity :=
  if red e then Critical else if orange e then Warning else Informational.

(** The bands of the report: above 0.20, above 0.05, otherwise. *)
Definition classify {num} `{PyFloat num} (fraction : num) : severity :=
  if fgtb fraction (lit 0.20) then Critical
  else if fgtb fraction (lit 0.05) then Warning
  else Informational.

(** ** A deviation matrix that counts range violations *)

(** Modelled from the spec: the deviation-matrix collaborator (module
    [power_deviation_matrix] is not among the sources).  Every lookup is
    counted; a lookup is out of range when the value of some dimension
    lies below the centre of its first bin or above the centre of its
    last bin; the fractions are counts over lookups.  The deviation
    returned is zero. *)
Module RangeMatrix.

Record t : Type := new {
  dims : list (dimension Q);
  lookups : nat;
  outside : nat;
  below : gmap string nat;
  above : gmap string nat
}.

Definition is_below (parameters : gmap string Q) (d : dimension Q) : bool :=
  match parameters !! parameter d with
  | Some v => QFloat.gtb (centerOfFirstBin d) v
  | None => false
  end.

Definition is_above (parameters : gmap string Q) (d : dimension Q) : bool :=
  match parameters !! parameter d with
  | Some v => QFloat.gtb v (centerOfLastBin d)
  | None => false
  end.

Definition bump (hit : bool) (key : string) (counts : gmap string nat) : gmap string nat :=
  if hit then <[key := S (default 0 (counts !! key))]> counts else counts.

Definition lookup (m : t) (parameters : gmap string Q) : Q * t :=
  let out := existsb (fun d => is_below parameters d || is_above parameters d) (dims m) in
  (0%Q,
   new (dims m) (S (lookups m)) (if out then S (outside m) else outside m)
       (foldr (fun d => bump (is_below parameters d) (parameter d)) (below m) (dims m))
       (foldr (fun d => bump (is_above parameters d) (parameter d)) (above m) (dims m))).

Definition reset (m : t) : t := new (dims m) 0 0 ∅ ∅.

Definition fraction (m : t) (count : nat) : Q :=
  match lookups m with
  | O => 0%Q
  | S _ => Qred (inject_Z (Z.of_nat count) / inject_Z (Z.of_nat (lookups m)))
  end.

Definition count (counts : gmap string nat) (key : string) : nat :=
  default 0 (counts !! key).

#[global] Instance matrix : DeviationMatrix Q t := {|
  dimensions := dims;
  getitem := lookup;
  reset_out_of_range_count := reset;
  out_of_range_fraction := fun m dimension =>
    match dimension with
    | None => fraction m (outside m)
    | Some p => fraction m (count (below m) p + count (above m) p)
    end;
  below_fraction := fun m p => fraction m (count (below m) p);
  above_fraction := fun m p => fraction m (count (above m) p)
|}.

End RangeMatrix.

(** ** Notions the statements use *)

(** A node is well named when a raw node is wind-speed based and every
    other node carries a composite name. *)
Definition well_named {num : Type} (P : node num) : Prop :=
  (raw P = true -> wind_speed_based P = true) /\
  (raw P = false -> exists name, correction_name P = Has name).

(** The chain rule for a constructor call [init] of a correction labelled
    [label] on the parent [P], from the state [w]: the call returns a
    node exactly when [P] is wind-speed based; otherwise it raises the
    chain error, which names [label] and the composite name of [P], and
    leaves the state as it was. *)
Definition chain_rule {num pdm : Type} (init : M num pdm (node num)) (label : string)
    (P : node num) (w : world num pdm) : Prop :=
  (wind_speed_based P = true <-> exists C w', init w = (Return C, w')) /\
  (wind_speed_based P = false ->
   exists name, correction_name P = Has name /\
     init w = (Raise (Exception (label +:+ " cannot follow " +:+ name)), w)).


(** [column_written c value before after]: [after] is [before] with the
    column [c] set, row by row, to [value] of the row. *)
Definition column_written {num : Type} (c : column)
    (value : gmap column num -> option num)
    (before after : list (gmap column num)) : Prop :=
  Forall2 (fun r r' => exists v, value r = Some v /\ r' = <[c := v]> r) before after.

(** The value the density calculator gives a row. *)
Definition density_corrected {num : Type} `{PyFloat num} `{PyPow num}
    (reference_density ws density : num) : num :=
  fmul ws (fpow (fdiv density reference_density) (fdiv (lit 1) (lit 3))).

(** The three entries the deviation report holds for a dimension. *)
Definition dimension_entries {num pdm : Type} `{PyFloat num} `{PyFormat num}
    `{DeviationMatrix num pdm} (red orange : bool) (m : pdm) (d : dimension num)
    : list status_entry :=
  [ StatusEntry ("-" +:+ parameter d +:+ " values out of range "
                 +:+ format_fixed 2 (fmul (out_of_range_fraction m (Some (parameter d)))
                                          (lit 100)) +:+ "% ["
                 +:+ format_general (centerOfFirstBin d) +:+ " to "
                 +:+ format_general (centerOfLastBin d) +:+ "]") red orange;
    StatusEntry ("--" +:+ format_fixed 2 (fmul (below_fraction m (parameter d)) (lit 100))
                 +:+ "% values below") red orange;
    StatusEntry ("--" +:+ format_fixed 2 (fmul (above_fraction m (parameter d)) (lit 100))
                 +:+ "% values above") red orange ].

(** The entry of the report for the whole matrix. *)
Definition overall_entry {num pdm : Type} `{PyFloat num} `{PyFormat num}
    `{DeviationMatrix num pdm} (red orange : bool) (m : pdm) : status_entry :=
  StatusEntry ("Fraction of PDM values out of range "
               +:+ format_fixed 2 (fmul (out_of_range_fraction m None) (lit 100)) +:+ "%")
              red orange.

(** ** Sample chains and data *)

Module Examples.

Definition w0 : world Q unit := World [] [] tt.

Definition source_WS : node Q := Source.init (Some "WS").

(** [Source("WS") -> DensityEquivalentWindSpeed] *)
Definition density : node Q :=
  Node (Some source_WS) false true false (Has "Density")
       (Has (Some "Density Wind Speed")) Absent Absent Absent.

(** [... -> RotorEquivalentWindSpeed] with exponent 3 and no flags *)
Definition rews : node Q :=
  Node (Some density) false true false (Has "Density & REWS (Speed)")
       (Has (Some "Density & REWS (Speed) Wind Speed")) Absent Absent Absent.

(** [Source("WS") -> DensityEquivalentWindSpeed -> TurbulenceCorrection] *)
Definition turbulence : node Q :=
  Node (Some density) false false true (Has "Density & Turbulence")
       Absent (Has (Some "Density & Turbulence Power")) (Has None) Absent.

(** A linear power curve. *)
Definition curve : PowerCurve.t Q :=
  PowerCurve.new (fun ws => (ws * 100)%Q) (fun ws ti => (ws * 100)%Q) 2000%Q.

(** One row of measurements: wind speed 10, density 1. *)
Definition density_row : gmap column R :=
  <[Some "WS" := lit 10]> (<[Some "Density" := lit 1]> ∅).

(** A frame of two rows with a wind-speed column. *)
Definition w_speed : world Q unit :=
  World [ <[Some "WS" := 8%Q]> ∅; <[Some "WS" := 12.5%Q]> ∅ ] [] tt.

(** The same frame after the density correction wrote its column. *)
Definition w_density : world Q unit :=
  World [ <[Some "Density Wind Speed" := 7.5%Q]> (<[Some "WS" := 8%Q]> ∅);
          <[Some "Density Wind Speed" := 12%Q]> (<[Some "WS" := 12.5%Q]> ∅) ] [] tt.

End Examples.

(** A two-dimensional matrix over four rows, one of which has a
    turbulence above the matrix's range. *)
Module PdmExample.

Definition matrix : RangeMatrix.t :=
  RangeMatrix.new
    [ {| parameter := "Turbulence"; centerOfFirstBin := 0.1%Q; centerOfLastBin := 0.2%Q |};
      {| parameter := "Shear"; centerOfFirstBin := 0%Q; centerOfLastBin := 1%Q |} ]
    0 0 ∅ ∅.

Definition row (ws ti shear : Q) : gmap column Q :=
  <[Some "WS" := ws]> (<[Some "TI" := ti]> (<[Some "Shear Exponent" := shear]> ∅)).

Definition w : world Q RangeMatrix.t :=
  World [row 8 0.15 0.5; row 9 0.15 0.5; row 10 0.15 0.5; row 11 0.5 0.5] [] matrix.

Definition parameter_columns : gmap string column :=
  <["Turbulence" := Some "TI"]> (<["Shear" := Some "Shear Exponent"]> ∅).

Definition run : result (node Q) * world Q RangeMatrix.t :=
  PowerDeviationMatrixCorrection.init (Source.init (Some "WS")) parameter_columns
    (Some Examples.curve) w.

End PdmExample.

(** A frame of two rows with wind speed, air density and turbulence, in
    real arithmetic, and a linear power curve. *)
Module SiteExample.

Definition curve : PowerCurve.t R :=
  PowerCurve.new (fun ws => (ws * 100)%R) (fun ws ti => (ws * 100 * (1 + ti))%R) 2000%R.

Definition w : world R unit :=
  World [ <[Some "WS" := lit 8]> (<[Some "Density" := lit 1.2]> (<[Some "TI" := lit 0.1]> ∅));
          <[Some "WS" := lit 12.5]>
            (<[Some "Density" := lit 1.1]> (<[Some "TI" := lit 0.2]> ∅)) ]
        [] tt.

End SiteExample.

(** ** The power curve as the specification describes it *)

(** The class of the power curve is not in these sources.  The
    specification gives its interface ([power(windSpeed)], the
    turbulence variant [power(windSpeed, turbulenceIntensity)],
    [ratedPower]) and describes the rated power as "the power-curve
    model's maximum/nameplate output".  [SpecCurve.capped base rated] is
    a curve after that description: the powers of [base], held at
    [rated] where they are above it.  It stands in for the absent class
    where a statement varies the rated power of a curve, and nowhere
    else. *)
Module SpecCurve.

(** [min([rated, p])] *)
Definition at_most {num : Type} `{PyFloat num} (rated p : num) : num :=
  if fgtb p rated then rated else p.

Definition capped {num : Type} `{PyFloat num} (base : PowerCurve.t num) (rated : num)
    : PowerCurve.t num :=
  PowerCurve.new (fun ws => at_most rated (PowerCurve.power base ws))
                 (fun ws ti => at_most rated (PowerCurve.power_turbulence base ws ti))
                 rated.

End SpecCurve.

(** ** Notions of the chain, frame and matrix properties *)

(** The stages before a node, nearest first. *)
Fixpoint ancestors {num : Type} (n : node num) : list (node num) :=
  match source n with
  | Some p => p :: ancestors p
  | None => []
  end.

(** What the chain keeps true of every node. *)
Definition chain_shape {num : Type} (P : node num) : Prop :=
  power_based P = negb (wind_speed_based P) /\
  (raw P = true <-> source P = None) /\
  Forall (fun a => wind_speed_based a = true) (ancestors P).

(** The state after the opening message of a correction named [name]. *)
Definition performing {num pdm : Type} (name : string) (w : world num pdm)
    : world num pdm :=
  World (frame w)
        (status w ++ [StatusEntry ("Performing " +:+ name +:+ " Correction...") false false])
        (deviation_matrix w).

(** The node [DensityEquivalentWindSpeed] returns on a parent whose chain
    is then named [name]. *)
Definition density_node {num : Type} (source : node num) (name : string)
    (reference_density : num) (power_curve : option (PowerCurve.t num)) : node num :=
  Node (Some source) false true false (Has name) (Has (Some (name +:+ " Wind Speed")))
       (Has (match power_curve with
             | Some _ => Some (name +:+ " Power")
             | None => None
             end))
       Absent (Has reference_density).

(** A row before and after the density correction. *)
Definition density_row_written {num : Type} `{PyFloat num} `{PyPow num}
    (swc hub : column) (name : string) (reference_density : num)
    (power_curve : option (PowerCurve.t num)) (r r' : gmap column num) : Prop :=
  exists ws density,
    r !! swc = Some ws /\ r !! hub = Some density /\
    r' = match power_curve with
         | Some pc =>
             <[Some (name +:+ " Power") :=
                 PowerCurve.power pc (density_corrected reference_density ws density)]>
               (<[Some (name +:+ " Wind Speed") :=
                    density_corrected reference_density ws density]> r)
         | None =>
             <[Some (name +:+ " Wind Speed") :=
                 density_corrected reference_density ws density]> r
         end.

(** The power the turbulence calculator gives a row. *)
Definition turbulence_power {num : Type} (pc : PowerCurve.t num) (swc tic : column)
    (r : gmap column num) : option num :=
  match r !! swc, r !! tic with
  | Some ws, Some ti => Some (PowerCurve.power_turbulence pc ws ti)
  | _, _ => None
  end.

(** The value [row[self.parameterColumns[p]]] of a parameter [p], where
    both lookups succeed. *)
Definition parameter_value {num : Type}
    (self : PowerDeviationMatrixPowerCalculator.t num) (row : gmap column num)
    (p : string) : option num :=
  match PowerDeviationMatrixPowerCalculator.parameterColumns self !! p with
  | Some c => row !! c
  | None => None
  end.

(** The dict the calculator's loop builds for a row: one entry per
    dimension whose parameter resolves, later dimensions overwriting. *)
Definition row_parameters {num : Type} (self : PowerDeviationMatrixPowerCalculator.t num)
    (dims : list (dimension num)) (row : gmap column num) : gmap string num :=
  foldl (fun parameters d =>
           match parameter_value self row (parameter d) with
           | Some value => <[parameter d := value]> parameters
           | None => parameters
           end) ∅ dims.

(** The lookups of a pass over the rows, first row first: the deviations
    the matrix answers and the state it is left in. *)
Fixpoint matrix_pass {num pdm : Type} `{DeviationMatrix num pdm}
    (self : PowerDeviationMatrixPowerCalculator.t num) (m : pdm)
    (rows : list (gmap column num)) : list num * pdm :=
  match rows with
  | [] => ([], m)
  | row :: rows =>
      let '(deviation, m1) := getitem m (row_parameters self (dimensions m) row) in
      let '(deviations, m2) := matrix_pass self m1 rows in
      (deviation :: deviations, m2)
  end.

(** The rows a pass can serve: the wind speed is there and every
    dimension's parameter resolves. *)
Definition servable {num : Type} (self : PowerDeviationMatrixPowerCalculator.t num)
    (dims : list (dimension num)) (row : gmap column num) : Prop :=
  is_Some (row !! PowerDeviationMatrixPowerCalculator.windSpeedColumn self) /\
  Forall (fun d => is_Some (parameter_value self row (parameter d))) dims.

(** A computation keeps the frame when no outcome of it changes the
    rows. *)
Definition frame_kept {num pdm A : Type} (c : M num pdm A) : Prop :=
  forall w, frame (snd (c w)) = frame w.

(** * Facts *)

(** ** The float renderings *)

Example general_examples :
  QFloat.general 2.5 = "2.5" /\ QFloat.general 3 = "3.0" /\
  QFloat.fixed 2 (25 # 1) = "25.00" /\ QFloat.fixed 4 1.225 = "1.2250" /\
  QFloat.fixed 2 (1 # 3) = "0.33" /\ PyStr.format_nat 2 = "2".
Proof. vm_compute. repeat split. Qed.

(** ** Strings *)

Lemma contains_cons (c d : ascii) (s : string) :
  PyStr.contains (String c EmptyString) (String d s) =
  Ascii.eqb c d || PyStr.contains (String c EmptyString) s.
Proof.
  cbn [PyStr.contains String.prefix].
  destruct (ascii_dec c d) as [->|Hne].
  - rewrite Ascii.eqb_refl. destruct s; reflexivity.
  - apply Ascii.eqb_neq in Hne. rewrite Hne. reflexivity.
Qed.

Lemma amp_free_cons (d : ascii) (s : string) :
  amp_free (String d s) <-> d <> "&"%char /\ amp_free s.
Proof.
  unfold amp_free. rewrite contains_cons, orb_false_iff, Ascii.eqb_neq.
  split; intros [H1 H2]; split; auto.
Qed.

Lemma amp_free_app (a b : string) :
  amp_free (a +:+ b) <-> amp_free a /\ amp_free b.
Proof.
  induction a as [|c a IH].
  - change (EmptyString +:+ b) with b.
    split; [intros H; split; [reflexivity | exact H] | intros [_ H]; exact H].
  - change (String c a +:+ b) with (String c (a +:+ b)).
    rewrite !amp_free_cons, IH. tauto.
Qed.

Lemma prefix_sep_not_amp_free (s : string) :
  String.prefix " & " s = true -> ~ amp_free s.
Proof.
  destruct s as [|a [|b s]]; cbn [String.prefix]; try discriminate.
  - destruct (ascii_dec " " a); discriminate.
  - destruct (ascii_dec " " a); [|discriminate].
    destruct (ascii_dec "&" b) as [<-|]; [|discriminate].
    intros _ H. apply amp_free_cons in H as [_ H]. apply amp_free_cons in H as [H _].
    congruence.
Qed.

Lemma replace_from_amp_free (s : string) :
  amp_free s -> PyStr.replace_from " & " ", " 0 s = s.
Proof.
  induction s as [|c s IH]; intros Hs; [reflexivity|].
  cbn [PyStr.replace_from].
  destruct (String.prefix " & " (String c s)) eqn:Hp.
  - exfalso. exact (prefix_sep_not_amp_free _ Hp Hs).
  - f_equal. apply IH. apply amp_free_cons in Hs. tauto.
Qed.

Lemma replace_amp_free (s : string) :
  amp_free s -> PyStr.replace " & " ", " s = s.
Proof. apply replace_from_amp_free. Qed.

Lemma prefix_sep_second (c : ascii) (s : string) :
  String.prefix " & " (String c s) = true -> exists s', s = String "&" s'.
Proof.
  cbn [String.prefix]. destruct (ascii_dec " " c); [|discriminate].
  destruct s as [|b s]; cbn [String.prefix]; [discriminate|].
  destruct (ascii_dec "&" b) as [<-|]; [|discriminate].
  intros _. eauto.
Qed.

Lemma replace_from_here (old new : string) (c : ascii) (s : string) :
  PyStr.replace_from old new 0 (String c s) =
  if String.prefix old (String c s)
  then new +:+ PyStr.replace_from old new (String.length old - 1) s
  else String c (PyStr.replace_from old new 0 s).
Proof. reflexivity. Qed.

Lemma replace_from_skip (old new : string) (k : nat) (c : ascii) (s : string) :
  PyStr.replace_from old new (S k) (String c s) = PyStr.replace_from old new k s.
Proof. reflexivity. Qed.

Lemma prefix_sep_here (b : string) :
  String.prefix " & " (String " " (String "&" (String " " b))) = true.
Proof. destruct b; reflexivity. Qed.

Lemma replace_from_joined (a b : string) :
  amp_free a -> amp_free b ->
  PyStr.replace_from " & " ", " 0 (a +:+ " & " +:+ b) = a +:+ ", " +:+ b.
Proof.
  intros Ha Hb. induction a as [|c a IH].
  - change ("" +:+ " & " +:+ b) with (String " " (String "&" (String " " b))).
    rewrite replace_from_here.
    rewrite prefix_sep_here.
    change (String.length " & " - 1) with 2.
    rewrite !replace_from_skip, (replace_from_amp_free _ Hb). reflexivity.
  - apply amp_free_cons in Ha as [Hc Ha].
    change (String c a +:+ " & " +:+ b) with (String c (a +:+ " & " +:+ b)).
    rewrite replace_from_here.
    destruct (String.prefix " & " (String c (a +:+ " & " +:+ b))) eqn:Hp.
    + exfalso. apply prefix_sep_second in Hp as [s' Hs'].
      destruct a as [|d a]; [discriminate|].
      apply amp_free_cons in Ha as [Hd _]. injection Hs' as Hd' _. congruence.
    + change (String c a +:+ ", " +:+ b) with (String c (a +:+ ", " +:+ b)).
      f_equal. apply IH, Ha.
Qed.

Lemma occurrences_sep_le_aux (s : string) :
  PyStr.occurrences " & " s +
  match s with
  | String c _ => if Ascii.eqb "&" c then 1 else 0
  | EmptyString => 0
  end <= PyStr.count_char "&" s.
Proof.
  induction s as [|c s IH]; [cbn; lia|].
  cbn [PyStr.occurrences PyStr.count_char].
  destruct (String.prefix " & " (String c s)) eqn:Hp.
  - apply prefix_sep_second in Hp as [s' ->].
    rewrite Ascii.eqb_refl in IH. lia.
  - lia.
Qed.

Lemma occurrences_sep_le (s : string) :
  PyStr.occurrences " & " s <= PyStr.count_char "&" s.
Proof. pose proof (occurrences_sep_le_aux s). lia. Qed.

Lemma count_char_app (c : ascii) (a b : string) :
  PyStr.count_char c (a +:+ b) = PyStr.count_char c a + PyStr.count_char c b.
Proof.
  induction a as [|d a IH]; [reflexivity|].
  change (String d a +:+ b) with (String d (a +:+ b)).
  cbn [PyStr.count_char]. rewrite IH. lia.
Qed.

Lemma amp_free_count (s : string) :
  amp_free s -> PyStr.count_char "&" s = 0.
Proof.
  induction s as [|d s IH]; [reflexivity|].
  intros H. apply amp_free_cons in H as [Hd Hs].
  cbn [PyStr.count_char]. rewrite (IH Hs).
  destruct (Ascii.eqb "&" d) eqn:E; [|reflexivity].
  apply Ascii.eqb_eq in E. congruence.
Qed.

Lemma append_assoc (a b c : string) : (a +:+ b) +:+ c = a +:+ b +:+ c.
Proof.
  induction a as [|x a IH]; [reflexivity|].
  change (String x ((a +:+ b) +:+ c) = String x (a +:+ b +:+ c)). now rewrite IH.
Qed.

Lemma join_snoc (sep : string) (parts : list string) (p : string) :
  parts <> [] ->
  PyStr.join sep (parts ++ [p]) = PyStr.join sep parts +:+ sep +:+ p.
Proof.
  induction parts as [|q parts IH]; [congruence|]. intros _.
  destruct parts as [|r parts]; [reflexivity|].
  change (PyStr.join sep ((q :: r :: parts) ++ [p]))
    with (q +:+ sep +:+ PyStr.join sep ((r :: parts) ++ [p])).
  rewrite IH by discriminate.
  change (PyStr.join sep (q :: r :: parts))
    with (q +:+ sep +:+ PyStr.join sep (r :: parts)).
  rewrite !append_assoc. reflexivity.
Qed.

Lemma amp_free_join (parts : list string) :
  Forall amp_free parts -> amp_free (PyStr.join ", " parts).
Proof.
  induction 1 as [|p parts Hp Hps IH]; [reflexivity|].
  destruct parts as [|q parts]; [exact Hp|].
  change (PyStr.join ", " (p :: q :: parts))
    with (p +:+ ", " +:+ PyStr.join ", " (q :: parts)).
  apply amp_free_app; split; [exact Hp|].
  apply amp_free_app; split; [reflexivity | exact IH].
Qed.

Lemma display_single (l : string) : display [l] = l.
Proof. reflexivity. Qed.

Lemma display_snoc (labels : list string) (l : string) :
  labels <> [] ->
  display (labels ++ [l]) = PyStr.join ", " labels +:+ " & " +:+ l.
Proof.
  intros Hne. unfold display. rewrite rev_app_distr. cbn [rev app].
  destruct (rev labels) as [|x xs] eqn:E.
  - exfalso. apply Hne. rewrite <- (rev_involutive labels), E. reflexivity.
  - rewrite <- (rev_involutive labels), E. reflexivity.
Qed.

Lemma replace_display (labels : list string) :
  labels <> [] -> Forall amp_free labels ->
  PyStr.replace " & " ", " (display labels) = PyStr.join ", " labels.
Proof.
  intros Hne Hall.
  destruct labels as [|l0 labels _] using rev_ind; [congruence|].
  apply Forall_app in Hall as [Hinit Hlast].
  apply Forall_cons in Hlast as [Hl0 _].
  destruct labels as [|l1 labels].
  - cbn [app]. rewrite display_single. apply replace_amp_free, Hl0.
  - rewrite display_snoc, join_snoc by discriminate.
    apply replace_from_joined; [apply amp_free_join, Hinit | exact Hl0].
Qed.

Lemma occurrences_display (labels : list string) :
  Forall amp_free labels -> PyStr.occurrences " & " (display labels) <= 1.
Proof.
  intros Hall.
  etransitivity; [apply occurrences_sep_le|].
  destruct labels as [|l0 labels _] using rev_ind; [cbn; lia|].
  apply Forall_app in Hall as [Hinit Hlast].
  apply Forall_cons in Hlast as [Hl0 _].
  destruct labels as [|l1 labels].
  - cbn [app]. rewrite display_single, (amp_free_count _ Hl0). lia.
  - rewrite display_snoc by discriminate.
    rewrite !count_char_app, (amp_free_count _ Hl0),
      (amp_free_count _ (amp_free_join _ Hinit)).
    cbn. lia.
Qed.

(** ** The monad and well-named nodes *)

Section Monad.
Context {num pdm : Type}.
Implicit Types w : world num pdm.

Lemma bind_Return {A B} (c : M num pdm A) (f : A -> M num pdm B) w b w' :
  (c ≫= f) w = (Return b, w') ->
  exists a w1, c w = (Return a, w1) /\ f a w1 = (Return b, w').
Proof.
  unfold mbind, M_bind. destruct (c w) as [[a|e] w1]; [eauto | discriminate].
Qed.

Lemma bind_step {A B} (c : M num pdm A) (f : A -> M num pdm B) w a w1 :
  c w = (Return a, w1) -> (c ≫= f) w = f a w1.
Proof. unfold mbind, M_bind. intros ->. reflexivity. Qed.

Lemma bind_raise {A B} (c : M num pdm A) (f : A -> M num pdm B) w e w1 :
  c w = (Raise e, w1) -> (c ≫= f) w = (Raise e, w1).
Proof. unfold mbind, M_bind. intros ->. reflexivity. Qed.

Lemma ret_Return {A} (a b : A) w w' :
  (mret a : M num pdm A) w = (Return b, w') -> a = b /\ w = w'.
Proof. unfold mret, M_ret. intros [= -> ->]. auto. Qed.

Lemma getattr_Return {A} (name : string) (x : attr A) (a : A) w w' :
  getattr name x w = (Return a, w') -> x = Has a /\ w = w'.
Proof.
  destruct x as [|v]; cbn; [discriminate|]. intros [= -> ->]. auto.
Qed.

End Monad.

Ltac run :=
  unfold getattr, raise, Status.add;
  unfold mbind, M_bind, mret, M_ret;
  cbn beta iota zeta.
Ltac run_in H :=
  unfold getattr, raise, Status.add in H;
  unfold mbind, M_bind, mret, M_ret in H;
  cbn beta iota zeta in H.

Ltac monad_inv H :=
  repeat match type of H with
  | (_ ≫= _) _ = (Return _, _) =>
      let a := fresh "a" in let w1 := fresh "w" in
      let H1 := fresh "Hstep" in
      apply bind_Return in H as (a & w1 & H1 & H)
  end.

Section Nodes.
Context {num pdm : Type}.
Implicit Types (w : world num pdm) (P C self : node num).

Lemma calculate_name_raw P (label : string) w :
  raw P = true -> Correction.calculate_name P label w = (Return label, w).
Proof. unfold Correction.calculate_name. intros ->. reflexivity. Qed.

Lemma calculate_name_named P (label name : string) w :
  raw P = false -> correction_name P = Has name ->
  Correction.calculate_name P label w =
  (Return (PyStr.replace " & " ", " name +:+ " & " +:+ label), w).
Proof.
  unfold Correction.calculate_name. intros -> ->. run.
  destruct (PyStr.contains "&" name) eqn:E; [reflexivity|].
  rewrite (replace_amp_free name E). reflexivity.
Qed.

Lemma calculate_name_frame P (label name : string) w w' :
  Correction.calculate_name P label w = (Return name, w') -> w' = w.
Proof.
  unfold Correction.calculate_name. destruct (raw P).
  - intros H. apply ret_Return in H. symmetry. apply H.
  - destruct (correction_name P); run; [discriminate|]. intros [= _ <-]. reflexivity.
Qed.

(** What a successful [Correction.__init__] leaves on the new node. *)
Lemma Correction_init_Return (label : string) P (wsb : bool) w C w' :
  Correction.init label P wsb w = (Return C, w') ->
  exists name,
    wind_speed_based P = true /\
    Correction.calculate_name P label w = (Return name, w) /\
    C = Node (Some P) false wsb (negb wsb) (Has name) Absent Absent Absent Absent /\
    w' = World (frame w) (status w ++ [StatusEntry ("Performing " +:+ name +:+ " Correction...") false false])
               (deviation_matrix w).
Proof.
  unfold Correction.init, Correction.can_chain.
  destruct (wind_speed_based P) eqn:Hw; cbn [negb].
  - intros H. monad_inv H.
    pose proof (calculate_name_frame _ _ _ _ _ Hstep) as ->.
    exists a. split; [reflexivity|]. split; [exact Hstep|].
    run_in Hstep0. injection Hstep0 as _ <-.
    apply ret_Return in H as [<- <-]. split; reflexivity.
  - intros H. destruct (correction_name P); run_in H; discriminate.
Qed.

Lemma Source_finalise_Return self pc w self' w' :
  Source.finalise self pc w = (Return self', w') ->
  exists c, self' = set_power_column self c.
Proof.
  unfold Source.finalise. intros H. monad_inv H.
  apply ret_Return in H as [<- _].
  destruct pc as [pc|].
  - monad_inv Hstep0. apply ret_Return in Hstep0 as [<- _]. eauto.
  - apply ret_Return in Hstep0 as [<- _]. eauto.
Qed.

Lemma WindSpeedBased_finalise_Return self pc w self' w' :
  WindSpeedBasedCorrection.finalise self pc w = (Return self', w') ->
  exists c, self' = set_power_column self c.
Proof.
  unfold WindSpeedBasedCorrection.finalise. intros H. monad_inv H.
  apply ret_Return in H as [<- _].
  destruct pc as [pc|].
  - monad_inv Hstep0. apply ret_Return in Hstep0 as [<- _]. eauto.
  - apply ret_Return in Hstep0 as [<- _]. eauto.
Qed.

Lemma WindSpeedBased_init_Return (label : string) P w self w' :
  WindSpeedBasedCorrection.init label P w = (Return self, w') ->
  exists C w1 c, Correction.init label P true w = (Return C, w1) /\
                 self = set_wind_speed_column C c.
Proof.
  unfold WindSpeedBasedCorrection.init. intros H. monad_inv H.
  apply ret_Return in H as [<- _]. eauto.
Qed.

Lemma PowerBased_init_Return (label : string) P pc w self w' :
  PowerBasedCorrection.init label P pc w = (Return self, w') ->
  exists C w1 c p, Correction.init label P false w = (Return C, w1) /\
                   self = set_power_curve (set_power_column C c) p.
Proof.
  unfold PowerBasedCorrection.init. destruct pc as [|pc]; [discriminate|].
  intros H. monad_inv H. apply ret_Return in H as [<- _]. eauto 6.
Qed.

Lemma Correction_init_well_named (label : string) P wsb w C w' :
  Correction.init label P wsb w = (Return C, w') -> well_named C.
Proof.
  intros H. apply Correction_init_Return in H as (name & _ & _ & -> & _).
  split; cbn; [discriminate | eauto].
Qed.

Lemma constructed_well_named P : constructed pdm P -> well_named P.
Proof.
  induction 1 as [c | self self' pc w w' _ IH H | label parent self wsb w w' _ _ H
                  | label parent self w w' _ _ H | self self' pc w w' _ IH H
                  | label parent self pc w w' _ _ H | self d _ IH].
  - split; cbn; [reflexivity | discriminate].
  - apply Source_finalise_Return in H as [c ->]. exact IH.
  - exact (Correction_init_well_named _ _ _ _ _ _ H).
  - apply WindSpeedBased_init_Return in H as (C & w1 & c & H & ->).
    exact (Correction_init_well_named _ _ _ _ _ _ H).
  - apply WindSpeedBased_finalise_Return in H as [c ->]. exact IH.
  - apply PowerBased_init_Return in H as (C & w1 & c & p & H & ->).
    exact (Correction_init_well_named _ _ _ _ _ _ H).
  - exact IH.
Qed.

Lemma Correction_init_accepts (label : string) P (wsb : bool) w :
  well_named P -> wind_speed_based P = true ->
  exists C w', Correction.init label P wsb w = (Return C, w').
Proof.
  intros [_ Hname] Hw. unfold Correction.init, Correction.can_chain. rewrite Hw. cbn [negb].
  destruct (raw P) eqn:Hraw.
  - rewrite (bind_step _ _ _ _ _ (calculate_name_raw P label w Hraw)). run. eauto.
  - destruct (Hname eq_refl) as [name Hn].
    rewrite (bind_step _ _ _ _ _ (calculate_name_named P label name w Hraw Hn)). run. eauto.
Qed.

Lemma Correction_init_rejects P :
  well_named P -> wind_speed_based P = false ->
  exists name, raw P = false /\ correction_name P = Has name /\
    forall (label : string) (wsb : bool) w,
      Correction.init label P wsb w =
      (Raise (Exception (label +:+ " cannot follow " +:+ name)), w).
Proof.
  intros [Hraw Hname] Hw.
  destruct (raw P) eqn:Hr; [specialize (Hraw eq_refl); congruence|].
  destruct (Hname eq_refl) as [name Hn]. exists name. repeat split; [exact Hn|].
  intros label wsb w.
  unfold Correction.init, Correction.can_chain. rewrite Hw, Hn. run. reflexivity.
Qed.

Lemma WindSpeedBased_init_accepts (label : string) (source : node num) w :
  well_named source -> wind_speed_based source = true ->
  exists name self,
    Correction.calculate_name source label w = (Return name, w) /\
    correction_name self = Has name /\
    wind_speed_column self = Has (Some (name +:+ " Wind Speed")) /\
    WindSpeedBasedCorrection.init label source w =
    (Return self,
     World (frame w)
           (status w ++ [StatusEntry ("Performing " +:+ name +:+ " Correction...") false false])
           (deviation_matrix w)).
Proof.
  intros Hwn Hw.
  destruct (Correction_init_accepts label source true w Hwn Hw) as (C & w' & HC).
  pose proof HC as HC'.
  apply Correction_init_Return in HC' as (name & _ & Hname & -> & ->).
  exists name.
  exists (Node (Some source) false true false (Has name)
               (Has (Some (name +:+ " Wind Speed"))) Absent Absent Absent).
  split; [exact Hname|]. split; [reflexivity|]. split; [reflexivity|].
  unfold WindSpeedBasedCorrection.init.
  rewrite (bind_step _ _ _ _ _ HC). reflexivity.
Qed.

Lemma PowerBased_init_accepts (label : string) (source : node num)
    (pc : option (PowerCurve.t num)) w :
  well_named source -> wind_speed_based source = true ->
  exists name self,
    Correction.calculate_name source label w = (Return name, w) /\
    correction_name self = Has name /\
    power_column self = Has (Some (name +:+ " Power")) /\
    PowerBasedCorrection.init label source (Passed pc) w =
    (Return self,
     World (frame w)
           (status w ++ [StatusEntry ("Performing " +:+ name +:+ " Correction...") false false])
           (deviation_matrix w)).
Proof.
  intros Hwn Hw.
  destruct (Correction_init_accepts label source false w Hwn Hw) as (C & w' & HC).
  pose proof HC as HC'.
  apply Correction_init_Return in HC' as (name & _ & Hname & -> & ->).
  exists name.
  exists (Node (Some source) false false true (Has name) Absent
               (Has (Some (name +:+ " Power"))) (Has pc) Absent).
  split; [exact Hname|]. split; [reflexivity|]. split; [reflexivity|].
  unfold PowerBasedCorrection.init.
  rewrite (bind_step _ _ _ _ _ HC).
  assert (Hagain : forall w1 : world num pdm,
             Correction.calculate_name source label w1 = (Return name, w1)).
  { intros w1. destruct Hwn as [_ Hnamed]. destruct (raw source) eqn:Hraw.
    - rewrite calculate_name_raw in Hname by exact Hraw.
      rewrite calculate_name_raw by exact Hraw. congruence.
    - destruct (Hnamed eq_refl) as [pname Hp].
      rewrite (calculate_name_named _ _ _ _ Hraw Hp) in Hname.
      rewrite (calculate_name_named _ _ _ _ Hraw Hp). congruence. }
  rewrite (bind_step _ _ _ _ _ (Hagain _)). reflexivity.
Qed.

(** The chain rule for the three constructors. *)
Lemma chain_rule_Correction (label : string) P (wsb : bool) w :
  well_named P -> chain_rule (Correction.init label P wsb) label P w.
Proof.
  intros HP. split; [split|].
  - intros Hw. exact (Correction_init_accepts label P wsb w HP Hw).
  - intros (C & w' & Hinit).
    apply Correction_init_Return in Hinit as (name & Hw & _). exact Hw.
  - intros Hw. destruct (Correction_init_rejects P HP Hw) as (name & _ & Hn & Hinit).
    eauto.
Qed.

Lemma chain_rule_WindSpeedBased (label : string) P w :
  well_named P -> chain_rule (WindSpeedBasedCorrection.init label P) label P w.
Proof.
  intros HP. split; [split|].
  - intros Hw.
    destruct (WindSpeedBased_init_accepts label P w HP Hw) as (name & self & _ & _ & _ & Hinit).
    eauto.
  - intros (self & w' & Hinit).
    apply WindSpeedBased_init_Return in Hinit as (C & w1 & c & Hinit & _).
    apply Correction_init_Return in Hinit as (name & Hw & _). exact Hw.
  - intros Hw. destruct (Correction_init_rejects P HP Hw) as (name & _ & Hn & Hinit).
    exists name. split; [exact Hn|].
    unfold WindSpeedBasedCorrection.init. apply bind_raise, Hinit.
Qed.

Lemma chain_rule_PowerBased (label : string) P (pc : option (PowerCurve.t num)) w :
  well_named P -> chain_rule (PowerBasedCorrection.init label P (Passed pc)) label P w.
Proof.
  intros HP. split; [split|].
  - intros Hw.
    destruct (PowerBased_init_accepts label P pc w HP Hw)
      as (name & self & _ & _ & _ & Hinit).
    eauto.
  - intros (self & w' & Hinit).
    apply PowerBased_init_Return in Hinit as (C & w1 & c & p & Hinit & _).
    apply Correction_init_Return in Hinit as (name & Hw & _). exact Hw.
  - intros Hw. destruct (Correction_init_rejects P HP Hw) as (name & _ & Hn & Hinit).
    exists name. split; [exact Hn|].
    unfold PowerBasedCorrection.init. apply bind_raise, Hinit.
Qed.





End Nodes.

(** ** Chain validity *)

Lemma constructed_density : constructed unit Examples.density.
Proof.
  eapply constructed_WindSpeedBased
    with (label := "Density") (parent := Examples.source_WS) (w := Examples.w0).
  - apply constructed_Source.
  - reflexivity.
Qed.

Lemma constructed_turbulence : constructed unit Examples.turbulence.
Proof.
  eapply constructed_PowerBased
    with (label := "Turbulence") (parent := Examples.density) (pc := Passed None)
         (w := Examples.w0).
  - apply constructed_density.
  - reflexivity.
Qed.




(** On the sample chain: the deviation-matrix stage is refused after the
    turbulence stage, and accepted after the density stage. *)
Example chain_rule_examples :
  PowerBasedCorrection.init "2D Power Deviation Matrix" Examples.turbulence
    (Passed (Some Examples.curve)) Examples.w0 =
    (Raise (Exception "2D Power Deviation Matrix cannot follow Density & Turbulence"),
     Examples.w0) /\
  exists self w',
    PowerBasedCorrection.init "2D Power Deviation Matrix" Examples.density
      (Passed (Some Examples.curve)) Examples.w0 = (Return self, w') /\
    correction_name self = Has "Density & 2D Power Deviation Matrix".
Proof. split; [reflexivity|]. eexists _, _. split; reflexivity. Qed.

(** C10.  A raw [Source] always passes the chain check.  So a
    constructed parent that fails it is a correction with a
    [correction_name], and the constructor raises the chain error for
    every label, flag and state: reading [source.correction_name] for the
    message never fails. *)
Theorem chain_error_path_total {num pdm : Type} (P : node num) :
  constructed pdm P ->
  (raw P = true -> Correction.can_chain P = true) /\
  (Correction.can_chain P = false ->
   raw P = false /\
   exists name, correction_name P = Has name /\
     forall (label : string) (wsb : bool) (w : world num pdm),
       Correction.init label P wsb w =
       (Raise (Exception (label +:+ " cannot follow " +:+ name)), w)).
Proof.
  intros HP. apply constructed_well_named in HP. split.
  - apply HP.
  - unfold Correction.can_chain. intros Hw.
    destruct (Correction_init_rejects (pdm := pdm) P HP Hw) as (name & Hr & Hn & H). eauto.
Qed.

Lemma chain_error_path_total_witness :
  (raw Examples.turbulence = true -> Correction.can_chain Examples.turbulence = true) /\
  (Correction.can_chain Examples.turbulence = false ->
   raw Examples.turbulence = false /\
   exists name, correction_name Examples.turbulence = Has name /\
     forall (label : string) (wsb : bool) (w : world Q unit),
       Correction.init label Examples.turbulence wsb w =
       (Raise (Exception (label +:+ " cannot follow " +:+ name)), w)).
Proof.
  apply (chain_error_path_total Examples.turbulence). exact constructed_turbulence.
Defined.

(** C5.  What the constructor of [WebServiceCorrection] does: its
    chaining call leaves out the required [power_curve], so it raises
    [TypeError] for every calculator and every state, before anything is
    written. *)
Theorem WebServiceCorrection_init_raises {num pdm : Type}
    (web_service : gmap column num -> M num pdm num) (w : world num pdm) :
  WebServiceCorrection.init web_service w =
  (Raise (TypeError "__init__() takes exactly 4 arguments (3 given)"), w).
Proof. reflexivity. Qed.

Lemma ProductionByHeight_init_chain_returns {num pdm : Type}
    (power_curve : option (PowerCurve.t num)) (w : world num pdm) :
  exists self w',
    ProductionByHeightCorrection.init_chain power_curve w = (Return self, w') /\
    correction_name self = Has "Production by Height" /\
    power_column self = Has (Some "Production by Height Power").
Proof. eexists _, _. repeat split. Qed.

(** ** Composite names *)

(** C2.  [calculate_name(P, L)] is [L] for a raw [Source]; for a parent
    named [name] it is [name] with every [" & "] replaced by [", "],
    followed by [" & "] and [L].  [Source -> Density -> Turbulence] is
    named ["Density & Turbulence"], and a further stage
    [PowerDeviationMatrix] on it
    ["Density, Turbulence & PowerDeviationMatrix"]. *)
Theorem calculate_name_spec {num pdm : Type} (P : node num) (label : string)
    (w : world num pdm) :
  (raw P = true -> Correction.calculate_name P label w = (Return label, w)) /\
  (forall name : string,
     raw P = false -> correction_name P = Has name ->
     Correction.calculate_name P label w =
     (Return (PyStr.replace " & " ", " name +:+ " & " +:+ label), w)) /\
  (exists (density turbulence : node num) (w1 w2 : world num pdm),
     WindSpeedBasedCorrection.init "Density" (Source.init (Some "WS")) w =
       (Return density, w1) /\
     PowerBasedCorrection.init "Turbulence" density (Passed None) w1 =
       (Return turbulence, w2) /\
     correction_name turbulence = Has "Density & Turbulence" /\
     Correction.calculate_name turbulence "PowerDeviationMatrix" w2 =
       (Return "Density, Turbulence & PowerDeviationMatrix", w2)).
Proof.
  split; [|split].
  - apply calculate_name_raw.
  - intros name. apply calculate_name_named.
  - eexists _, _, _, _. repeat split.
Qed.

Lemma calculate_name_spec_witness :
  Correction.calculate_name Examples.source_WS "Density" Examples.w0 =
    (Return "Density", Examples.w0) /\
  Correction.calculate_name Examples.turbulence "PowerDeviationMatrix" Examples.w0 =
    (Return (PyStr.replace " & " ", " "Density & Turbulence" +:+ " & "
             +:+ "PowerDeviationMatrix"), Examples.w0).
Proof.
  split.
  - apply (proj1 (calculate_name_spec Examples.source_WS "Density" Examples.w0)).
    reflexivity.
  - apply (proj1 (proj2 (calculate_name_spec Examples.turbulence "PowerDeviationMatrix"
                           Examples.w0))); reflexivity.
Defined.

Lemma derived_name_nonempty {num pdm : Type} (labels : list string) (name : string) :
  derived_name num pdm labels name -> labels <> [].
Proof.
  destruct 1; [discriminate|]. intros E. apply app_eq_nil in E as [_ E]. discriminate.
Qed.

Lemma derived_name_display {num pdm : Type} (labels : list string) (name : string) :
  derived_name num pdm labels name -> Forall amp_free labels -> name = display labels.
Proof.
  induction 1 as [c label name w w' H
                 | labels parent parent_name label name w w' Hd IH Hraw Hname H];
    intros Hall.
  - rewrite calculate_name_raw in H by reflexivity. injection H as <- _. reflexivity.
  - apply Forall_app in Hall as [Hinit _].
    rewrite (calculate_name_named _ _ _ _ Hraw Hname) in H.
    assert (name = PyStr.replace " & " ", " parent_name +:+ " & " +:+ label) as ->
      by congruence.
    pose proof (derived_name_nonempty _ _ Hd) as Hne.
    rewrite (IH Hinit), (replace_display _ Hne Hinit), (display_snoc _ _ Hne).
    reflexivity.
Qed.

(** C3, amended.  For stages whose labels hold no [&], the name that
    repeated [calculate_name] derives is the display form of the stages:
    all but the last joined by [", "], the last joined by [" & "]; so it
    holds the separator [" & "] at most once, whatever the length. *)
Theorem derived_name_one_separator {num pdm : Type} (labels : list string)
    (name : string) :
  derived_name num pdm labels name ->
  Forall amp_free labels ->
  name = display labels /\ PyStr.occurrences " & " name <= 1.
Proof.
  intros Hd Hall. pose proof (derived_name_display _ _ Hd Hall) as ->.
  split; [reflexivity | apply occurrences_display, Hall].
Qed.

(** The sample nodes are what the constructors return. *)
Example sample_chain_constructed :
  fst (WindSpeedBasedCorrection.init "Density" Examples.source_WS Examples.w0) =
    Return Examples.density /\
  fst (RotorEquivalentWindSpeed.init_chain Examples.density false false 3%Q Examples.w0) =
    Return Examples.rews /\
  fst (PowerBasedCorrection.init "Turbulence" Examples.density (Passed None) Examples.w0) =
    Return Examples.turbulence.
Proof. repeat split. Qed.

Lemma derived_three_stages :
  derived_name Q unit ["Density"; "REWS (Speed)"; "Turbulence"]
    "Density, REWS (Speed) & Turbulence".
Proof.
  apply (derived_next (["Density"] ++ ["REWS (Speed)"])
           Examples.rews
           "Density & REWS (Speed)" "Turbulence" _ Examples.w0 Examples.w0);
    try reflexivity.
  apply (derived_next ["Density"] Examples.density "Density" "REWS (Speed)" _
           Examples.w0 Examples.w0); try reflexivity.
  apply (derived_first (Some "WS") "Density" "Density" Examples.w0 Examples.w0).
  reflexivity.
Qed.

Lemma derived_name_one_separator_witness :
  "Density, REWS (Speed) & Turbulence" =
    display ["Density"; "REWS (Speed)"; "Turbulence"] /\
  PyStr.occurrences " & " "Density, REWS (Speed) & Turbulence" <= 1.
Proof.
  apply (derived_name_one_separator (num := Q) (pdm := unit)
           ["Density"; "REWS (Speed)"; "Turbulence"]).
  - exact derived_three_stages.
  - repeat constructor.
Defined.

(** C3 as stated fails for a label that holds the separator: the chain
    of the single stage ["A & B & C"] is named ["A & B & C"], which holds
    [" & "] twice. *)
Lemma derived_name_two_separators :
  derived_name Q unit ["A & B & C"] "A & B & C" /\
  fst (Correction.init "A & B & C" Examples.source_WS true Examples.w0) =
    Return (Node (Some Examples.source_WS) false true false (Has "A & B & C")
                 Absent Absent Absent Absent) /\
  PyStr.occurrences " & " "A & B & C" = 2.
Proof.
  split; [|split; reflexivity].
  apply (derived_first (Some "WS") "A & B & C" "A & B & C" Examples.w0 Examples.w0).
  reflexivity.
Qed.

(** ** Data-frame columns *)

Section Frames.
Context {num pdm : Type}.
Implicit Types (w : world num pdm) (rows : list (gmap column num)).

Lemma apply_rows_ext (f g : gmap column num -> M num pdm num) rows w :
  (forall r w1, f r w1 = g r w1) ->
  DataFrame.apply_rows f rows w = DataFrame.apply_rows g rows w.
Proof.
  intros Hfg. revert w. induction rows as [|r rows IH]; intros w; [reflexivity|].
  cbn [DataFrame.apply_rows]. unfold mbind, M_bind. rewrite Hfg.
  destruct (g r w) as [[v|e] w1]; [|reflexivity].
  rewrite IH. reflexivity.
Qed.

Lemma apply_rows_lift (f : gmap column num -> result num) rows (vs : list num) w :
  Forall2 (fun r v => f r = Return v) rows vs ->
  DataFrame.apply_rows (fun r => lift (f r)) rows w = (Return vs, w).
Proof.
  induction 1 as [|r v rows vs Hr _ IH]; [reflexivity|].
  cbn [DataFrame.apply_rows]. unfold mbind, M_bind, lift. rewrite Hr.
  unfold lift in IH. rewrite IH. reflexivity.
Qed.

Lemma apply_lift (f : gmap column num -> result num) (vs : list num) w :
  Forall2 (fun r v => f r = Return v) (frame w) vs ->
  DataFrame.apply (fun r => lift (f r)) w = (Return vs, w).
Proof. apply apply_rows_lift. Qed.

Lemma Forall_values (f : gmap column num -> result num) rows :
  Forall (fun r => exists v, f r = Return v) rows ->
  exists vs, Forall2 (fun r v => f r = Return v) rows vs.
Proof.
  induction 1 as [|r rows [v Hv] _ [vs IH]]; [exists []; constructor|].
  exists (v :: vs). constructor; assumption.
Qed.

Lemma zip_with_insert (c : column) (f : gmap column num -> result num) rows (vs : list num) :
  Forall2 (fun r v => f r = Return v) rows vs ->
  Forall2 (fun r r' => exists v, f r = Return v /\ r' = <[c := v]> r) rows
          (zip_with (fun r v => <[c := v]> r) rows vs).
Proof.
  induction 1 as [|r v rows vs Hr _ IH]; cbn [zip_with]; constructor; eauto.
Qed.

(** [finalise] of a wind-speed node, either class: the power column. *)
Lemma power_column_written (pc : PowerCurve.t num) (wsc : column) (pcol : column) w :
  Forall (fun r => is_Some (r !! wsc)) (frame w) ->
  exists values,
    DataFrame.apply
      (fun row => lift (PowerCalculator.power (PowerCalculator.new pc wsc) row)) w =
      (Return values, w) /\
    column_written pcol (fun r => PowerCurve.power pc <$> r !! wsc) (frame w)
      (zip_with (fun r v => <[pcol := v]> r) (frame w) values).
Proof.
  intros Hall.
  destruct (Forall_values (PowerCalculator.power (PowerCalculator.new pc wsc)) (frame w))
    as [vs Hvs].
  { eapply Forall_impl; [exact Hall|]. intros r [v Hv].
    exists (PowerCurve.power pc v).
    unfold PowerCalculator.power, row_get. cbn. rewrite Hv. reflexivity. }
  exists vs. split; [apply apply_lift, Hvs|].
  unfold column_written.
  eapply Forall2_impl; [apply (zip_with_insert pcol), Hvs|].
  intros r r' (v & Hv & ->). exists v. split; [|reflexivity].
  unfold PowerCalculator.power, row_get in Hv. cbn in Hv.
  destruct (r !! wsc) as [ws|]; [|discriminate]. injection Hv as <-. reflexivity.
Qed.

End Frames.

(** C8.  [Source.finalise] and [WindSpeedBasedCorrection.finalise] with a
    power curve: on a frame whose rows all have the node's wind-speed
    column, the column ["<wind_speed_column> Power"] (for a [Source]:
    ["WS Power"] for the column ["WS"], ["None Power"] for [Source(None)])
    or ["<composite_name> Power"] (for a correction) is written with the
    curve's power at each row's wind speed, and [power_column] is that
    name.  Without a power curve the frame is unchanged and
    [power_column] is [None]. *)
Theorem finalise_power_column {num pdm : Type} (self : node num) (w : world num pdm) :
  (forall (s : string) (pc : PowerCurve.t num),
     wind_speed_column self = Has (Some s) ->
     Forall (fun r => is_Some (r !! Some s)) (frame w) ->
     exists self' w',
       Source.finalise self (Some pc) w = (Return self', w') /\
       power_column self' = Has (Some (s +:+ " Power")) /\
       column_written (Some (s +:+ " Power"))
         (fun r => PowerCurve.power pc <$> r !! Some s) (frame w) (frame w')) /\
  (forall pc : PowerCurve.t num,
     wind_speed_column self = Has None ->
     Forall (fun r => is_Some (r !! (None : column))) (frame w) ->
     exists self' w',
       Source.finalise self (Some pc) w = (Return self', w') /\
       power_column self' = Has (Some "None Power") /\
       column_written (Some "None Power")
         (fun r => PowerCurve.power pc <$> r !! (None : column)) (frame w) (frame w')) /\
  (forall wsc : column,
     wind_speed_column self = Has wsc ->
     exists self' w',
       Source.finalise self None w = (Return self', w') /\
       power_column self' = Has None /\ frame w' = frame w) /\
  (forall (name : string) (wsc : column) (pc : PowerCurve.t num),
     correction_name self = Has name ->
     wind_speed_column self = Has wsc ->
     Forall (fun r => is_Some (r !! wsc)) (frame w) ->
     exists self' w',
       WindSpeedBasedCorrection.finalise self (Some pc) w = (Return self', w') /\
       power_column self' = Has (Some (name +:+ " Power")) /\
       column_written (Some (name +:+ " Power"))
         (fun r => PowerCurve.power pc <$> r !! wsc) (frame w) (frame w')) /\
  (forall name : string,
     correction_name self = Has name ->
     exists self' w',
       WindSpeedBasedCorrection.finalise self None w = (Return self', w') /\
       power_column self' = Has None /\ frame w' = frame w).
Proof.
  assert (Hsource : forall (wsc : column) (pc : PowerCurve.t num),
    wind_speed_column self = Has wsc ->
    Forall (fun r => is_Some (r !! wsc)) (frame w) ->
    exists self' w',
      Source.finalise self (Some pc) w = (Return self', w') /\
      power_column self' = Has (Some (format_column wsc +:+ " Power")) /\
      column_written (Some (format_column wsc +:+ " Power"))
        (fun r => PowerCurve.power pc <$> r !! wsc) (frame w) (frame w')).
  { intros wsc pc Hwsc Hall.
    destruct (power_column_written pc wsc (Some (format_column wsc +:+ " Power")) w Hall)
      as (values & Happly & Hwritten).
    unfold Source.finalise. rewrite Hwsc. run. rewrite Happly.
    unfold DataFrame.setitem. cbn beta iota zeta.
    eexists _, _. split; [reflexivity|]. split; [reflexivity | exact Hwritten]. }
  split; [|split; [|split; [|split]]].
  - intros s pc Hwsc Hall. exact (Hsource (Some s) pc Hwsc Hall).
  - intros pc Hwsc Hall. exact (Hsource None pc Hwsc Hall).
  - intros wsc Hwsc. unfold Source.finalise. rewrite Hwsc. run.
    eexists _, _. repeat split.
  - intros name wsc pc Hname Hwsc Hall.
    destruct (power_column_written pc wsc (Some (name +:+ " Power")) w Hall)
      as (values & Happly & Hwritten).
    unfold WindSpeedBasedCorrection.finalise. rewrite Hname. run.
    change (wind_speed_column (set_power_column self (Some (name +:+ " Power"))))
      with (wind_speed_column self).
    rewrite Hwsc. cbn beta iota zeta. rewrite Happly.
    unfold DataFrame.setitem. cbn beta iota zeta.
    eexists _, _. split; [reflexivity|]. split; [reflexivity | exact Hwritten].
  - intros name Hname. unfold WindSpeedBasedCorrection.finalise. rewrite Hname. run.
    eexists _, _. repeat split.
Qed.

(** [Source("WS")] writes ["WS Power"]; the density correction of the
    sample chain writes ["Density Power"] from its own wind-speed
    column. *)
Lemma finalise_power_column_witness :
  (exists self' w',
     Source.finalise Examples.source_WS (Some Examples.curve) Examples.w_speed =
       (Return self', w') /\
     power_column self' = Has (Some "WS Power") /\
     column_written (Some "WS Power")
       (fun r => PowerCurve.power Examples.curve <$> r !! Some "WS")
       (frame Examples.w_speed) (frame w')) /\
  (exists self' w',
     WindSpeedBasedCorrection.finalise Examples.density (Some Examples.curve)
       Examples.w_density = (Return self', w') /\
     power_column self' = Has (Some "Density Power") /\
     column_written (Some "Density Power")
       (fun r => PowerCurve.power Examples.curve <$> r !! Some "Density Wind Speed")
       (frame Examples.w_density) (frame w')).
Proof.
  split.
  - exact (proj1 (finalise_power_column Examples.source_WS Examples.w_speed)
             "WS" Examples.curve eq_refl
             ltac:(repeat constructor; eexists; reflexivity)).
  - exact (proj1 (proj2 (proj2 (proj2
                   (finalise_power_column Examples.density Examples.w_density))))
             "Density" (Some "Density Wind Speed") Examples.curve eq_refl eq_refl
             ltac:(repeat constructor; eexists; reflexivity)).
Defined.

(** The same two calls and [Source(None)], run: the names of the columns
    and the powers in them. *)
Example finalise_power_column_run :
  (let run := Source.finalise Examples.source_WS (Some Examples.curve)
                Examples.w_speed in
   fst run = Return (set_power_column Examples.source_WS (Some "WS Power")) /\
   (fun row => row !! Some "WS Power") <$> frame (snd run) =
     [Some (8 * 100)%Q; Some (12.5 * 100)%Q] /\
   status (snd run) = [StatusEntry "WS Power Complete." false false]) /\
  (let run := WindSpeedBasedCorrection.finalise Examples.density
                (Some Examples.curve) Examples.w_density in
   fst run = Return (set_power_column Examples.density (Some "Density Power")) /\
   (fun row => row !! Some "Density Power") <$> frame (snd run) =
     [Some (7.5 * 100)%Q; Some (12 * 100)%Q] /\
   status (snd run) = [StatusEntry "Density Correction Complete." false false]) /\
  (let run := Source.finalise (Source.init None) (Some Examples.curve)
                (World [ <[None := 8%Q]> ∅ ] [] tt) in
   fst run = Return (set_power_column (Source.init None) (Some "None Power")) /\
   (fun row => row !! Some "None Power") <$> frame (snd run) = [Some (8 * 100)%Q]) /\
  (let run := Source.finalise Examples.source_WS None Examples.w_speed in
   fst run = Return (set_power_column Examples.source_WS None) /\
   frame (snd run) = frame Examples.w_speed).
Proof. repeat split. Qed.

(** ** Density correction *)

Section Density.
Context {num pdm : Type} `{PyFloat num} `{PyPow num} `{PyFormat num}.
Implicit Types (w : world num pdm) (source : node num).

Lemma densityCorrectedHubWindSpeed_value (reference_density : num) (swc hub : column)
    (row : gmap column num) (ws density : num) :
  row !! swc = Some ws -> row !! hub = Some density ->
  DensityCorrectionCalculator.densityCorrectedHubWindSpeed
    (DensityCorrectionCalculator.new reference_density swc hub) row =
  Return (density_corrected reference_density ws density).
Proof.
  intros Hws Hd. unfold DensityCorrectionCalculator.densityCorrectedHubWindSpeed, row_get.
  cbn. rewrite Hws, Hd. reflexivity.
Qed.

Lemma power_name_differs (name : string) :
  Some (name +:+ " Power") <> Some (name +:+ " Wind Speed").
Proof.
  intros [= E]. apply (inj (String.app name)) in E. discriminate.
Qed.

Lemma DensityEquivalentWindSpeed_init_writes source (reference_density : num)
    (hub : column) (power_curve : option (PowerCurve.t num)) w (swc : column) :
  well_named source -> wind_speed_based source = true ->
  wind_speed_column source = Has swc ->
  Forall (fun r => is_Some (r !! swc) /\ is_Some (r !! hub)) (frame w) ->
  exists self w' name,
    DensityEquivalentWindSpeed.init source reference_density hub power_curve w =
      (Return self, w') /\
    Correction.calculate_name source "Density" w = (Return name, w) /\
    wind_speed_column self = Has (Some (name +:+ " Wind Speed")) /\
    forall (i : nat) (r : gmap column num) (ws density : num),
      frame w !! i = Some r -> r !! swc = Some ws -> r !! hub = Some density ->
      exists r', frame w' !! i = Some r' /\
        r' !! Some (name +:+ " Wind Speed") =
        Some (density_corrected reference_density ws density).
Proof.
  intros Hwn Hw Hswc Hall.
  destruct (WindSpeedBased_init_accepts "Density" source w Hwn Hw)
    as (name & self & Hname & Hcn & Hwsc & Hinit).
  set (calc := DensityCorrectionCalculator.new reference_density swc hub).
  set (wcol := Some (name +:+ " Wind Speed")) in *.
  destruct (Forall_values (DensityCorrectionCalculator.densityCorrectedHubWindSpeed calc)
              (frame w)) as [vs Hvs].
  { eapply Forall_impl; [exact Hall|]. intros r [[ws Hws] [d Hd]].
    eexists. apply densityCorrectedHubWindSpeed_value; eassumption. }
  pose proof (zip_with_insert wcol _ _ _ Hvs) as Hrows.
  set (rows1 := zip_with (fun r v => <[wcol := v]> r) (frame w) vs) in *.
  assert (Hlook : forall i r ws density,
             frame w !! i = Some r -> r !! swc = Some ws -> r !! hub = Some density ->
             rows1 !! i = Some (<[wcol := density_corrected reference_density ws density]> r)).
  { intros i r ws d Hi Hws Hd.
    destruct (Forall2_lookup_l _ _ _ _ _ Hrows Hi) as (r' & Hi' & v & Hv & ->).
    unfold calc in Hv.
    rewrite (densityCorrectedHubWindSpeed_value _ _ _ _ _ _ Hws Hd) in Hv.
    injection Hv as <-. exact Hi'. }
  unfold DensityEquivalentWindSpeed.init.
  rewrite (bind_step _ _ _ _ _ Hinit). run. rewrite Hswc. cbn beta iota zeta.
  fold calc. erewrite (apply_lift _ vs) by exact Hvs.
  change (wind_speed_column (set_reference_density self reference_density))
    with (wind_speed_column self).
  rewrite Hwsc. unfold DataFrame.setitem. cbn beta iota zeta.
  cbn [frame status deviation_matrix]. fold rows1.
  unfold WindSpeedBasedCorrection.finalise.
  change (correction_name (set_reference_density self reference_density))
    with (correction_name self).
  rewrite Hcn. run.
  destruct power_curve as [pc|].
  - change (wind_speed_column (set_power_column (set_reference_density self reference_density)
                                 (Some (name +:+ " Power"))))
      with (wind_speed_column self).
    rewrite Hwsc. cbn beta iota zeta.
    match goal with |- context [DataFrame.apply ?f ?w1] => set (w1' := w1) end.
    destruct (power_column_written pc wcol (Some (name +:+ " Power")) w1')
      as (values & Happly & Hwritten).
    { subst w1'. cbn [frame]. apply Forall2_Forall_r with (1 := Hrows).
      apply Forall_true. intros r r' (v & _ & ->). rewrite lookup_insert_eq. eauto. }
    rewrite Happly. unfold DataFrame.setitem. cbn beta iota zeta.
    eexists _, _, name. split; [reflexivity|]. split; [exact Hname|].
    split; [exact Hwsc|].
    intros i r ws d Hi Hws Hd. cbn [frame].
    pose proof (Hlook i r ws d Hi Hws Hd) as Hi1.
    destruct (Forall2_lookup_l _ _ _ _ _ Hwritten Hi1) as (r2 & Hi2 & p & _ & ->).
    exists (<[Some (name +:+ " Power") := p]>
              (<[wcol := density_corrected reference_density ws d]> r)).
    split; [exact Hi2|].
    rewrite lookup_insert_ne by apply power_name_differs.
    apply lookup_insert_eq.
  - eexists _, _, name. split; [reflexivity|]. split; [exact Hname|].
    split; [exact Hwsc|].
    intros i r ws d Hi Hws Hd. cbn [frame].
    eexists. split; [exact (Hlook i r ws d Hi Hws Hd)|]. apply lookup_insert_eq.
Qed.

End Density.

Section Reals.
Local Open Scope R_scope.

Lemma Rpower_cube_root (a : R) : 0 < a -> Rpower (a ^ 3) (1 / 3) = a.
Proof.
  intros Ha.
  rewrite <- (Rpower_pow 3 a Ha), Rpower_mult.
  replace (INR 3 * (1 / 3)) with 1 by (simpl; field).
  apply Rpower_1, Ha.
Qed.

Lemma cube_root_between (x lo hi : R) :
  0 < lo -> lo ^ 3 < x -> x < hi ^ 3 -> 0 < hi ->
  lo < Rpower x (1 / 3) < hi.
Proof.
  intros Hlo Hl Hh Hhi.
  assert (0 < lo ^ 3) by (apply pow_lt, Hlo).
  split.
  - rewrite <- (Rpower_cube_root lo Hlo) at 1.
    apply Rlt_Rpower_l; lra.
  - rewrite <- (Rpower_cube_root hi Hhi) at 1.
    apply Rlt_Rpower_l; lra.
Qed.

Lemma lit_R (q : Q) : lit q = Q2R q.
Proof. reflexivity. Qed.

Lemma pow_positive (x y : R) : 0 < x -> RFloat.pow x y = Rpower x y.
Proof. intros Hx. unfold RFloat.pow. destruct (Rlt_dec 0 x); [reflexivity | contradiction]. Qed.

Lemma pow_zero (y : R) : RFloat.pow 0 y = 0.
Proof. unfold RFloat.pow. destruct (Rlt_dec 0 0); [lra | reflexivity]. Qed.

Lemma third_R : lit 1 / lit 3 = 1 / 3.
Proof. cbn. unfold Q2R; cbn. field. Qed.

(** The calculator's value on a positive density ratio. *)
Lemma density_corrected_R (reference_density ws density : R) :
  0 < density / reference_density ->
  density_corrected reference_density ws density =
  ws * Rpower (density / reference_density) (1 / 3).
Proof.
  intros Hpos. unfold density_corrected. cbn [fmul fdiv fpow RFloat.R_float RFloat.R_pow].
  rewrite (pow_positive _ _ Hpos), third_R. reflexivity.
Qed.

(** The calculator's value on a zero density. *)
Lemma density_corrected_zero (reference_density ws : R) :
  reference_density <> 0 -> density_corrected reference_density ws 0 = 0.
Proof.
  intros _. unfold density_corrected. cbn [fmul fdiv fpow RFloat.R_float RFloat.R_pow].
  replace (0 / reference_density) with 0 by (unfold Rdiv; ring).
  rewrite pow_zero. ring.
Qed.

Lemma example_ratio_positive : 0 < lit 1 / lit 1.225.
Proof.
  replace (lit 1 / lit 1.225) with (1000 / 1225) by (cbn; unfold Q2R; cbn; field).
  lra.
Qed.

(** The example of the specification, in real arithmetic. *)
Lemma density_example_value :
  9.345 < density_corrected (lit 1.225) (lit 10) (lit 1) < 9.346.
Proof.
  rewrite (density_corrected_R _ _ _ example_ratio_positive).
  replace (lit 10) with 10 by (cbn; unfold Q2R; cbn; lra).
  replace (lit 1 / lit 1.225) with (1000 / 1225) by (cbn; unfold Q2R; cbn; field).
  pose proof (cube_root_between (1000 / 1225) 0.9345 0.9346) as Hb.
  destruct Hb as [Hlo Hhi]; lra.
Qed.

(** C6, amended.  On a frame whose rows have the source wind speed and
    the density, [DensityEquivalentWindSpeed] writes a value into its
    wind-speed column for every row: for a row whose density ratio
    [density / reference_density] is positive the value is
    [ws * (density / reference_density) ^ (1/3)], and for a row of
    density zero it is zero.  For wind speed 10, density 1 and reference
    density 1.225 the value is between 9.345 and 9.346 (not 9.428). *)
Theorem DensityEquivalentWindSpeed_formula {pdm : Type} `{PyFormat R}
    (source : node R) (reference_density : R) (hub : column)
    (power_curve : option (PowerCurve.t R)) (w : world R pdm) (swc : column) :
  constructed pdm source ->
  wind_speed_based source = true ->
  wind_speed_column source = Has swc ->
  Forall (fun r => is_Some (r !! swc) /\ is_Some (r !! hub)) (frame w) ->
  (exists (self : node R) (w' : world R pdm) (name : string),
     DensityEquivalentWindSpeed.init source reference_density hub power_curve w =
       (Return self, w') /\
     wind_speed_column self = Has (Some (name +:+ " Wind Speed")) /\
     forall (i : nat) (r : gmap column R) (ws density : R),
       frame w !! i = Some r -> r !! swc = Some ws -> r !! hub = Some density ->
       exists (r' : gmap column R) (v : R),
         frame w' !! i = Some r' /\
         r' !! Some (name +:+ " Wind Speed") = Some v /\
         (0 < density / reference_density ->
          v = ws * Rpower (density / reference_density) (1 / 3)) /\
         (density = 0 -> reference_density <> 0 -> v = 0)) /\
  (forall row : gmap column R,
     row !! Some "WS"%string = Some 10 -> row !! Some "Density"%string = Some 1 ->
     exists v : R,
       DensityCorrectionCalculator.densityCorrectedHubWindSpeed
         (DensityCorrectionCalculator.new 1.225 (Some "WS"%string) (Some "Density"%string))
         row = Return v /\
       v = 10 * Rpower (1 / 1.225) (1 / 3) /\ 9.345 < v < 9.346).
Proof.
  intros Hc Hw Hswc Hall. split.
  - destruct (DensityEquivalentWindSpeed_init_writes source reference_density hub
                power_curve w swc (constructed_well_named _ Hc) Hw Hswc Hall)
      as (self & w' & name & Hinit & _ & Hwsc & Hrows).
    exists self, w', name. split; [exact Hinit|]. split; [exact Hwsc|].
    intros i r ws d Hi Hws Hd.
    destruct (Hrows i r ws d Hi Hws Hd) as (r' & Hi' & Hv).
    exists r', (density_corrected reference_density ws d).
    split; [exact Hi'|]. split; [exact Hv|]. split.
    + apply density_corrected_R.
    + intros ->. apply density_corrected_zero.
  - intros row Hws Hd. exists (density_corrected 1.225 10 1).
    assert (Hpos : 0 < 1 / 1.225) by lra.
    split; [|split].
    + rewrite (densityCorrectedHubWindSpeed_value 1.225 (Some "WS"%string)
                 (Some "Density"%string) row 10 1 Hws Hd). reflexivity.
    + apply density_corrected_R, Hpos.
    + rewrite (density_corrected_R _ _ _ Hpos).
      pose proof (cube_root_between (1 / 1.225) 0.9345 0.9346) as Hb.
      destruct Hb as [Hlo Hhi]; lra.
Qed.

Lemma DensityEquivalentWindSpeed_formula_witness :
  (exists (self : node R) (w' : world R unit) (name : string),
     @DensityEquivalentWindSpeed.init R unit _ _ RFloat.unrendered
       (Source.init (Some "WS"%string)) (lit 1.225) (Some "Density"%string) None
       (World [Examples.density_row] [] tt) =
       (Return self, w') /\
     wind_speed_column self = Has (Some (name +:+ " Wind Speed")) /\
     forall (i : nat) (r : gmap column R) (ws density : R),
       [Examples.density_row] !! i = Some r ->
       r !! Some "WS"%string = Some ws -> r !! Some "Density"%string = Some density ->
       exists (r' : gmap column R) (v : R),
         frame w' !! i = Some r' /\
         r' !! Some (name +:+ " Wind Speed") = Some v /\
         (0 < density / lit 1.225 ->
          v = ws * Rpower (density / lit 1.225) (1 / 3)) /\
         (density = 0 -> lit 1.225 <> 0 -> v = 0)) /\
  (forall row : gmap column R,
     row !! Some "WS"%string = Some 10 -> row !! Some "Density"%string = Some 1 ->
     exists v : R,
       DensityCorrectionCalculator.densityCorrectedHubWindSpeed
         (DensityCorrectionCalculator.new 1.225 (Some "WS"%string) (Some "Density"%string))
         row = Return v /\
       v = 10 * Rpower (1 / 1.225) (1 / 3) /\ 9.345 < v < 9.346).
Proof.
  apply (@DensityEquivalentWindSpeed_formula unit RFloat.unrendered
           (Source.init (Some "WS"%string)) (lit 1.225) (Some "Density"%string) None
           (World [Examples.density_row] [] tt) (Some "WS"%string)).
  - apply constructed_Source.
  - reflexivity.
  - reflexivity.
  - repeat constructor; eexists; reflexivity.
Defined.

(** C6 as stated fails in its number: for wind speed 10, density 1 and
    reference density 1.225 the calculator returns
    [10 * (1 / 1.225) ^ (1/3)], which is not within 0.05 of 9.428. *)
Lemma density_example_is_not_9_428 :
  DensityCorrectionCalculator.densityCorrectedHubWindSpeed
    (DensityCorrectionCalculator.new (lit 1.225) (Some "WS"%string) (Some "Density"%string))
    Examples.density_row =
    Return (lit 10 * Rpower (lit 1 / lit 1.225) (lit 1 / lit 3)) /\
  ~ Rabs (lit 10 * Rpower (lit 1 / lit 1.225) (lit 1 / lit 3) - 9.428) <= 0.05.
Proof.
  pose proof density_example_value as Hv.
  rewrite (density_corrected_R _ _ _ example_ratio_positive), <- third_R in Hv.
  split.
  - transitivity (Return (A := R) (density_corrected (lit 1.225) (lit 10) (lit 1)));
      [reflexivity|].
    rewrite (density_corrected_R _ _ _ example_ratio_positive), <- third_R. reflexivity.
  - intros Habs. unfold Rabs in Habs.
    destruct (Rcase_abs _) in Habs; lra.
Qed.

End Reals.

(** ** Turbulence correction and the rotor-equivalent label *)

(** The calculator keeps the rated power it is given and never reads it:
    its power is the curve's. *)
Lemma TurbulencePowerCalculator_power_ratedPower {num : Type} (pc : PowerCurve.t num)
    (rated1 rated2 : num) (wsc tc : column) (row : gmap column num) :
  TurbulencePowerCalculator.power (TurbulencePowerCalculator.new pc rated1 wsc tc) row =
  TurbulencePowerCalculator.power (TurbulencePowerCalculator.new pc rated2 wsc tc) row.
Proof. reflexivity. Qed.

Lemma prefix_refl_app (p b : string) : String.prefix p (p +:+ b) = true.
Proof.
  induction p as [|c p IH]; [destruct b; reflexivity|].
  change (String c p +:+ b) with (String c (p +:+ b)).
  cbn [String.prefix]. destruct (ascii_dec c c); [exact IH | congruence].
Qed.

Lemma contains_unfold (sub s : string) :
  PyStr.contains sub s =
  String.prefix sub s ||
  match s with
  | EmptyString => false
  | String _ s' => PyStr.contains sub s'
  end.
Proof. destruct s; reflexivity. Qed.

Lemma contains_intro (p a b : string) : PyStr.contains p (a +:+ p +:+ b) = true.
Proof.
  induction a as [|c a IH].
  - change ("" +:+ p +:+ b) with (p +:+ b).
    rewrite contains_unfold, prefix_refl_app. reflexivity.
  - change (String c a +:+ p +:+ b) with (String c (a +:+ p +:+ b)).
    rewrite contains_unfold, IH. apply orb_true_r.
Qed.

Lemma contains_prefix (p b : string) : PyStr.contains p (p +:+ b) = true.
Proof. apply (contains_intro p "" b). Qed.

Section Rews.
Context {num : Type} `{PyFloat num} `{PyFormat num}.

Lemma rews_type_veer (upflow : bool) :
  exists b, RotorEquivalentWindSpeed.rews_type true upflow = "Speed" +:+ "+Veer" +:+ b.
Proof. destruct upflow; [exists "+Upflow" | exists ""]; reflexivity. Qed.

Lemma rews_type_upflow (veer : bool) :
  exists a, RotorEquivalentWindSpeed.rews_type veer true = a +:+ "+Upflow" +:+ "".
Proof. destruct veer; [exists "Speed+Veer" | exists "Speed"]; reflexivity. Qed.

Lemma label_contains_rews_type (veer upflow : bool) (e : num) (p a b : string) :
  RotorEquivalentWindSpeed.rews_type veer upflow = a +:+ p +:+ b ->
  PyStr.contains p (RotorEquivalentWindSpeed.label veer upflow e) = true.
Proof.
  intros E. unfold RotorEquivalentWindSpeed.label. rewrite E.
  replace (RotorEquivalentWindSpeed.exponent_type e +:+ " (" +:+ (a +:+ p +:+ b) +:+ ")")
    with ((RotorEquivalentWindSpeed.exponent_type e +:+ " (" +:+ a) +:+ p +:+ (b +:+ ")"))
    by (rewrite !append_assoc; reflexivity).
  apply contains_intro.
Qed.

End Rews.

Lemma Q_two_is_not_three (v : Q) :
  (v == 2)%Q -> feqb v (lit 3) = false /\ feqb v (lit 2) = true.
Proof.
  intros Hv. cbn [feqb lit QFloat.Q_float]. split.
  - destruct (Qeq_bool v 3) eqn:E; [|reflexivity].
    apply Qeq_bool_eq in E. rewrite Hv in E. discriminate E.
  - apply Qeq_bool_iff, Hv.
Qed.

(** C9.  The label of [RotorEquivalentWindSpeed]: exponent 3.0 gives a
    label that contains ["REWS"], exponent 2.0 one that contains
    ["RAWS"], any other exponent [v] one that contains
    ["REWS-Exponent=<v>"] (2.5 gives ["REWS-Exponent=2.5"]); the veer flag
    adds ["+Veer"] and the upflow flag ["+Upflow"]. *)
Theorem rews_label_spec {num : Type} `{PyFloat num} `{PyFormat num}
    (rewsVeer rewsUpflow : bool) (rewsExponent : num) :
  let label := RotorEquivalentWindSpeed.label rewsVeer rewsUpflow rewsExponent in
  (feqb rewsExponent (lit 3) = true -> PyStr.contains "REWS" label = true) /\
  (feqb rewsExponent (lit 3) = false -> feqb rewsExponent (lit 2) = true ->
   PyStr.contains "RAWS" label = true) /\
  (feqb rewsExponent (lit 3) = false -> feqb rewsExponent (lit 2) = false ->
   PyStr.contains ("REWS-Exponent=" +:+ format_general rewsExponent) label = true) /\
  (rewsVeer = true -> PyStr.contains "+Veer" label = true) /\
  (rewsUpflow = true -> PyStr.contains "+Upflow" label = true) /\
  (forall (veer upflow : bool) (v : Q),
     (v == 2)%Q ->
     RotorEquivalentWindSpeed.label veer upflow v =
     "RAWS" +:+ " (" +:+ RotorEquivalentWindSpeed.rews_type veer upflow +:+ ")") /\
  RotorEquivalentWindSpeed.label (num := Q) false false 3%Q = "REWS (Speed)" /\
  RotorEquivalentWindSpeed.label (num := Q) false false 2%Q = "RAWS (Speed)" /\
  RotorEquivalentWindSpeed.label (num := Q) false false 2.5%Q = "REWS-Exponent=2.5 (Speed)" /\
  RotorEquivalentWindSpeed.label (num := Q) true true 3%Q = "REWS (Speed+Veer+Upflow)".
Proof.
  cbv zeta. repeat split.
  - intros E. unfold RotorEquivalentWindSpeed.label, RotorEquivalentWindSpeed.exponent_type.
    rewrite E. apply contains_prefix.
  - intros E3 E2.
    unfold RotorEquivalentWindSpeed.label, RotorEquivalentWindSpeed.exponent_type.
    rewrite E3, E2. apply contains_prefix.
  - intros E3 E2.
    unfold RotorEquivalentWindSpeed.label, RotorEquivalentWindSpeed.exponent_type.
    rewrite E3, E2. apply contains_prefix.
  - intros ->. destruct (rews_type_veer rewsUpflow) as [b E].
    exact (label_contains_rews_type _ _ _ _ _ _ E).
  - intros ->. destruct (rews_type_upflow rewsVeer) as [a E].
    exact (label_contains_rews_type _ _ _ _ _ _ E).
  - intros veer upflow v Hv.
    unfold RotorEquivalentWindSpeed.label, RotorEquivalentWindSpeed.exponent_type.
    destruct (Q_two_is_not_three v Hv) as [-> ->]. reflexivity.
Qed.

Lemma rews_label_spec_witness :
  PyStr.contains "REWS" (RotorEquivalentWindSpeed.label (num := Q) true false 3%Q) = true /\
  PyStr.contains "RAWS" (RotorEquivalentWindSpeed.label (num := Q) true false 2%Q) = true /\
  PyStr.contains ("REWS-Exponent=" +:+ format_general 2.5%Q)
    (RotorEquivalentWindSpeed.label (num := Q) true false 2.5%Q) = true /\
  PyStr.contains "+Veer" (RotorEquivalentWindSpeed.label (num := Q) true false 3%Q) = true /\
  PyStr.contains "+Upflow" (RotorEquivalentWindSpeed.label (num := Q) false true 3%Q) = true.
Proof.
  split; [|split; [|split; [|split]]].
  - apply (proj1 (rews_label_spec (num := Q) true false 3%Q)). reflexivity.
  - apply (proj1 (proj2 (rews_label_spec (num := Q) true false 2%Q))); reflexivity.
  - apply (proj1 (proj2 (proj2 (rews_label_spec (num := Q) true false 2.5%Q)))); reflexivity.
  - apply (proj1 (proj2 (proj2 (proj2 (rews_label_spec (num := Q) true false 3%Q))))).
    reflexivity.
  - apply (proj1 (proj2 (proj2 (proj2 (proj2 (rews_label_spec (num := Q) false true 3%Q)))))).
    reflexivity.
Defined.

(** ** The deviation report *)

Section Report.
Context {num pdm : Type} `{PyFloat num} `{PyFormat num} `{DeviationMatrix num pdm}.
Implicit Types (w : world num pdm) (m : pdm).

Lemma ask_Return {A : Type} (f : pdm -> A) w (a : A) w' :
  PowerDeviationMatrixCorrection.ask f w = (Return a, w') ->
  a = f (deviation_matrix w) /\ w' = w.
Proof. unfold PowerDeviationMatrixCorrection.ask. intros [= <- <-]. auto. Qed.

Lemma report_dimension_run (red orange : bool) (d : dimension num) w :
  PowerDeviationMatrixCorrection.report_dimension red orange d w =
  (Return tt,
   World (frame w) (status w ++ dimension_entries red orange (deviation_matrix w) d)
         (deviation_matrix w)).
Proof.
  unfold PowerDeviationMatrixCorrection.report_dimension,
    PowerDeviationMatrixCorrection.ask, dimension_entries.
  run. cbn [frame status deviation_matrix].
  rewrite <- !app_assoc. reflexivity.
Qed.

Lemma report_dimensions_run (red orange : bool) (dims : list (dimension num)) w :
  PowerDeviationMatrixCorrection.report_dimensions red orange dims w =
  (Return tt,
   World (frame w)
         (status w ++ flat_map (dimension_entries red orange (deviation_matrix w)) dims)
         (deviation_matrix w)).
Proof.
  revert w. induction dims as [|d dims IH]; intros w.
  - cbn. rewrite app_nil_r. destruct w; reflexivity.
  - cbn [PowerDeviationMatrixCorrection.report_dimensions flat_map].
    rewrite (bind_step _ _ _ _ _ (report_dimension_run red orange d w)), IH.
    cbn [frame status deviation_matrix]. rewrite <- app_assoc. reflexivity.
Qed.

Lemma entry_severity_flags (message : string) (fraction : num) :
  entry_severity (StatusEntry message (fgtb fraction (lit 0.20)) (fgtb fraction (lit 0.05)))
  = classify fraction.
Proof. reflexivity. Qed.

End Report.

(** C4, amended.  The report of [PowerDeviationMatrixCorrection] ends
    with the entry for the whole matrix and three entries per dimension;
    every one of them, the per-dimension ones included, has the severity
    that the bands (above 0.20 critical, above 0.05 warning, otherwise
    informational) give the overall out-of-range fraction. *)
Theorem PowerDeviationMatrixCorrection_report_severity {num pdm : Type}
    `{PyFloat num} `{PyFormat num} `{DeviationMatrix num pdm}
    (source : node num) (parameter_columns : gmap string column)
    (power_curve : option (PowerCurve.t num)) (w : world num pdm)
    (self : node num) (w' : world num pdm) :
  PowerDeviationMatrixCorrection.init source parameter_columns power_curve w =
    (Return self, w') ->
  let m := deviation_matrix w' in
  let overall := out_of_range_fraction m None in
  let red := fgtb overall (lit 0.20) in
  let orange := fgtb overall (lit 0.05) in
  exists before : list status_entry,
    status w' =
      before ++ overall_entry red orange m
             :: flat_map (dimension_entries red orange m) (dimensions m) /\
    Forall (fun e => entry_severity e = classify overall)
           (overall_entry red orange m
              :: flat_map (dimension_entries red orange m) (dimensions m)).
Proof.
  intros Hinit. cbv zeta.
  unfold PowerDeviationMatrixCorrection.init in Hinit. monad_inv Hinit.
  apply ret_Return in Hinit as [_ <-].
  repeat match goal with
  | Hask : PowerDeviationMatrixCorrection.ask _ _ = (Return _, _) |- _ =>
      apply ask_Return in Hask as [-> ->]
  end.
  repeat match goal with
  | Hrep : PowerDeviationMatrixCorrection.report_dimensions _ _ _ _ = (Return _, _) |- _ =>
      rewrite report_dimensions_run in Hrep; injection Hrep as _ <-
  | Hadd : Status.add _ _ _ _ = (Return _, _) |- _ =>
      unfold Status.add in Hadd; injection Hadd as _ <-
  end.
  cbn [frame status deviation_matrix].
  eexists. split.
  - rewrite <- app_assoc. reflexivity.
  - constructor; [reflexivity|].
    apply Forall_flat_map, Forall_true. intros d.
    repeat constructor.
Qed.

Lemma PowerDeviationMatrixCorrection_report_severity_witness :
  let m := deviation_matrix (snd PdmExample.run) in
  let overall := out_of_range_fraction m None in
  let red := fgtb overall (lit 0.20) in
  let orange := fgtb overall (lit 0.05) in
  exists before : list status_entry,
    status (snd PdmExample.run) =
      before ++ overall_entry red orange m
             :: flat_map (dimension_entries red orange m) (dimensions m) /\
    Forall (fun e => entry_severity e = classify overall)
           (overall_entry red orange m
              :: flat_map (dimension_entries red orange m) (dimensions m)).
Proof.
  apply (PowerDeviationMatrixCorrection_report_severity
           (Source.init (Some "WS")) PdmExample.parameter_columns (Some Examples.curve)
           PdmExample.w (Node (Some (Source.init (Some "WS"))) false false true
                              (Has "2D Power Deviation Matrix") Absent
                              (Has (Some "2D Power Deviation Matrix Power"))
                              (Has (Some Examples.curve)) Absent)).
  vm_compute. reflexivity.
Defined.

(** C4 as stated fails: with a quarter of the rows out of range, all of
    them by turbulence, the entry of the dimension [Shear] (own fraction
    0, informational by the bands) is reported as critical. *)
Lemma dimension_report_uses_overall_fraction :
  let w' := snd PdmExample.run in
  out_of_range_fraction (deviation_matrix w') None = (1 # 4)%Q /\
  out_of_range_fraction (deviation_matrix w') (Some "Shear") = 0%Q /\
  classify (out_of_range_fraction (deviation_matrix w') (Some "Shear")) = Informational /\
  status w' !! 6%nat =
    Some (StatusEntry "-Shear values out of range 0.00% [0.0 to 1.0]" true true) /\
  entry_severity (StatusEntry "-Shear values out of range 0.00% [0.0 to 1.0]" true true)
    = Critical.
Proof. vm_compute. repeat split. Qed.

(** * The chain, the frame and the matrix *)


Section Shape.
Context {num pdm : Type}.
Implicit Types (w : world num pdm) (P C self : node num).

Lemma chain_shape_Correction (label : string) P (wsb : bool) w C w' :
  chain_shape P -> Correction.init label P wsb w = (Return C, w') -> chain_shape C.
Proof.
  intros (_ & _ & Hanc) Hinit.
  apply Correction_init_Return in Hinit as (name & Hw & _ & -> & _).
  split; [reflexivity|]. split; [split; discriminate|].
  cbn [ancestors source]. constructor; assumption.
Qed.

Lemma constructed_chain_shape P : constructed pdm P -> chain_shape P.
Proof.
  induction 1 as [c | self self' pc w w' _ IH H | label parent self wsb w w' _ IH H
                  | label parent self w w' _ IH H | self self' pc w w' _ IH H
                  | label parent self pc w w' _ IH H | self d _ IH].
  - split; [reflexivity|]. split; [split; reflexivity|]. constructor.
  - apply Source_finalise_Return in H as [c ->]. destruct self; exact IH.
  - exact (chain_shape_Correction _ _ _ _ _ _ IH H).
  - apply WindSpeedBased_init_Return in H as (C & w1 & c & H & ->).
    pose proof (chain_shape_Correction _ _ _ _ _ _ IH H) as HC. destruct C; exact HC.
  - apply WindSpeedBased_finalise_Return in H as [c ->]. destruct self; exact IH.
  - apply PowerBased_init_Return in H as (C & w1 & c & p & H & ->).
    pose proof (chain_shape_Correction _ _ _ _ _ _ IH H) as HC. destruct C; exact HC.
  - destruct self; exact IH.
Qed.

End Shape.

(** X1.  On every node the constructors and [finalise] methods produce,
    [power_based] is the negation of [wind_speed_based], and a raw node
    (a [Source]) is wind-speed based and not power based. *)
Theorem constructed_flags_exclusive {num pdm : Type} (P : node num) :
  constructed pdm P ->
  power_based P = negb (wind_speed_based P) /\
  (raw P = true -> wind_speed_based P = true /\ power_based P = false).
Proof.
  intros HP. pose proof (constructed_chain_shape P HP) as (Hflags & _ & _).
  split; [exact Hflags|]. intros Hraw.
  destruct (constructed_well_named P HP) as [Hw _]. rewrite Hflags, (Hw Hraw). auto.
Qed.

Lemma constructed_flags_exclusive_witness :
  power_based Examples.turbulence = negb (wind_speed_based Examples.turbulence) /\
  (raw Examples.turbulence = true ->
   wind_speed_based Examples.turbulence = true /\ power_based Examples.turbulence = false).
Proof.
  apply (constructed_flags_exclusive (pdm := unit) Examples.turbulence).
  exact constructed_turbulence.
Defined.

(** X2.  On every constructed node, [raw] holds exactly when the node
    has no [source], and every stage before it in the chain is
    wind-speed based: a power-based stage is never an inner link. *)
Theorem constructed_ancestors_wind_speed_based {num pdm : Type} (P : node num) :
  constructed pdm P ->
  (raw P = true <-> source P = None) /\
  Forall (fun a => wind_speed_based a = true) (ancestors P).
Proof.
  intros HP. pose proof (constructed_chain_shape P HP) as (_ & Hsrc & Hanc). auto.
Qed.

Lemma constructed_ancestors_wind_speed_based_witness :
  (raw Examples.turbulence = true <-> source Examples.turbulence = None) /\
  Forall (fun a => wind_speed_based a = true) (ancestors Examples.turbulence).
Proof.
  apply (constructed_ancestors_wind_speed_based (pdm := unit) Examples.turbulence).
  exact constructed_turbulence.
Defined.

(** X3.  A power-based correction is the last stage of its chain: on
    the node a successful [PowerBasedCorrection.__init__] returns, the
    constructors [Correction], [WindSpeedBasedCorrection] and
    [PowerBasedCorrection] all raise ["<next> cannot follow <name>"],
    for every label and from every state, leaving that state as it
    was. *)
Theorem power_based_is_last {num pdm : Type} (label : string) (parent self : node num)
    (pc : arg (option (PowerCurve.t num))) (w w' : world num pdm) :
  constructed pdm parent ->
  PowerBasedCorrection.init label parent pc w = (Return self, w') ->
  exists name,
    correction_name self = Has name /\
    forall (next : string) (w1 : world num pdm),
      (forall wsb, Correction.init next self wsb w1 =
                   (Raise (Exception (next +:+ " cannot follow " +:+ name)), w1)) /\
      WindSpeedBasedCorrection.init next self w1 =
        (Raise (Exception (next +:+ " cannot follow " +:+ name)), w1) /\
      (forall pc', PowerBasedCorrection.init next self (Passed pc') w1 =
                   (Raise (Exception (next +:+ " cannot follow " +:+ name)), w1)).
Proof.
  intros HP Hinit.
  assert (Hself : constructed pdm self) by (eapply constructed_PowerBased; eassumption).
  apply PowerBased_init_Return in Hinit as (C & w1 & c & p & Hinit & ->).
  apply Correction_init_Return in Hinit as (name & _ & _ & -> & _).
  exists name. split; [reflexivity|]. intros next w2.
  pose proof (constructed_well_named _ Hself) as Hwn.
  split; [|split].
  - intros wsb.
    destruct (proj2 (chain_rule_Correction next _ wsb w2 Hwn) eq_refl) as (n & Hn & Hr).
    cbn in Hn. injection Hn as <-. exact Hr.
  - destruct (proj2 (chain_rule_WindSpeedBased next _ w2 Hwn) eq_refl) as (n & Hn & Hr).
    cbn in Hn. injection Hn as <-. exact Hr.
  - intros pc'.
    destruct (proj2 (chain_rule_PowerBased next _ pc' w2 Hwn) eq_refl) as (n & Hn & Hr).
    cbn in Hn. injection Hn as <-. exact Hr.
Qed.

Lemma power_based_is_last_witness :
  exists name,
    correction_name Examples.turbulence = Has name /\
    forall (next : string) (w1 : world Q unit),
      (forall wsb, Correction.init next Examples.turbulence wsb w1 =
                   (Raise (Exception (next +:+ " cannot follow " +:+ name)), w1)) /\
      WindSpeedBasedCorrection.init next Examples.turbulence w1 =
        (Raise (Exception (next +:+ " cannot follow " +:+ name)), w1) /\
      (forall pc', PowerBasedCorrection.init next Examples.turbulence (Passed pc') w1 =
                   (Raise (Exception (next +:+ " cannot follow " +:+ name)), w1)).
Proof.
  apply (power_based_is_last "Turbulence" Examples.density Examples.turbulence
           (Passed None) Examples.w0
           (snd (PowerBasedCorrection.init "Turbulence" Examples.density (Passed None)
                   Examples.w0))).
  - exact constructed_density.
  - reflexivity.
Defined.

Section Attributes.
Context {num pdm : Type}.
Implicit Types (w : world num pdm) (P C self parent : node num).

Lemma calculate_name_any_world P (label name : string) w w1 :
  Correction.calculate_name P label w = (Return name, w) ->
  Correction.calculate_name P label w1 = (Return name, w1).
Proof.
  unfold Correction.calculate_name. destruct (raw P).
  - intros H. apply ret_Return in H as [-> _]. reflexivity.
  - destruct (correction_name P) as [|n]; run; [discriminate|].
    intros [= <-]. reflexivity.
Qed.

Lemma WindSpeedBased_init_node (label : string) parent self w w' :
  WindSpeedBasedCorrection.init label parent w = (Return self, w') ->
  exists name,
    Correction.calculate_name parent label w = (Return name, w) /\
    self = Node (Some parent) false true false (Has name)
                (Has (Some (name +:+ " Wind Speed"))) Absent Absent Absent /\
    w' = World (frame w)
               (status w ++
                [StatusEntry ("Performing " +:+ name +:+ " Correction...") false false])
               (deviation_matrix w).
Proof.
  intros Hinit. unfold WindSpeedBasedCorrection.init in Hinit. monad_inv Hinit.
  apply Correction_init_Return in Hstep as (name & _ & Hname & -> & ->).
  apply getattr_Return in Hstep0 as [[= <-] <-].
  apply ret_Return in Hinit as [<- <-].
  exists name. repeat split. exact Hname.
Qed.

Lemma PowerBased_init_node (label : string) parent pc self w w' :
  PowerBasedCorrection.init label parent (Passed pc) w = (Return self, w') ->
  exists name,
    Correction.calculate_name parent label w = (Return name, w) /\
    self = Node (Some parent) false false true (Has name) Absent
                (Has (Some (name +:+ " Power"))) (Has pc) Absent /\
    w' = World (frame w)
               (status w ++
                [StatusEntry ("Performing " +:+ name +:+ " Correction...") false false])
               (deviation_matrix w).
Proof.
  intros Hinit. unfold PowerBasedCorrection.init in Hinit. monad_inv Hinit.
  apply Correction_init_Return in Hstep as (name & _ & Hname & -> & ->).
  rewrite (calculate_name_any_world _ _ _ _ _ Hname) in Hstep0.
  injection Hstep0 as <- <-.
  apply ret_Return in Hinit as [<- <-].
  exists name. repeat split. exact Hname.
Qed.

End Attributes.

(** X4.  What the two base constructors set.  On success
    [WindSpeedBasedCorrection.__init__] returns a node that is not raw,
    is wind-speed based, has the parent as [source], the composite name
    of [calculate_name] as [correction_name] and
    ["<name> Wind Speed"] as [wind_speed_column], and no other
    attribute; [PowerBasedCorrection.__init__] returns a power-based
    node with the power column ["<name> Power"] and the curve it was
    given.  Either adds the one status message
    ["Performing <name> Correction..."] and changes nothing else. *)
Theorem init_attributes {num pdm : Type} (label : string) (parent self : node num)
    (w w' : world num pdm) :
  (WindSpeedBasedCorrection.init label parent w = (Return self, w') ->
   exists name,
     Correction.calculate_name parent label w = (Return name, w) /\
     self = Node (Some parent) false true false (Has name)
                 (Has (Some (name +:+ " Wind Speed"))) Absent Absent Absent /\
     w' = performing name w) /\
  (forall pc,
     PowerBasedCorrection.init label parent (Passed pc) w = (Return self, w') ->
     exists name,
       Correction.calculate_name parent label w = (Return name, w) /\
       self = Node (Some parent) false false true (Has name) Absent
                   (Has (Some (name +:+ " Power"))) (Has pc) Absent /\
       w' = performing name w).
Proof.
  split.
  - apply WindSpeedBased_init_node.
  - intros pc. apply PowerBased_init_node.
Qed.

Lemma init_attributes_witness :
  exists name,
    Correction.calculate_name Examples.density "Turbulence" Examples.w0 =
      (Return name, Examples.w0) /\
    Examples.turbulence =
      Node (Some Examples.density) false false true (Has name) Absent
           (Has (Some (name +:+ " Power"))) (Has None) Absent /\
    performing "Density & Turbulence" Examples.w0 = performing name Examples.w0.
Proof.
  apply (proj2 (init_attributes "Turbulence" Examples.density Examples.turbulence
                  Examples.w0 (performing "Density & Turbulence" Examples.w0)) None).
  reflexivity.
Defined.

Section Failures.
Context {num pdm : Type}.
Implicit Types (w : world num pdm) (rows : list (gmap column num)).

(** A pure calculator that can raise only [e], on a frame with a row on
    which it does: [apply] raises [e] and nothing has changed. *)
Lemma apply_rows_lift_raise (f : gmap column num -> result num) (e : exn) rows w :
  (forall r e', f r = Raise e' -> e' = e) ->
  Exists (fun r => exists e', f r = Raise e') rows ->
  DataFrame.apply_rows (fun r => lift (f r)) rows w = (Raise e, w).
Proof.
  intros Honly. induction 1 as [r rows [e' He'] | r rows _ IH].
  - cbn [DataFrame.apply_rows]. unfold mbind, M_bind, lift. rewrite He'.
    rewrite (Honly _ _ He'). reflexivity.
  - cbn [DataFrame.apply_rows]. unfold mbind, M_bind, lift.
    destruct (f r) as [v|e'] eqn:Hr.
    + unfold lift in IH. rewrite IH. reflexivity.
    + rewrite (Honly _ _ Hr). reflexivity.
Qed.

Lemma PowerCalculator_power_raise (pc : PowerCurve.t num) (wsc : column)
    (r : gmap column num) (e : exn) :
  PowerCalculator.power (PowerCalculator.new pc wsc) r = Raise e -> e = KeyError wsc.
Proof.
  unfold PowerCalculator.power, row_get. cbn.
  destruct (r !! wsc); [discriminate|]. intros [= <-]. reflexivity.
Qed.

Lemma PowerCalculator_power_missing (pc : PowerCurve.t num) (wsc : column) rows w :
  Exists (fun r => r !! wsc = None) rows ->
  DataFrame.apply_rows
    (fun r => lift (PowerCalculator.power (PowerCalculator.new pc wsc) r)) rows w =
  (Raise (KeyError wsc), w).
Proof.
  intros Hex. apply apply_rows_lift_raise.
  - intros r e'. apply PowerCalculator_power_raise.
  - eapply Exists_impl; [exact Hex|]. intros r Hr. exists (KeyError wsc).
    unfold PowerCalculator.power, row_get. cbn. rewrite Hr. reflexivity.
Qed.

End Failures.

(** X5.  [finalise] with a power curve on a frame in which some row
    lacks the node's wind-speed column raises [KeyError] of that
    column, for [Source.finalise] and for
    [WindSpeedBasedCorrection.finalise]; the frame, the status log and
    the matrix are as before: no column and no message is written. *)
Theorem finalise_missing_wind_speed {num pdm : Type} (self : node num)
    (pc : PowerCurve.t num) (wsc : column) (w : world num pdm) :
  wind_speed_column self = Has wsc ->
  Exists (fun r => r !! wsc = None) (frame w) ->
  Source.finalise self (Some pc) w = (Raise (KeyError wsc), w) /\
  (forall name, correction_name self = Has name ->
     WindSpeedBasedCorrection.finalise self (Some pc) w = (Raise (KeyError wsc), w)).
Proof.
  intros Hwsc Hex. split.
  - unfold Source.finalise. rewrite Hwsc. run. unfold DataFrame.apply.
    rewrite (PowerCalculator_power_missing pc wsc _ w Hex). reflexivity.
  - intros name Hname. unfold WindSpeedBasedCorrection.finalise. rewrite Hname. run.
    change (wind_speed_column (set_power_column self (Some (name +:+ " Power"))))
      with (wind_speed_column self).
    rewrite Hwsc. cbn beta iota zeta. unfold DataFrame.apply.
    rewrite (PowerCalculator_power_missing pc wsc _ w Hex). reflexivity.
Qed.

(** A [Source(None)] over a frame of named columns. *)
Lemma finalise_missing_wind_speed_witness :
  Source.finalise (Source.init None) (Some Examples.curve) Examples.w_speed =
    (Raise (KeyError None), Examples.w_speed) /\
  (forall name, correction_name (Source.init (num := Q) None) = Has name ->
     WindSpeedBasedCorrection.finalise (Source.init None) (Some Examples.curve)
       Examples.w_speed = (Raise (KeyError None), Examples.w_speed)).
Proof.
  apply (finalise_missing_wind_speed (Source.init None) Examples.curve None
           Examples.w_speed).
  - reflexivity.
  - apply Exists_cons_hd. reflexivity.
Defined.

Lemma append_not_self (s t : string) : t <> EmptyString -> s +:+ t <> s.
Proof.
  intros Ht. induction s as [|c s IH].
  - exact Ht.
  - change (String c s +:+ t) with (String c (s +:+ t)). intros [= E]. exact (IH E).
Qed.

Lemma Source_power_column_differs (wsc : column) :
  Some (format_column wsc +:+ " Power") <> wsc.
Proof.
  destruct wsc as [s|]; [|discriminate].
  intros [= E]. exact (append_not_self s " Power" ltac:(discriminate) E).
Qed.

Lemma column_written_again {num : Type} (pcol wsc : column) (f : num -> num)
    (before after after' : list (gmap column num)) :
  pcol <> wsc ->
  column_written pcol (fun r => f <$> r !! wsc) before after ->
  column_written pcol (fun r => f <$> r !! wsc) after after' ->
  after' = after.
Proof.
  intros Hne H1. revert after'.
  induction H1 as [|r r1 before after (v & Hv & ->) _ IH]; intros after' H2.
  - inversion H2. reflexivity.
  - inversion H2 as [|? r2 ? after2 (v' & Hv' & ->) H2' ]; subst.
    rewrite lookup_insert_ne in Hv' by exact Hne.
    rewrite Hv in Hv'. injection Hv' as <-.
    rewrite insert_insert_eq. f_equal. apply IH, H2'.
Qed.

Lemma column_written_keeps {num : Type} (pcol c : column)
    (value : gmap column num -> option num) (before after : list (gmap column num)) :
  column_written pcol value before after ->
  length after = length before /\
  forall (i : nat) (r : gmap column num),
    before !! i = Some r ->
    exists r', after !! i = Some r' /\ (c <> pcol -> r' !! c = r !! c).
Proof.
  intros Hw. split; [symmetry; exact (Forall2_length _ _ _ Hw)|].
  intros i r Hi.
  destruct (Forall2_lookup_l _ _ _ _ _ Hw Hi) as (r' & Hi' & v & _ & ->).
  exists (<[pcol := v]> r). split; [exact Hi'|].
  intros Hne. apply lookup_insert_ne. congruence.
Qed.

Lemma Source_finalise_writes {num pdm : Type} (self : node num) (pc : PowerCurve.t num)
    (wsc : column) (w : world num pdm) :
  wind_speed_column self = Has wsc ->
  Forall (fun r => is_Some (r !! wsc)) (frame w) ->
  exists w',
    Source.finalise self (Some pc) w =
      (Return (set_power_column self (Some (format_column wsc +:+ " Power"))), w') /\
    column_written (Some (format_column wsc +:+ " Power"))
      (fun r => PowerCurve.power pc <$> r !! wsc) (frame w) (frame w').
Proof.
  intros Hwsc Hall.
  destruct (power_column_written pc wsc (Some (format_column wsc +:+ " Power")) w Hall)
    as (values & Happly & Hwritten).
  unfold Source.finalise. rewrite Hwsc. run. rewrite Happly.
  unfold DataFrame.setitem. cbn beta iota zeta.
  eexists. split; [reflexivity | exact Hwritten].
Qed.

(** X6.  [Source.finalise] with a power curve is idempotent on the
    data: called again on its own result it returns the same node and
    leaves the frame as the first call left it. *)
Theorem Source_finalise_twice {num pdm : Type} (self : node num)
    (pc : PowerCurve.t num) (wsc : column) (w : world num pdm) :
  wind_speed_column self = Has wsc ->
  Forall (fun r => is_Some (r !! wsc)) (frame w) ->
  exists self1 w1 w2,
    Source.finalise self (Some pc) w = (Return self1, w1) /\
    Source.finalise self1 (Some pc) w1 = (Return self1, w2) /\
    frame w2 = frame w1.
Proof.
  intros Hwsc Hall.
  destruct (Source_finalise_writes self pc wsc w Hwsc Hall) as (w1 & Hf1 & Hw1).
  set (self1 := set_power_column self (Some (format_column wsc +:+ " Power"))) in *.
  assert (Hall1 : Forall (fun r => is_Some (r !! wsc)) (frame w1)).
  { apply Forall2_Forall_r with (1 := Hw1). apply Forall_true.
    intros r r' (v & Hv & ->).
    rewrite lookup_insert_ne by apply Source_power_column_differs.
    destruct (r !! wsc); [eauto | discriminate]. }
  assert (Hwsc1 : wind_speed_column self1 = Has wsc) by exact Hwsc.
  destruct (Source_finalise_writes self1 pc wsc w1 Hwsc1 Hall1) as (w2 & Hf2 & Hw2).
  exists self1, w1, w2. split; [exact Hf1|]. split; [exact Hf2|].
  exact (column_written_again _ _ _ _ _ _ (Source_power_column_differs wsc) Hw1 Hw2).
Qed.

Lemma Source_finalise_twice_witness :
  exists self1 w1 w2,
    Source.finalise Examples.source_WS (Some Examples.curve) Examples.w_speed =
      (Return self1, w1) /\
    Source.finalise self1 (Some Examples.curve) w1 = (Return self1, w2) /\
    frame w2 = frame w1.
Proof.
  apply (Source_finalise_twice Examples.source_WS Examples.curve (Some "WS")
           Examples.w_speed).
  - reflexivity.
  - repeat constructor; eexists; reflexivity.
Defined.

Section DensityFrame.
Context {num pdm : Type} `{PyFloat num} `{PyPow num} `{PyFormat num}.
Implicit Types (w : world num pdm) (source : node num).

Lemma Forall2_compose {A B C : Type} (R : A -> B -> Prop) (S : B -> C -> Prop)
    (l1 : list A) (l2 : list B) (l3 : list C) :
  Forall2 R l1 l2 -> Forall2 S l2 l3 ->
  Forall2 (fun a c => exists b, R a b /\ S b c) l1 l3.
Proof.
  intros H12. revert l3. induction H12; intros l3 H23; inversion H23; subst.
  - constructor.
  - constructor; eauto.
Qed.

Lemma DensityEquivalentWindSpeed_init_result source (reference_density : num)
    (hub : column) (power_curve : option (PowerCurve.t num)) w (swc : column) :
  well_named source -> wind_speed_based source = true ->
  wind_speed_column source = Has swc ->
  Forall (fun r => is_Some (r !! swc) /\ is_Some (r !! hub)) (frame w) ->
  exists name w',
    Correction.calculate_name source "Density" w = (Return name, w) /\
    DensityEquivalentWindSpeed.init source reference_density hub power_curve w =
      (Return (density_node source name reference_density power_curve), w') /\
    Forall2 (density_row_written swc hub name reference_density power_curve)
            (frame w) (frame w') /\
    status w' =
      status w ++
      [ StatusEntry ("Performing " +:+ name +:+ " Correction...") false false;
        StatusEntry ("Correcting to reference density of "
                     +:+ format_fixed 4 reference_density +:+ " kg/m^3") false false;
        StatusEntry (name +:+ " Correction Complete.") false false ] /\
    deviation_matrix w' = deviation_matrix w.
Proof.
  intros Hwn Hw Hswc Hall.
  destruct (WindSpeedBased_init_accepts "Density" source w Hwn Hw)
    as (name & self & Hname & _ & _ & Hinit).
  destruct (WindSpeedBased_init_node _ _ _ _ _ Hinit) as (name' & Hname' & -> & _).
  assert (name' = name) as -> by congruence. clear Hname'.
  set (calc := DensityCorrectionCalculator.new reference_density swc hub).
  set (wcol := Some (name +:+ " Wind Speed")) in *.
  destruct (Forall_values (DensityCorrectionCalculator.densityCorrectedHubWindSpeed calc)
              (frame w)) as [vs Hvs].
  { eapply Forall_impl; [exact Hall|]. intros r [[ws Hws] [d Hd]].
    eexists. apply densityCorrectedHubWindSpeed_value; eassumption. }
  pose proof (zip_with_insert wcol _ _ _ Hvs) as Hrows.
  set (rows1 := zip_with (fun r v => <[wcol := v]> r) (frame w) vs) in *.
  assert (Hrows' : Forall2 (fun r r1 => exists ws d,
                     r !! swc = Some ws /\ r !! hub = Some d /\
                     r1 = <[wcol := density_corrected reference_density ws d]> r)
                     (frame w) rows1).
  { eapply Forall2_impl; [exact Hrows|]. intros r r1 (v & Hv & ->).
    unfold calc, DensityCorrectionCalculator.densityCorrectedHubWindSpeed, row_get in Hv.
    cbn in Hv.
    destruct (r !! swc) as [ws|] eqn:Hws; [|discriminate].
    destruct (r !! hub) as [d|] eqn:Hd; [|discriminate].
    injection Hv as <-. exists ws, d. repeat split. }
  exists name. unfold DensityEquivalentWindSpeed.init.
  rewrite (bind_step _ _ _ _ _ Hinit). run. rewrite Hswc. cbn beta iota zeta.
  fold calc. erewrite (apply_lift _ vs) by exact Hvs.
  cbn [wind_speed_column set_reference_density]. unfold DataFrame.setitem.
  cbn beta iota zeta. cbn [frame status deviation_matrix]. fold wcol rows1.
  unfold WindSpeedBasedCorrection.finalise.
  cbn [correction_name set_reference_density]. run.
  destruct power_curve as [pc|].
  - cbn [wind_speed_column set_power_column set_reference_density]. cbn beta iota zeta.
    match goal with |- context [DataFrame.apply ?f ?w1] => set (w1' := w1) end.
    destruct (power_column_written pc wcol (Some (name +:+ " Power")) w1')
      as (values & Happly & Hwritten).
    { subst w1'. cbn [frame]. apply Forall2_Forall_r with (1 := Hrows).
      apply Forall_true. intros r r' (v & _ & ->). rewrite lookup_insert_eq. eauto. }
    rewrite Happly. unfold DataFrame.setitem. cbn beta iota zeta.
    eexists. split; [exact Hname|]. split; [reflexivity|].
    cbn [frame status deviation_matrix]. split; [|split; [|reflexivity]].
    + subst w1'. cbn [frame] in Hwritten.
      eapply Forall2_impl; [exact (Forall2_compose _ _ _ _ _ Hrows' Hwritten)|].
      intros r r2 (r1 & (ws & d & Hws & Hd & ->) & p & Hp & ->).
      exists ws, d. split; [exact Hws|]. split; [exact Hd|].
      rewrite lookup_insert_eq in Hp. injection Hp as <-. reflexivity.
    + subst w1'. cbn [status]. rewrite <- !app_assoc. reflexivity.
  - eexists. split; [exact Hname|]. split; [reflexivity|].
    cbn [frame status deviation_matrix]. split; [|split; [|reflexivity]].
    + eapply Forall2_impl; [exact Hrows'|].
      intros r r1 (ws & d & Hws & Hd & ->). exists ws, d. repeat split; assumption.
    + rewrite <- !app_assoc. reflexivity.
Qed.

End DensityFrame.

(** X7.  The frame after [DensityEquivalentWindSpeed]: on a frame whose
    rows have the source wind speed and the density, the constructor
    returns, keeps the number of rows, and in every row writes
    ["<name> Wind Speed"] with the density-corrected speed and, when a
    power curve is given, ["<name> Power"] with the curve's power at
    the corrected speed; every other column of the row is unchanged. *)
Theorem DensityEquivalentWindSpeed_frame {num pdm : Type}
    `{PyFloat num} `{PyPow num} `{PyFormat num}
    (source : node num) (reference_density : num) (hub : column)
    (power_curve : option (PowerCurve.t num)) (w : world num pdm) (swc : column) :
  constructed pdm source ->
  wind_speed_based source = true ->
  wind_speed_column source = Has swc ->
  Forall (fun r => is_Some (r !! swc) /\ is_Some (r !! hub)) (frame w) ->
  exists (name : string) (w' : world num pdm),
    DensityEquivalentWindSpeed.init source reference_density hub power_curve w =
      (Return (density_node source name reference_density power_curve), w') /\
    length (frame w') = length (frame w) /\
    forall (i : nat) (r : gmap column num),
      frame w !! i = Some r ->
      exists (r' : gmap column num) (ws density : num),
        frame w' !! i = Some r' /\
        r !! swc = Some ws /\ r !! hub = Some density /\
        r' !! Some (name +:+ " Wind Speed") =
          Some (density_corrected reference_density ws density) /\
        (forall pc, power_curve = Some pc ->
           r' !! Some (name +:+ " Power") =
           Some (PowerCurve.power pc (density_corrected reference_density ws density))) /\
        (forall c : column,
           c <> Some (name +:+ " Wind Speed") -> c <> Some (name +:+ " Power") ->
           r' !! c = r !! c).
Proof.
  intros Hc Hw Hswc Hall.
  destruct (DensityEquivalentWindSpeed_init_result source reference_density hub
              power_curve w swc (constructed_well_named _ Hc) Hw Hswc Hall)
    as (name & w' & _ & Hinit & Hrows & _ & _).
  exists name, w'. split; [exact Hinit|].
  split; [symmetry; exact (Forall2_length _ _ _ Hrows)|].
  intros i r Hi.
  destruct (Forall2_lookup_l _ _ _ _ _ Hrows Hi) as (r' & Hi' & ws & d & Hws & Hd & ->).
  eexists _, ws, d. split; [exact Hi'|]. split; [exact Hws|]. split; [exact Hd|].
  destruct power_curve as [pc|].
  - split; [|split].
    + rewrite lookup_insert_ne by apply power_name_differs. apply lookup_insert_eq.
    + intros pc' [= <-]. apply lookup_insert_eq.
    + intros c Hc1 Hc2. rewrite !lookup_insert_ne by congruence. reflexivity.
  - split; [|split].
    + apply lookup_insert_eq.
    + intros pc' [=].
    + intros c Hc1 _. rewrite lookup_insert_ne by congruence. reflexivity.
Qed.

Lemma DensityEquivalentWindSpeed_frame_witness :
  exists (name : string) (w' : world R unit),
    @DensityEquivalentWindSpeed.init R unit _ _ RFloat.unrendered
      (Source.init (Some "WS")) (lit 1.225) (Some "Density") None
      (World [Examples.density_row] [] tt) =
      (Return (density_node (Source.init (Some "WS")) name (lit 1.225) None), w') /\
    length (frame w') = length [Examples.density_row] /\
    forall (i : nat) (r : gmap column R),
      [Examples.density_row] !! i = Some r ->
      exists (r' : gmap column R) (ws density : R),
        frame w' !! i = Some r' /\
        r !! Some "WS" = Some ws /\ r !! Some "Density" = Some density /\
        r' !! Some (name +:+ " Wind Speed") =
          Some (density_corrected (lit 1.225) ws density) /\
        (forall pc, None = Some pc ->
           r' !! Some (name +:+ " Power") =
           Some (PowerCurve.power pc (density_corrected (lit 1.225) ws density))) /\
        (forall c : column,
           c <> Some (name +:+ " Wind Speed") -> c <> Some (name +:+ " Power") ->
           r' !! c = r !! c).
Proof.
  apply (@DensityEquivalentWindSpeed_frame R unit _ _ RFloat.unrendered
           (Source.init (Some "WS")) (lit 1.225) (Some "Density") None
           (World [Examples.density_row] [] tt) (Some "WS")).
  - apply constructed_Source.
  - reflexivity.
  - reflexivity.
  - repeat constructor; eexists; reflexivity.
Defined.

Section Turbulence.
Context {num pdm : Type}.
Implicit Types (w : world num pdm) (source self : node num).

Lemma PowerBased_finalise_pure self (f : gmap column num -> result num)
    (vs : list num) (pcol : column) (name : string) w :
  power_column self = Has pcol -> correction_name self = Has name ->
  Forall2 (fun r v => f r = Return v) (frame w) vs ->
  PowerBasedCorrection.finalise self (fun r => lift (f r)) w =
  (Return tt,
   World (zip_with (fun r v => <[pcol := v]> r) (frame w) vs)
         (status w ++ [StatusEntry (name +:+ " Correction Complete.") false false])
         (deviation_matrix w)).
Proof.
  intros Hp Hn Hvs. unfold PowerBasedCorrection.finalise.
  rewrite (bind_step _ _ _ _ _ (apply_lift f vs w Hvs)), Hp, Hn.
  unfold DataFrame.setitem. run. reflexivity.
Qed.

Lemma TurbulencePowerCalculator_power_value (pc : PowerCurve.t num) (rated : num)
    (swc tic : column) (r : gmap column num) :
  TurbulencePowerCalculator.power (TurbulencePowerCalculator.new pc rated swc tic) r =
  match turbulence_power pc swc tic r with
  | Some v => Return v
  | None =>
      match r !! swc with
      | Some _ => Raise (KeyError tic)
      | None => Raise (KeyError swc)
      end
  end.
Proof.
  unfold TurbulencePowerCalculator.power, turbulence_power, row_get. cbn.
  destruct (r !! swc); [|reflexivity]. destruct (r !! tic); reflexivity.
Qed.

Lemma TurbulenceCorrection_init_result source (tic : column) (pc : PowerCurve.t num)
    w (swc : column) :
  well_named source -> wind_speed_based source = true ->
  wind_speed_column source = Has swc ->
  Forall (fun r => is_Some (r !! swc) /\ is_Some (r !! tic)) (frame w) ->
  exists name w',
    Correction.calculate_name source "Turbulence" w = (Return name, w) /\
    TurbulenceCorrection.init source tic (Some pc) w =
      (Return (Node (Some source) false false true (Has name) Absent
                    (Has (Some (name +:+ " Power"))) (Has (Some pc)) Absent), w') /\
    column_written (Some (name +:+ " Power")) (turbulence_power pc swc tic)
      (frame w) (frame w') /\
    status w' =
      status w ++
      [ StatusEntry ("Performing " +:+ name +:+ " Correction...") false false;
        StatusEntry (name +:+ " Correction Complete.") false false ] /\
    deviation_matrix w' = deviation_matrix w.
Proof.
  intros Hwn Hw Hswc Hall.
  destruct (PowerBased_init_accepts "Turbulence" source (Some pc) w Hwn Hw)
    as (name & self & Hname & _ & _ & Hinit).
  destruct (PowerBased_init_node _ _ _ _ _ _ Hinit) as (name' & Hname' & -> & _).
  assert (name' = name) as -> by congruence. clear Hname'.
  set (calc := TurbulencePowerCalculator.new pc (PowerCurve.ratedPower pc) swc tic).
  destruct (Forall_values (TurbulencePowerCalculator.power calc) (frame w)) as [vs Hvs].
  { eapply Forall_impl; [exact Hall|]. intros r [[ws Hws] [ti Hti]].
    exists (PowerCurve.power_turbulence pc ws ti). unfold calc.
    rewrite TurbulencePowerCalculator_power_value. unfold turbulence_power.
    rewrite Hws, Hti. reflexivity. }
  exists name. unfold TurbulenceCorrection.init.
  rewrite (bind_step _ _ _ _ _ Hinit). run.
  cbn [node_power_curve power_curve]. cbn beta iota zeta. rewrite Hswc.
  cbn beta iota zeta. fold calc.
  erewrite (PowerBased_finalise_pure _ _ vs) by (try reflexivity; exact Hvs).
  eexists. split; [exact Hname|]. split; [reflexivity|].
  cbn [frame status deviation_matrix]. split; [|split; [|reflexivity]].
  - unfold column_written.
    eapply Forall2_impl; [apply (zip_with_insert (Some (name +:+ " Power"))), Hvs|].
    intros r r' (v & Hv & ->). exists v. split; [|reflexivity].
    unfold calc in Hv. rewrite TurbulencePowerCalculator_power_value in Hv.
    destruct (turbulence_power pc swc tic r); [congruence|].
    destruct (r !! swc); discriminate.
  - rewrite <- !app_assoc. reflexivity.
Qed.

Lemma TurbulenceCorrection_init_no_curve source (tic : column) w :
  well_named source -> wind_speed_based source = true ->
  exists name,
    Correction.calculate_name source "Turbulence" w = (Return name, w) /\
    TurbulenceCorrection.init source tic None w =
      (Raise (AttributeError "ratedPower"), performing name w).
Proof.
  intros Hwn Hw.
  destruct (PowerBased_init_accepts "Turbulence" source None w Hwn Hw)
    as (name & self & Hname & _ & _ & Hinit).
  destruct (PowerBased_init_node _ _ _ _ _ _ Hinit) as (name' & Hname' & -> & _).
  assert (name' = name) as -> by congruence.
  exists name. split; [exact Hname|].
  unfold TurbulenceCorrection.init. rewrite (bind_step _ _ _ _ _ Hinit). reflexivity.
Qed.

End Turbulence.



(** The same two runs, computed: the columns the two rated powers
    leave. *)
Example TurbulenceCorrection_rated_power_run :
  (fun row => row !! Some "Turbulence Power") <$>
    frame (snd (TurbulenceCorrection.init Examples.source_WS (Some "TI")
                  (Some (SpecCurve.capped Examples.curve 500%Q)) PdmExample.w)) =
    [Some 500%Q; Some 500%Q; Some 500%Q; Some 500%Q] /\
  (fun row => row !! Some "Turbulence Power") <$>
    frame (snd (TurbulenceCorrection.init Examples.source_WS (Some "TI")
                  (Some (SpecCurve.capped Examples.curve 2000%Q)) PdmExample.w)) =
    [Some (8 * 100)%Q; Some (9 * 100)%Q; Some (10 * 100)%Q; Some (11 * 100)%Q].
Proof. split; reflexivity. Qed.

(** X9.  [TurbulenceCorrection] on a wind-speed based parent: without a
    power curve ([None]) the constructor raises [AttributeError] for
    [ratedPower] after the opening status message and before the frame
    is touched; with a curve, on a frame whose rows have the parent's
    wind-speed column and the turbulence column, it returns a
    power-based node, writes ["<name> Power"] with
    [power_curve.power(wind speed, turbulence)] in every row, and adds
    exactly the opening and the completion message. *)
Theorem TurbulenceCorrection_writes {num pdm : Type} (source : node num)
    (hub_turbulence_column : column) (w : world num pdm) (swc : column) :
  constructed pdm source ->
  wind_speed_based source = true ->
  wind_speed_column source = Has swc ->
  exists name : string,
    Correction.calculate_name source "Turbulence" w = (Return name, w) /\
    TurbulenceCorrection.init source hub_turbulence_column None w =
      (Raise (AttributeError "ratedPower"), performing name w) /\
    forall pc : PowerCurve.t num,
      Forall (fun r => is_Some (r !! swc) /\ is_Some (r !! hub_turbulence_column))
             (frame w) ->
      exists w' : world num pdm,
        TurbulenceCorrection.init source hub_turbulence_column (Some pc) w =
          (Return (Node (Some source) false false true (Has name) Absent
                        (Has (Some (name +:+ " Power"))) (Has (Some pc)) Absent), w') /\
        column_written (Some (name +:+ " Power"))
          (turbulence_power pc swc hub_turbulence_column) (frame w) (frame w') /\
        status w' =
          status w ++
          [ StatusEntry ("Performing " +:+ name +:+ " Correction...") false false;
            StatusEntry (name +:+ " Correction Complete.") false false ].
Proof.
  intros Hc Hw Hswc. pose proof (constructed_well_named _ Hc) as Hwn.
  destruct (TurbulenceCorrection_init_no_curve source hub_turbulence_column w Hwn Hw)
    as (name & Hname & Hnone).
  exists name. split; [exact Hname|]. split; [exact Hnone|].
  intros pc Hall.
  destruct (TurbulenceCorrection_init_result source hub_turbulence_column pc w swc
              Hwn Hw Hswc Hall) as (name' & w' & Hname' & Hinit & Hrows & Hstatus & _).
  assert (name' = name) as -> by congruence.
  exists w'. auto.
Qed.

Lemma TurbulenceCorrection_writes_witness :
  exists name : string,
    Correction.calculate_name Examples.density "Turbulence" Examples.w_density =
      (Return name, Examples.w_density) /\
    TurbulenceCorrection.init Examples.density (Some "WS") None Examples.w_density =
      (Raise (AttributeError "ratedPower"), performing name Examples.w_density) /\
    forall pc : PowerCurve.t Q,
      Forall (fun r => is_Some (r !! Some "Density Wind Speed") /\ is_Some (r !! Some "WS"))
             (frame Examples.w_density) ->
      exists w' : world Q unit,
        TurbulenceCorrection.init Examples.density (Some "WS") (Some pc)
          Examples.w_density =
          (Return (Node (Some Examples.density) false false true (Has name) Absent
                        (Has (Some (name +:+ " Power"))) (Has (Some pc)) Absent), w') /\
        column_written (Some (name +:+ " Power"))
          (turbulence_power pc (Some "Density Wind Speed") (Some "WS"))
          (frame Examples.w_density) (frame w') /\
        status w' =
          status Examples.w_density ++
          [ StatusEntry ("Performing " +:+ name +:+ " Correction...") false false;
            StatusEntry (name +:+ " Correction Complete.") false false ].
Proof.
  apply (TurbulenceCorrection_writes Examples.density (Some "WS") Examples.w_density
           (Some "Density Wind Speed")).
  - exact constructed_density.
  - reflexivity.
  - reflexivity.
Defined.

(** X10.  The chain [Source -> DensityEquivalentWindSpeed ->
    TurbulenceCorrection]: on a frame whose rows have the source wind
    speed, the density and the turbulence, both constructors return,
    the stages are named ["Density"] and ["Density & Turbulence"], and
    in every row ["Density & Turbulence Power"] is the curve's
    turbulence power at the density-corrected wind speed, the value of
    ["Density Wind Speed"], not at the source wind speed. *)
Theorem density_then_turbulence {num pdm : Type} `{PyFloat num} `{PyPow num}
    `{PyFormat num} (source_column hub_density_column hub_turbulence_column : column)
    (reference_density : num) (pc : PowerCurve.t num) (w : world num pdm) :
  Forall (fun r => is_Some (r !! source_column) /\ is_Some (r !! hub_density_column) /\
                   is_Some (r !! hub_turbulence_column)) (frame w) ->
  hub_turbulence_column <> Some "Density Wind Speed" ->
  exists (w1 w2 : world num pdm),
    let density := density_node (Source.init source_column) "Density"
                     reference_density None in
    DensityEquivalentWindSpeed.init (Source.init source_column) reference_density
      hub_density_column None w = (Return density, w1) /\
    TurbulenceCorrection.init density hub_turbulence_column (Some pc) w1 =
      (Return (Node (Some density) false false true (Has "Density & Turbulence") Absent
                    (Has (Some "Density & Turbulence Power")) (Has (Some pc)) Absent),
       w2) /\
    forall (i : nat) (r : gmap column num),
      frame w !! i = Some r ->
      exists (r' : gmap column num) (ws density ti : num),
        frame w2 !! i = Some r' /\
        r !! source_column = Some ws /\ r !! hub_density_column = Some density /\
        r !! hub_turbulence_column = Some ti /\
        r' !! Some "Density Wind Speed" =
          Some (density_corrected reference_density ws density) /\
        r' !! Some "Density & Turbulence Power" =
          Some (PowerCurve.power_turbulence pc
                  (density_corrected reference_density ws density) ti).
Proof.
  intros Hall Htic. cbv zeta.
  assert (Hsrc : well_named (Source.init (num := num) source_column))
    by (split; [reflexivity | discriminate]).
  destruct (DensityEquivalentWindSpeed_init_result (pdm := pdm)
              (Source.init source_column) reference_density hub_density_column None w
              source_column Hsrc eq_refl eq_refl)
    as (name & w1 & Hname & Hd & Hrows1 & _ & _).
  { eapply Forall_impl; [exact Hall|]. intros r (? & ? & ?). auto. }
  assert (name = "Density") as ->.
  { rewrite calculate_name_raw in Hname by reflexivity. congruence. }
  set (density := density_node (Source.init source_column) "Density"
                    reference_density None) in *.
  assert (Hdn : well_named density) by (split; [discriminate | cbn; eauto]).
  destruct (TurbulenceCorrection_init_result density hub_turbulence_column pc w1
              (Some "Density Wind Speed") Hdn eq_refl eq_refl)
    as (name & w2 & Hname2 & Ht & Hrows2 & _ & _).
  { apply Forall2_Forall_r with (1 := Hrows1).
    eapply Forall_impl; [exact Hall|].
    intros r (_ & _ & [ti Hti]) r1 (ws & d & _ & _ & ->). split.
    - rewrite lookup_insert_eq. eauto.
    - rewrite lookup_insert_ne by (intros E; apply Htic; rewrite <- E; reflexivity).
      eauto. }
  assert (name = "Density & Turbulence") as ->.
  { rewrite (calculate_name_named density "Turbulence" "Density" w1) in Hname2
      by reflexivity.
    change (PyStr.replace " & " ", " "Density") with "Density" in Hname2.
    change ("Density" +:+ " & " +:+ "Turbulence") with "Density & Turbulence" in Hname2.
    congruence. }
  exists w1, w2. split; [exact Hd|]. split; [exact Ht|].
  intros i r Hi.
  destruct (Forall2_lookup_l _ _ _ _ _ Hrows1 Hi) as (r1 & Hi1 & ws & d & Hws & Hdens & ->).
  destruct (Forall2_lookup_l _ _ _ _ _ Hrows2 Hi1) as (r2 & Hi2 & v & Hv & ->).
  pose proof (proj1 (Forall_lookup _ _) Hall i r Hi) as (_ & _ & [ti Hti]).
  exists (<[Some "Density & Turbulence Power" := v]>
            (<[Some "Density Wind Speed" := density_corrected reference_density ws d]> r)),
    ws, d, ti.
  split; [exact Hi2|]. split; [exact Hws|]. split; [exact Hdens|]. split; [exact Hti|].
  unfold turbulence_power in Hv.
  rewrite lookup_insert_eq in Hv.
  rewrite lookup_insert_ne in Hv
    by (intros E; apply Htic; rewrite <- E; reflexivity).
  rewrite Hti in Hv.
  injection Hv as <-. split.
  - rewrite lookup_insert_ne by discriminate. apply lookup_insert_eq.
  - apply lookup_insert_eq.
Qed.

Lemma density_then_turbulence_witness :
  exists (w1 w2 : world R unit),
    let density := density_node (Source.init (Some "WS")) "Density" (lit 1.225) None in
    @DensityEquivalentWindSpeed.init R unit _ _ RFloat.unrendered
      (Source.init (Some "WS")) (lit 1.225) (Some "Density") None SiteExample.w =
      (Return density, w1) /\
    TurbulenceCorrection.init density (Some "TI") (Some SiteExample.curve) w1 =
      (Return (Node (Some density) false false true (Has "Density & Turbulence") Absent
                    (Has (Some "Density & Turbulence Power"))
                    (Has (Some SiteExample.curve)) Absent),
       w2) /\
    forall (i : nat) (r : gmap column R),
      frame SiteExample.w !! i = Some r ->
      exists (r' : gmap column R) (ws density ti : R),
        frame w2 !! i = Some r' /\
        r !! Some "WS" = Some ws /\ r !! Some "Density" = Some density /\
        r !! Some "TI" = Some ti /\
        r' !! Some "Density Wind Speed" =
          Some (density_corrected (lit 1.225) ws density) /\
        r' !! Some "Density & Turbulence Power" =
          Some (PowerCurve.power_turbulence SiteExample.curve
                  (density_corrected (lit 1.225) ws density) ti).
Proof.
  apply (@density_then_turbulence R unit _ _ RFloat.unrendered (Some "WS")
           (Some "Density") (Some "TI") (lit 1.225) SiteExample.curve SiteExample.w).
  - repeat constructor; eexists; reflexivity.
  - discriminate.
Defined.

Section DensityReals.
Local Open Scope R_scope.

Lemma Rpower_one (a : R) : Rpower 1 a = 1.
Proof. unfold Rpower. rewrite ln_1, Rmult_0_r. apply exp_0. Qed.

Lemma cube_of_cube_root (x : R) : 0 < x -> Rpower x (1 / 3) ^ 3 = x.
Proof.
  intros Hx.
  assert (Hp : 0 < Rpower x (1 / 3)) by (unfold Rpower; apply exp_pos).
  rewrite <- (Rpower_pow 3 _ Hp), Rpower_mult.
  replace (1 / 3 * INR 3) with 1 by (simpl; field).
  apply Rpower_1, Hx.
Qed.

(** X8.  [DensityCorrectionCalculator.densityCorrectedHubWindSpeed] in
    real arithmetic, for positive densities: the corrected speed [v]
    carries the same energy flux at the reference density as the
    measured speed at the measured density,
    [referenceDensity * v^3 = density * ws^3]; it equals the measured
    speed when the density is the reference density, and for a
    non-negative speed it is no larger than the measured speed when the
    air is thinner than the reference and no smaller when it is
    denser. *)
Theorem densityCorrectedHubWindSpeed_flux (self : DensityCorrectionCalculator.t R)
    (row : gmap column R) (ws density : R) :
  row !! DensityCorrectionCalculator.windSpeedColumn self = Some ws ->
  row !! DensityCorrectionCalculator.densityColumn self = Some density ->
  0 < density ->
  0 < DensityCorrectionCalculator.referenceDensity self ->
  exists v : R,
    DensityCorrectionCalculator.densityCorrectedHubWindSpeed self row = Return v /\
    DensityCorrectionCalculator.referenceDensity self * v ^ 3 = density * ws ^ 3 /\
    (density = DensityCorrectionCalculator.referenceDensity self -> v = ws) /\
    (0 <= ws -> density <= DensityCorrectionCalculator.referenceDensity self -> v <= ws) /\
    (0 <= ws -> DensityCorrectionCalculator.referenceDensity self <= density -> ws <= v).
Proof.
  destruct self as [ref wsc dc]. cbn [DensityCorrectionCalculator.windSpeedColumn
    DensityCorrectionCalculator.densityColumn DensityCorrectionCalculator.referenceDensity].
  intros Hws Hd Hdpos Hrpos.
  exists (density_corrected ref ws density). split.
  { unfold DensityCorrectionCalculator.densityCorrectedHubWindSpeed, row_get.
    cbn [DensityCorrectionCalculator.windSpeedColumn
         DensityCorrectionCalculator.densityColumn
         DensityCorrectionCalculator.referenceDensity].
    rewrite Hws, Hd. reflexivity. }
  assert (Hx : 0 < density / ref) by (apply Rdiv_lt_0_compat; assumption).
  rewrite (density_corrected_R _ _ _ Hx).
  pose proof (cube_of_cube_root _ Hx) as Hcube.
  set (k := Rpower (density / ref) (1 / 3)) in *.
  assert (Hk : 0 < k) by (unfold k, Rpower; apply exp_pos).
  split; [|split; [|split]].
  - rewrite Rpow_mult_distr, Hcube. field. lra.
  - intros ->. unfold k. replace (ref / ref) with 1 by (field; lra).
    rewrite Rpower_one. lra.
  - intros Hws0 Hle.
    assert (k <= 1).
    { rewrite <- (Rpower_one (1 / 3)). unfold k. apply Rle_Rpower_l; [lra|].
      split; [exact Hx|]. apply (Rmult_le_reg_r ref); [exact Hrpos|].
      unfold Rdiv. rewrite Rmult_assoc, Rinv_l by lra. lra. }
    nra.
  - intros Hws0 Hle.
    assert (1 <= k).
    { rewrite <- (Rpower_one (1 / 3)). unfold k. apply Rle_Rpower_l; [lra|].
      split; [lra|]. apply (Rmult_le_reg_r ref); [exact Hrpos|].
      unfold Rdiv. rewrite Rmult_assoc, Rinv_l by lra. lra. }
    nra.
Qed.

Lemma densityCorrectedHubWindSpeed_flux_witness :
  exists v : R,
    DensityCorrectionCalculator.densityCorrectedHubWindSpeed
      (DensityCorrectionCalculator.new 2 (Some "WS") (Some "Density"))
      (<[Some "WS" := 10]> (<[Some "Density" := 1]> ∅)) = Return v /\
    2 * v ^ 3 = 1 * 10 ^ 3 /\
    (1 = 2 -> v = 10) /\
    (0 <= 10 -> 1 <= 2 -> v <= 10) /\
    (0 <= 10 -> 2 <= 1 -> 10 <= v).
Proof.
  apply (densityCorrectedHubWindSpeed_flux
           (DensityCorrectionCalculator.new 2 (Some "WS") (Some "Density"))
           (<[Some "WS" := 10]> (<[Some "Density" := 1]> ∅)) 10 1).
  - reflexivity.
  - reflexivity.
  - lra.
  - cbn. lra.
Defined.

End DensityReals.

(** ** The deviation-matrix calculator *)

Section Collect.
Context {num : Type}.
Implicit Types (self : PowerDeviationMatrixPowerCalculator.t num)
  (row : gmap column num) (dims : list (dimension num)).

Lemma collect_resolved self row dims (acc : gmap string num) :
  Forall (fun d => is_Some (parameter_value self row (parameter d))) dims ->
  exists parameters : gmap string num,
    PowerDeviationMatrixPowerCalculator.collect self row dims acc = Return parameters /\
    forall p : string,
      parameters !! p =
      if decide (p ∈ map parameter dims) then parameter_value self row p else acc !! p.
Proof.
  intros Hall. revert acc.
  induction Hall as [|d dims [v Hv] _ IH]; intros acc.
  - exists acc. split; [reflexivity|]. intros p.
    destruct (decide (p ∈ map parameter [])) as [Hin|]; [|reflexivity].
    cbn in Hin. apply elem_of_nil in Hin. contradiction.
  - cbn [PowerDeviationMatrixPowerCalculator.collect].
    unfold parameter_value in Hv.
    destruct (PowerDeviationMatrixPowerCalculator.parameterColumns self !! parameter d)
      as [c|] eqn:Hc; [|discriminate].
    unfold row_get. rewrite Hv.
    destruct (IH (<[parameter d := v]> acc)) as (parameters & Hcol & Hpar).
    exists parameters. split; [exact Hcol|]. intros p. rewrite Hpar.
    cbn [map].
    destruct (decide (p ∈ map parameter dims)) as [Hin|Hnin].
    + rewrite decide_True by (apply elem_of_cons; auto). reflexivity.
    + destruct (decide (p = parameter d)) as [->|Hne].
      * rewrite decide_True by (apply elem_of_cons; auto).
        rewrite lookup_insert_eq. unfold parameter_value. rewrite Hc. auto.
      * rewrite decide_False by (rewrite elem_of_cons; tauto).
        apply lookup_insert_ne. congruence.
Qed.

Lemma collect_unresolved self row (good : list (dimension num)) (d : dimension num)
    (rest : list (dimension num)) (acc : gmap string num) :
  Forall (fun d => is_Some (parameter_value self row (parameter d))) good ->
  parameter_value self row (parameter d) = None ->
  PowerDeviationMatrixPowerCalculator.collect self row (good ++ d :: rest) acc =
  Raise (KeyError
           match PowerDeviationMatrixPowerCalculator.parameterColumns self !! parameter d with
           | Some c => c
           | None => Some (parameter d)
           end).
Proof.
  intros Hall Hd. revert acc.
  induction Hall as [|g good [v Hv] _ IH]; intros acc.
  - cbn [app PowerDeviationMatrixPowerCalculator.collect].
    unfold parameter_value in Hd.
    destruct (PowerDeviationMatrixPowerCalculator.parameterColumns self !! parameter d)
      as [c|]; [|reflexivity].
    unfold row_get. rewrite Hd. reflexivity.
  - cbn [app PowerDeviationMatrixPowerCalculator.collect].
    unfold parameter_value in Hv.
    destruct (PowerDeviationMatrixPowerCalculator.parameterColumns self !! parameter g)
      as [c|]; [|discriminate].
    unfold row_get. rewrite Hv. apply IH.
Qed.

End Collect.

(** X11.  [PowerDeviationMatrixPowerCalculator.power] on a row for which
    every dimension of the matrix resolves: the matrix is looked up
    once, with a dict that has exactly one entry per dimension
    parameter, the row's value in the column that [parameterColumns]
    maps the parameter to, and the result is
    [powerCurve.power(wind speed) * (1.0 + deviation)]; only the matrix
    object changes. *)
Theorem PowerDeviationMatrixPowerCalculator_power_value {num pdm : Type}
    `{PyFloat num} `{DeviationMatrix num pdm}
    (self : PowerDeviationMatrixPowerCalculator.t num) (row : gmap column num)
    (pc : PowerCurve.t num) (ws : num) (w : world num pdm) :
  Forall (fun d => is_Some (parameter_value self row (parameter d)))
         (dimensions (deviation_matrix w)) ->
  PowerDeviationMatrixPowerCalculator.powerCurve self = Some pc ->
  row !! PowerDeviationMatrixPowerCalculator.windSpeedColumn self = Some ws ->
  exists parameters : gmap string num,
    (forall p : string,
       parameters !! p =
       if decide (p ∈ map parameter (dimensions (deviation_matrix w)))
       then parameter_value self row p else None) /\
    PowerDeviationMatrixPowerCalculator.power self row w =
      (Return (fmul (PowerCurve.power pc ws)
                    (fadd (lit 1) (fst (getitem (deviation_matrix w) parameters)))),
       World (frame w) (status w) (snd (getitem (deviation_matrix w) parameters))).
Proof.
  intros Hall Hpc Hws.
  destruct (collect_resolved self row _ ∅ Hall) as (parameters & Hcol & Hpar).
  exists parameters. split.
  - intros p. rewrite Hpar. destruct (decide _); [reflexivity | apply lookup_empty].
  - unfold PowerDeviationMatrixPowerCalculator.power. rewrite Hcol.
    destruct (getitem (deviation_matrix w) parameters) as [deviation m'].
    rewrite Hpc. unfold row_get. rewrite Hws. reflexivity.
Qed.

Lemma PowerDeviationMatrixPowerCalculator_power_value_witness :
  let self := PowerDeviationMatrixPowerCalculator.new (Some Examples.curve) (Some "WS")
                PdmExample.parameter_columns in
  let row := PdmExample.row 11 0.5 0.5 in
  exists parameters : gmap string Q,
    (forall p : string,
       parameters !! p =
       if decide (p ∈ map parameter (dimensions (deviation_matrix PdmExample.w)))
       then parameter_value self row p else None) /\
    PowerDeviationMatrixPowerCalculator.power self row PdmExample.w =
      (Return (fmul (PowerCurve.power Examples.curve 11%Q)
                    (fadd (lit 1) (fst (getitem (deviation_matrix PdmExample.w) parameters)))),
       World (frame PdmExample.w) (status PdmExample.w)
             (snd (getitem (deviation_matrix PdmExample.w) parameters))).
Proof.
  apply (PowerDeviationMatrixPowerCalculator_power_value
           (PowerDeviationMatrixPowerCalculator.new (Some Examples.curve) (Some "WS")
              PdmExample.parameter_columns)
           (PdmExample.row 11 0.5 0.5) Examples.curve 11%Q PdmExample.w).
  - repeat constructor; eexists; reflexivity.
  - reflexivity.
  - reflexivity.
Defined.

(** X12.  [PowerDeviationMatrixPowerCalculator.power] when a dimension
    does not resolve: at the first dimension whose parameter has no
    entry in [parameterColumns], or whose column is missing from the
    row, the call raises [KeyError] of that parameter, respectively of
    that column, and the matrix has not been looked up: the state,
    with the matrix's counters, is unchanged. *)
Theorem PowerDeviationMatrixPowerCalculator_power_unresolved {num pdm : Type}
    `{PyFloat num} `{DeviationMatrix num pdm}
    (self : PowerDeviationMatrixPowerCalculator.t num) (row : gmap column num)
    (w : world num pdm) (good : list (dimension num)) (d : dimension num)
    (rest : list (dimension num)) :
  dimensions (deviation_matrix w) = good ++ d :: rest ->
  Forall (fun d => is_Some (parameter_value self row (parameter d))) good ->
  parameter_value self row (parameter d) = None ->
  PowerDeviationMatrixPowerCalculator.power self row w =
    (Raise (KeyError
              match PowerDeviationMatrixPowerCalculator.parameterColumns self
                    !! parameter d with
              | Some c => c
              | None => Some (parameter d)
              end), w).
Proof.
  intros Hdims Hgood Hd.
  unfold PowerDeviationMatrixPowerCalculator.power.
  rewrite Hdims, (collect_unresolved self row good d rest ∅ Hgood Hd). reflexivity.
Qed.

Lemma PowerDeviationMatrixPowerCalculator_power_unresolved_witness :
  PowerDeviationMatrixPowerCalculator.power
    (PowerDeviationMatrixPowerCalculator.new (Some Examples.curve) (Some "WS")
       (<["Turbulence" := Some "TI"]> ∅))
    (PdmExample.row 11 0.5 0.5) PdmExample.w =
  (Raise (KeyError (Some "Shear")), PdmExample.w).
Proof.
  exact (PowerDeviationMatrixPowerCalculator_power_unresolved
           (PowerDeviationMatrixPowerCalculator.new (Some Examples.curve) (Some "WS")
              (<["Turbulence" := Some "TI"]> ∅))
           (PdmExample.row 11 0.5 0.5) PdmExample.w
           [ {| parameter := "Turbulence"; centerOfFirstBin := 0.1%Q;
                centerOfLastBin := 0.2%Q |} ]
           {| parameter := "Shear"; centerOfFirstBin := 0%Q; centerOfLastBin := 1%Q |}
           [] eq_refl
           ltac:(repeat constructor; eexists; reflexivity) eq_refl).
Defined.

(** X13.  [PowerDeviationMatrixPowerCalculator.power] when every
    dimension resolves but the power curve is [None] or the row lacks
    the wind-speed column: the call raises ([AttributeError] for
    [power], respectively [KeyError] of the wind-speed column) after
    the matrix lookup, so the matrix has counted the row although no
    power was computed. *)
Theorem PowerDeviationMatrixPowerCalculator_power_after_lookup {num pdm : Type}
    `{PyFloat num} `{DeviationMatrix num pdm}
    (self : PowerDeviationMatrixPowerCalculator.t num) (row : gmap column num)
    (w : world num pdm) :
  Forall (fun d => is_Some (parameter_value self row (parameter d)))
         (dimensions (deviation_matrix w)) ->
  PowerDeviationMatrixPowerCalculator.powerCurve self = None \/
  row !! PowerDeviationMatrixPowerCalculator.windSpeedColumn self = None ->
  exists parameters : gmap string num,
    PowerDeviationMatrixPowerCalculator.collect self row
      (dimensions (deviation_matrix w)) ∅ = Return parameters /\
    PowerDeviationMatrixPowerCalculator.power self row w =
      (Raise (match PowerDeviationMatrixPowerCalculator.powerCurve self with
              | None => AttributeError "power"
              | Some _ =>
                  KeyError (PowerDeviationMatrixPowerCalculator.windSpeedColumn self)
              end),
       World (frame w) (status w) (snd (getitem (deviation_matrix w) parameters))).
Proof.
  intros Hall Hbad.
  destruct (collect_resolved self row _ ∅ Hall) as (parameters & Hcol & _).
  exists parameters. split; [exact Hcol|].
  unfold PowerDeviationMatrixPowerCalculator.power. rewrite Hcol.
  destruct (getitem (deviation_matrix w) parameters) as [deviation m'].
  destruct (PowerDeviationMatrixPowerCalculator.powerCurve self) as [pc|]; [|reflexivity].
  destruct Hbad as [Hpc|Hws]; [discriminate|].
  unfold row_get. rewrite Hws. reflexivity.
Qed.

Lemma PowerDeviationMatrixPowerCalculator_power_after_lookup_witness :
  let self := PowerDeviationMatrixPowerCalculator.new (Some Examples.curve)
                (Some "Hub Wind Speed") PdmExample.parameter_columns in
  let row := PdmExample.row 11 0.5 0.5 in
  exists parameters : gmap string Q,
    PowerDeviationMatrixPowerCalculator.collect self row
      (dimensions (deviation_matrix PdmExample.w)) ∅ = Return parameters /\
    PowerDeviationMatrixPowerCalculator.power self row PdmExample.w =
      (Raise (KeyError (Some "Hub Wind Speed")),
       World (frame PdmExample.w) (status PdmExample.w)
             (snd (getitem (deviation_matrix PdmExample.w) parameters))).
Proof.
  apply (PowerDeviationMatrixPowerCalculator_power_after_lookup
           (PowerDeviationMatrixPowerCalculator.new (Some Examples.curve)
              (Some "Hub Wind Speed") PdmExample.parameter_columns)
           (PdmExample.row 11 0.5 0.5) PdmExample.w).
  - repeat constructor; eexists; reflexivity.
  - right. reflexivity.
Defined.

(** ** All or nothing: the power column of a power-based correction *)

Section Atomic.
Context {num pdm : Type}.
Implicit Types (w : world num pdm) (P self source : node num).

Lemma frame_kept_bind {A B} (c : M num pdm A) (k : A -> M num pdm B) :
  frame_kept c -> (forall a, frame_kept (k a)) -> frame_kept (c ≫= k).
Proof.
  intros Hc Hk w. unfold mbind, M_bind. specialize (Hc w).
  destruct (c w) as [[a|e] w1]; cbn [snd] in *; [|exact Hc].
  rewrite Hk. exact Hc.
Qed.

Lemma frame_kept_ret {A} (a : A) : frame_kept (mret a : M num pdm A).
Proof. intros w. reflexivity. Qed.

Lemma frame_kept_raise {A} (e : exn) : frame_kept (raise e : M num pdm A).
Proof. intros w. reflexivity. Qed.

Lemma frame_kept_lift {A} (r : result A) : frame_kept (lift r : M num pdm A).
Proof. intros w. reflexivity. Qed.

(** What [apply] ends in, for a calculator that leaves the rows alone:
    the values the calculator returned, row by row, or the exception it
    raised on one of the rows; the rows are as they were either way. *)
Lemma apply_rows_outcome (f : gmap column num -> M num pdm num)
    (rows : list (gmap column num)) w :
  (forall r, frame_kept (f r)) ->
  match DataFrame.apply_rows f rows w with
  | (Return values, w') =>
      Forall2 (fun r v => exists w1 w2, f r w1 = (Return v, w2)) rows values /\
      frame w' = frame w
  | (Raise e, w') =>
      Exists (fun r => exists w1 w2, f r w1 = (Raise e, w2)) rows /\
      frame w' = frame w
  end.
Proof.
  intros Hf. revert w. induction rows as [|r rows IH]; intros w.
  - cbn. split; [constructor | reflexivity].
  - cbn [DataFrame.apply_rows]. unfold mbind, M_bind.
    pose proof (Hf r w) as Hr.
    destruct (f r w) as [[v|e] w1] eqn:Hrun; cbn [snd] in Hr.
    + specialize (IH w1).
      destruct (DataFrame.apply_rows f rows w1) as [[values|e] w2].
      * destruct IH as [Hvalues Hframe]. cbn. split; [|congruence].
        constructor; [eauto | exact Hvalues].
      * destruct IH as [Hex Hframe]. split; [|congruence].
        apply Exists_cons_tl, Hex.
    + split; [|exact Hr]. apply Exists_cons_hd. eauto.
Qed.

End Atomic.

Section AtomicCalculators.
Context {num pdm : Type} `{PyFloat num} `{PyFormat num} `{DeviationMatrix num pdm}.

(** The calculators of the module leave the rows alone: the turbulence
    calculator reads its row, and the deviation-matrix calculator reads
    its row and the matrix. *)
Lemma frame_kept_turbulence_power (self : TurbulencePowerCalculator.t num)
    (row : gmap column num) :
  frame_kept (lift (TurbulencePowerCalculator.power self row) : M num pdm num).
Proof. apply frame_kept_lift. Qed.

Lemma frame_kept_matrix_power (self : PowerDeviationMatrixPowerCalculator.t num)
    (row : gmap column num) :
  frame_kept (PowerDeviationMatrixPowerCalculator.power self row : M num pdm num).
Proof.
  intros w. unfold PowerDeviationMatrixPowerCalculator.power.
  destruct (PowerDeviationMatrixPowerCalculator.collect self row _ ∅); [|reflexivity].
  destruct (getitem (deviation_matrix w) _) as [deviation m'].
  destruct (PowerDeviationMatrixPowerCalculator.powerCurve self); [|reflexivity].
  destruct (row_get row _); reflexivity.
Qed.

End AtomicCalculators.

(** X14.  [PowerBasedCorrection.finalise] is all or nothing on the data
    frame.  For a node with its name and power column set, and any
    calculator that may raise on any row, add status messages or change
    the matrix but does not itself change the rows: either the call
    raises, the exception is one the calculator raised on a row, and
    the rows are those before the call; or it returns, and each row has
    gained the power column with a value the calculator returned for
    that row.  No column is ever partly written. *)
Theorem PowerBased_finalise_all_or_nothing {num pdm : Type} (self : node num)
    (name : string) (c : column) (calculator : gmap column num -> M num pdm num)
    (w : world num pdm) :
  correction_name self = Has name ->
  power_column self = Has c ->
  (forall r, frame_kept (calculator r)) ->
  (exists e w',
     PowerBasedCorrection.finalise self calculator w = (Raise e, w') /\
     Exists (fun r => exists w1 w2, calculator r w1 = (Raise e, w2)) (frame w) /\
     frame w' = frame w) \/
  (exists values w',
     PowerBasedCorrection.finalise self calculator w = (Return tt, w') /\
     Forall2 (fun r v => exists w1 w2, calculator r w1 = (Return v, w2)) (frame w) values /\
     frame w' = zip_with (fun r v => <[c := v]> r) (frame w) values).
Proof.
  intros Hname Hc Hcalc.
  pose proof (apply_rows_outcome calculator (frame w) w Hcalc) as Hout.
  unfold PowerBasedCorrection.finalise.
  destruct (DataFrame.apply calculator w) as [[values|e] w1] eqn:Happly;
    pose proof Happly as Hrows; unfold DataFrame.apply in Hrows; rewrite Hrows in Hout.
  - right. destruct Hout as [Hvalues Hframe].
    rewrite (bind_step _ _ _ _ _ Happly), Hc, Hname. unfold DataFrame.setitem. run.
    eexists values, _. split; [reflexivity|]. split; [exact Hvalues|].
    cbn [frame]. rewrite Hframe. reflexivity.
  - left. destruct Hout as [Hex Hframe]. exists e, w1.
    split; [apply bind_raise, Happly|]. split; assumption.
Qed.

(** The turbulence calculator on the frame of the sample chain, which
    has no turbulence column: the call raises and the rows are kept. *)
Lemma PowerBased_finalise_all_or_nothing_witness :
  PowerBasedCorrection.finalise Examples.turbulence
    (fun row => lift (TurbulencePowerCalculator.power
                        (TurbulencePowerCalculator.new Examples.curve 2000%Q
                           (Some "Density Wind Speed") (Some "TI")) row))
    Examples.w_density = (Raise (KeyError (Some "TI")), Examples.w_density) /\
  ((exists e w',
      PowerBasedCorrection.finalise Examples.turbulence
        (fun row => lift (TurbulencePowerCalculator.power
                            (TurbulencePowerCalculator.new Examples.curve 2000%Q
                               (Some "Density Wind Speed") (Some "TI")) row))
        Examples.w_density = (Raise e, w') /\
      Exists (fun r => exists w1 w2 : world Q unit,
                lift (TurbulencePowerCalculator.power
                        (TurbulencePowerCalculator.new Examples.curve 2000%Q
                           (Some "Density Wind Speed") (Some "TI")) r) w1 = (Raise e, w2))
             (frame Examples.w_density) /\
      frame w' = frame Examples.w_density) \/
   (exists values w',
      PowerBasedCorrection.finalise Examples.turbulence
        (fun row => lift (TurbulencePowerCalculator.power
                            (TurbulencePowerCalculator.new Examples.curve 2000%Q
                               (Some "Density Wind Speed") (Some "TI")) row))
        Examples.w_density = (Return tt, w') /\
      Forall2 (fun r v => exists w1 w2 : world Q unit,
                 lift (TurbulencePowerCalculator.power
                         (TurbulencePowerCalculator.new Examples.curve 2000%Q
                            (Some "Density Wind Speed") (Some "TI")) r) w1 = (Return v, w2))
              (frame Examples.w_density) values /\
      frame w' = zip_with (fun r v => <[Some "Density & Turbulence Power" := v]> r)
                   (frame Examples.w_density) values)).
Proof.
  split; [reflexivity|].
  apply (PowerBased_finalise_all_or_nothing Examples.turbulence "Density & Turbulence"
           (Some "Density & Turbulence Power")).
  - reflexivity.
  - reflexivity.
  - intros r. apply frame_kept_lift.
Defined.

(** The deviation-matrix calculator on the sample matrix with one
    parameter column missing: the matrix calculator raises on the first
    row, and no row has changed. *)
Example PowerBased_finalise_raises_clean :
  let calculator :=
    PowerDeviationMatrixPowerCalculator.new (Some Examples.curve) (Some "WS")
      (<["Turbulence" := Some "TI"]> ∅) in
  let self := set_power_column (Source.init None) (Some "1D Power Deviation Matrix Power") in
  let run := PowerBasedCorrection.finalise self
               (PowerDeviationMatrixPowerCalculator.power calculator) PdmExample.w in
  fst run = Raise (KeyError (Some "Shear")) /\ frame (snd run) = frame PdmExample.w.
Proof. split; reflexivity. Qed.

(** ** One matrix lookup per row *)

Section MatrixPass.
Context {num pdm : Type} `{PyFloat num} `{PyFormat num} `{DeviationMatrix num pdm}.
Implicit Types (w : world num pdm) (source : node num)
  (self : PowerDeviationMatrixPowerCalculator.t num).

Lemma collect_foldl self (row : gmap column num) (dims : list (dimension num))
    (acc : gmap string num) :
  Forall (fun d => is_Some (parameter_value self row (parameter d))) dims ->
  PowerDeviationMatrixPowerCalculator.collect self row dims acc =
  Return (foldl (fun parameters d =>
                   match parameter_value self row (parameter d) with
                   | Some value => <[parameter d := value]> parameters
                   | None => parameters
                   end) acc dims).
Proof.
  intros Hall. revert acc. induction Hall as [|d dims [v Hv] _ IH]; intros acc.
  - reflexivity.
  - cbn [PowerDeviationMatrixPowerCalculator.collect foldl]. rewrite Hv.
    unfold parameter_value in Hv.
    destruct (PowerDeviationMatrixPowerCalculator.parameterColumns self !! parameter d)
      as [c|]; [|discriminate].
    unfold row_get. rewrite Hv. apply IH.
Qed.

Lemma matrix_power_served self (pc : PowerCurve.t num) (row : gmap column num)
    (ws : num) w :
  PowerDeviationMatrixPowerCalculator.powerCurve self = Some pc ->
  row !! PowerDeviationMatrixPowerCalculator.windSpeedColumn self = Some ws ->
  Forall (fun d => is_Some (parameter_value self row (parameter d)))
         (dimensions (deviation_matrix w)) ->
  PowerDeviationMatrixPowerCalculator.power self row w =
  (Return (fmul (PowerCurve.power pc ws)
                (fadd (lit 1)
                   (fst (getitem (deviation_matrix w)
                           (row_parameters self (dimensions (deviation_matrix w)) row))))),
   World (frame w) (status w)
         (snd (getitem (deviation_matrix w)
                 (row_parameters self (dimensions (deviation_matrix w)) row)))).
Proof.
  intros Hpc Hws Hall. unfold PowerDeviationMatrixPowerCalculator.power.
  rewrite (collect_foldl self row _ ∅ Hall). fold (row_parameters self
    (dimensions (deviation_matrix w)) row).
  destruct (getitem (deviation_matrix w) _) as [deviation m'].
  rewrite Hpc. unfold row_get. rewrite Hws. reflexivity.
Qed.

Lemma apply_rows_matrix self (pc : PowerCurve.t num) (dims : list (dimension num))
    (rows : list (gmap column num)) w :
  (forall m parameters, dimensions (snd (getitem m parameters)) = dimensions m) ->
  PowerDeviationMatrixPowerCalculator.powerCurve self = Some pc ->
  dimensions (deviation_matrix w) = dims ->
  Forall (servable self dims) rows ->
  exists values : list num,
    DataFrame.apply_rows (PowerDeviationMatrixPowerCalculator.power self) rows w =
      (Return values,
       World (frame w) (status w) (snd (matrix_pass self (deviation_matrix w) rows))) /\
    length values = length rows /\
    forall (i : nat) (row : gmap column num),
      rows !! i = Some row ->
      exists ws deviation,
        row !! PowerDeviationMatrixPowerCalculator.windSpeedColumn self = Some ws /\
        fst (matrix_pass self (deviation_matrix w) rows) !! i = Some deviation /\
        values !! i = Some (fmul (PowerCurve.power pc ws) (fadd (lit 1) deviation)).
Proof.
  intros Hkeep Hpc Hdims Hall. revert w Hdims.
  induction Hall as [|row rows [[ws Hws] Hres] _ IH]; intros w Hdims.
  - exists []. split; [destruct w; reflexivity|]. split; [reflexivity|].
    intros i row Hi. rewrite lookup_nil in Hi. discriminate.
  - cbn [DataFrame.apply_rows matrix_pass].
    rewrite <- Hdims in Hres.
    rewrite (bind_step _ _ _ _ _ (matrix_power_served self pc row ws w Hpc Hws Hres)).
    destruct (getitem (deviation_matrix w)
                (row_parameters self (dimensions (deviation_matrix w)) row))
      as [deviation m1] eqn:Hget. cbn [fst snd].
    set (w1 := World (frame w) (status w) m1).
    assert (Hdims1 : dimensions (deviation_matrix w1) = dims).
    { cbn [w1 deviation_matrix]. rewrite <- Hdims.
      replace m1 with (snd (getitem (deviation_matrix w)
                              (row_parameters self (dimensions (deviation_matrix w)) row)))
        by (rewrite Hget; reflexivity).
      apply Hkeep. }
    destruct (IH w1 Hdims1) as (values & Happly & Hlen & Hrows).
    rewrite (bind_step _ _ _ _ _ Happly). cbn [w1 deviation_matrix frame status] in *.
    destruct (matrix_pass self m1 rows) as [deviations m2]. cbn [fst snd] in *.
    exists (fmul (PowerCurve.power pc ws) (fadd (lit 1) deviation) :: values).
    split; [reflexivity|]. split; [cbn; rewrite Hlen; reflexivity|].
    intros [|i] r Hi.
    + injection Hi as <-. exists ws, deviation. repeat split. exact Hws.
    + exact (Hrows i r Hi).
Qed.

End MatrixPass.

(** X15.  [PowerDeviationMatrixCorrection] looks the matrix up once per
    row, in row order, starting from the matrix as
    [reset_out_of_range_count] leaves it.  For a matrix whose
    dimensions are fixed, on a frame whose rows have the wind speed and
    resolve every dimension, the constructor returns, keeps the number
    of rows, writes in row [i] the power
    [power_curve.power(wind speed) * (1.0 + deviation_i)] into
    ["<name> Power"], where [deviation_i] is the answer to the [i]-th
    lookup of that pass, and leaves the matrix in the state after the
    last lookup: the report that follows reads the matrix and does not
    change it. *)
Theorem PowerDeviationMatrixCorrection_one_lookup_per_row {num pdm : Type}
    `{PyFloat num} `{PyFormat num} `{DeviationMatrix num pdm}
    (source : node num) (parameter_columns : gmap string column)
    (pc : PowerCurve.t num) (w : world num pdm) (swc : column) :
  constructed pdm source ->
  wind_speed_based source = true ->
  wind_speed_column source = Has swc ->
  (forall m parameters, dimensions (snd (getitem m parameters)) = dimensions m) ->
  dimensions (reset_out_of_range_count (deviation_matrix w)) =
    dimensions (deviation_matrix w) ->
  Forall (servable (PowerDeviationMatrixPowerCalculator.new (Some pc) swc parameter_columns)
                   (dimensions (deviation_matrix w))) (frame w) ->
  exists (name : string) (w' : world num pdm),
    let pass :=
      matrix_pass (PowerDeviationMatrixPowerCalculator.new (Some pc) swc parameter_columns)
                  (reset_out_of_range_count (deviation_matrix w)) (frame w) in
    Correction.calculate_name source
      ((PyStr.format_nat (length (dimensions (deviation_matrix w))) +:+ "D")
       +:+ " Power Deviation Matrix") w =
      (Return name, w) /\
    PowerDeviationMatrixCorrection.init source parameter_columns (Some pc) w =
      (Return (Node (Some source) false false true (Has name) Absent
                    (Has (Some (name +:+ " Power"))) (Has (Some pc)) Absent), w') /\
    deviation_matrix w' = snd pass /\
    length (frame w') = length (frame w) /\
    forall (i : nat) (row : gmap column num),
      frame w !! i = Some row ->
      exists ws deviation,
        row !! swc = Some ws /\
        fst pass !! i = Some deviation /\
        frame w' !! i =
          Some (<[Some (name +:+ " Power") :=
                    fmul (PowerCurve.power pc ws) (fadd (lit 1) deviation)]> row).
Proof.
  intros Hc Hw Hswc Hkeep Hreset Hall.
  set (calculator :=
         PowerDeviationMatrixPowerCalculator.new (Some pc) swc parameter_columns) in *.
  set (dims := dimensions (deviation_matrix w)) in *.
  pose proof (constructed_well_named _ Hc) as Hwn.
  destruct (PowerBased_init_accepts
              ((PyStr.format_nat (length dims) +:+ "D") +:+ " Power Deviation Matrix")
              source (Some pc) w Hwn Hw)
    as (name & self & Hname & _ & _ & Hinit).
  destruct (PowerBased_init_node _ _ _ _ _ _ Hinit) as (name' & Hname' & -> & _).
  assert (name' = name) as -> by congruence. clear Hname'.
  set (w1 := World (frame w)
                   (status w ++
                    [StatusEntry ("Performing " +:+ name +:+ " Correction...") false false])
                   (reset_out_of_range_count (deviation_matrix w))).
  destruct (apply_rows_matrix calculator pc dims (frame w) w1 Hkeep eq_refl Hreset Hall)
    as (values & Happly & Hlen & Hrows).
  exists name. cbv zeta.
  unfold PowerDeviationMatrixCorrection.init, PowerDeviationMatrixCorrection.ask,
    PowerDeviationMatrixCorrection.tell.
  run. fold dims. rewrite Hinit. cbn [frame status deviation_matrix]. fold w1.
  rewrite Hswc. fold calculator.
  unfold PowerBasedCorrection.finalise, DataFrame.apply. run.
  change (frame w1) with (frame w). rewrite Happly.
  cbn [power_column correction_name]. unfold DataFrame.setitem. cbn beta iota zeta.
  cbn [frame status deviation_matrix].
  rewrite report_dimensions_run. cbn [frame status deviation_matrix].
  eexists. split; [exact Hname|]. split; [reflexivity|].
  cbn [frame status deviation_matrix]. split; [reflexivity|]. split.
  - rewrite length_zip_with. change (frame w1) with (frame w). lia.
  - intros i row Hi. destruct (Hrows i row Hi) as (ws & deviation & Hws & Hdev & Hv).
    exists ws, deviation. split; [exact Hws|]. split; [exact Hdev|].
    change (frame w1) with (frame w).
    rewrite lookup_zip_with, Hi. cbn. rewrite Hv. reflexivity.
Qed.

Lemma PowerDeviationMatrixCorrection_one_lookup_per_row_witness :
  exists (name : string) (w' : world Q RangeMatrix.t),
    let pass :=
      matrix_pass (PowerDeviationMatrixPowerCalculator.new (Some Examples.curve)
                     (Some "WS") PdmExample.parameter_columns)
                  (reset_out_of_range_count (deviation_matrix PdmExample.w))
                  (frame PdmExample.w) in
    Correction.calculate_name (Source.init (Some "WS"))
      ((PyStr.format_nat (length (dimensions (deviation_matrix PdmExample.w))) +:+ "D")
       +:+ " Power Deviation Matrix") PdmExample.w =
      (Return name, PdmExample.w) /\
    PowerDeviationMatrixCorrection.init (Source.init (Some "WS"))
      PdmExample.parameter_columns (Some Examples.curve) PdmExample.w =
      (Return (Node (Some (Source.init (Some "WS"))) false false true (Has name) Absent
                    (Has (Some (name +:+ " Power"))) (Has (Some Examples.curve)) Absent),
       w') /\
    deviation_matrix w' = snd pass /\
    length (frame w') = length (frame PdmExample.w) /\
    forall (i : nat) (row : gmap column Q),
      frame PdmExample.w !! i = Some row ->
      exists ws deviation,
        row !! Some "WS" = Some ws /\
        fst pass !! i = Some deviation /\
        frame w' !! i =
          Some (<[Some (name +:+ " Power") :=
                    fmul (PowerCurve.power Examples.curve ws) (fadd (lit 1) deviation)]>
                  row).
Proof.
  apply (PowerDeviationMatrixCorrection_one_lookup_per_row (Source.init (Some "WS"))
           PdmExample.parameter_columns Examples.curve PdmExample.w (Some "WS")).
  - apply constructed_Source.
  - reflexivity.
  - reflexivity.
  - intros m parameters. reflexivity.
  - reflexivity.
  - repeat constructor; eexists; reflexivity.
Defined.
